(** * The audit agent: action-call parser and conversation loop

    A shallow embedding of [src/audit-agent/audit_agent.py]: the function
    [parse_action], the method [AuditAgent.execute_tool], the method
    [AuditAgent.run], the database and action tools and the main program,
    together with the parts of the Python runtime they rely on (string
    methods, [int] and [float], [shlex] in the configuration the parser
    selects, [json.dumps]).

    Python strings are modelled by [string]; a character is a code point
    below 256.  The language-model backend and the registered tools are
    parameters of the loop. *)

From Stdlib Require Import Strings.String Strings.Ascii List ZArith NArith Lia Bool.
From Stdlib Require Import Numbers.DecimalString.
Import ListNotations.
Local Open Scope list_scope.
Local Open Scope string_scope.

(* ====================================================================== *)
(** ** Python string methods *)
(* ====================================================================== *)

Module Py.

Definition code (c : ascii) : N := N_of_ascii c.

Definition in_range (lo hi : N) (c : ascii) : bool :=
  (N.leb lo (code c) && N.leb (code c) hi)%bool.

(** [c.isspace()]: TAB..CR, FS..US, SPACE, NEL and NBSP. *)
Definition isspace (c : ascii) : bool :=
  (in_range 9 13 c || in_range 28 31 c || N.eqb (code c) 32
   || N.eqb (code c) 133 || N.eqb (code c) 160)%bool.

(** A decimal digit [0-9], the characters [int] and [float] accept. *)
Definition isdecimal_char (c : ascii) : bool := in_range 48 57 c.

(** [c.isdigit()]: the decimal digits and the superscripts 2, 3 and 1. *)
Definition isdigit_char (c : ascii) : bool :=
  (isdecimal_char c || N.eqb (code c) 178 || N.eqb (code c) 179
   || N.eqb (code c) 185)%bool.

Definition lower_char (c : ascii) : ascii :=
  if (in_range 65 90 c
      || (in_range 192 222 c && negb (N.eqb (code c) 215)))%bool
  then ascii_of_N (code c + 32) else c.

Fixpoint all_chars (p : ascii -> bool) (s : string) : bool :=
  match s with
  | EmptyString => true
  | String c s' => (p c && all_chars p s')%bool
  end.

Definition nonempty (s : string) : bool :=
  match s with EmptyString => false | String _ _ => true end.

(** [s.isdigit()]: at least one character, and all of them digits. *)
Definition isdigit (s : string) : bool :=
  (nonempty s && all_chars isdigit_char s)%bool.

Fixpoint lower (s : string) : string :=
  match s with
  | EmptyString => EmptyString
  | String c s' => String (lower_char c) (lower s')
  end.

Fixpoint lstrip (s : string) : string :=
  match s with
  | EmptyString => EmptyString
  | String c s' => if isspace c then lstrip s' else s
  end.

Fixpoint rstrip (s : string) : string :=
  match s with
  | EmptyString => EmptyString
  | String c s' =>
      match rstrip s' with
      | EmptyString => if isspace c then EmptyString else String c EmptyString
      | r => String c r
      end
  end.

(** [s.strip()] *)
Definition strip (s : string) : string := rstrip (lstrip s).

(** [s.startswith(p)] *)
Definition startswith (p s : string) : bool := prefix p s.

Fixpoint last_char (s : string) : option ascii :=
  match s with
  | EmptyString => None
  | String c EmptyString => Some c
  | String _ s' => last_char s'
  end.

Definition first_char (s : string) : option ascii :=
  match s with
  | EmptyString => None
  | String c _ => Some c
  end.

Definition is_char (c : ascii) (o : option ascii) : bool :=
  match o with
  | Some d => Ascii.eqb c d
  | None => false
  end.

(** [sub in s] *)
Fixpoint contains (sub s : string) : bool :=
  if prefix sub s then true
  else match s with
       | EmptyString => false
       | String _ s' => contains sub s'
       end.

Fixpoint find_from (sub s : string) (i : Z) : Z :=
  if prefix sub s then i
  else match s with
       | EmptyString => (-1)%Z
       | String _ s' => find_from sub s' (i + 1)%Z
       end.

(** [s.find(sub)]: the lowest index of [sub], or -1. *)
Definition find (sub s : string) : Z := find_from sub s 0%Z.

Definition len (s : string) : Z := Z.of_nat (String.length s).

Definition clamp (n i : Z) : Z :=
  if (i <? 0)%Z then Z.max (i + n) 0 else Z.min i n.

(** [s[lo:hi]], negative indices counting from the end. *)
Definition slice (s : string) (lo hi : Z) : string :=
  let lo' := clamp (len s) lo in
  let hi' := clamp (len s) hi in
  substring (Z.to_nat lo') (Z.to_nat (hi' - lo')) s.

(** [s[lo:]] *)
Definition slice_from (s : string) (lo : Z) : string :=
  slice s lo (len s).

(** [s.replace(old, new)] and [s.replace(old, new, count)] for a
    non-empty [old]; [count = None] replaces every occurrence, scanning
    from the left without overlap.  [skip] counts the characters of a
    match still to be passed over. *)
Fixpoint replace_aux (old new : string) (count : option nat) (skip : nat)
         (s : string) : string :=
  match s with
  | EmptyString => EmptyString
  | String c s' =>
      match skip with
      | S k => replace_aux old new count k s'
      | O =>
          match count with
          | Some O => s
          | _ =>
              if prefix old s
              then new ++ replace_aux old new (option_map Nat.pred count)
                                      (String.length old - 1) s'
              else String c (replace_aux old new count 0 s')
          end
      end
  end.

Definition replace (old new : string) (count : option nat) (s : string) : string :=
  replace_aux old new count 0 s.

(** [s.split(sep)] for a non-empty [sep]. *)
Fixpoint split_aux (sep : string) (skip : nat) (s : string) : list string :=
  match s with
  | EmptyString => [EmptyString]
  | String c s' =>
      match skip with
      | S k => split_aux sep k s'
      | O =>
          if prefix sep s
          then EmptyString :: split_aux sep (String.length sep - 1) s'
          else match split_aux sep 0 s' with
               | h :: t => String c h :: t
               | [] => [String c EmptyString]
               end
      end
  end.

Definition split (sep s : string) : list string := split_aux sep 0 s.

(** [sep.join(l)] *)
Fixpoint join (sep : string) (l : list string) : string :=
  match l with
  | [] => EmptyString
  | [x] => x
  | x :: l' => x ++ sep ++ join sep l'
  end.

(** [l[-1]] of a list that [split] returned (never empty). *)
Definition last_piece (l : list string) : string := List.last l EmptyString.

Definition digit_value (c : ascii) : N := code c - 48.

Fixpoint digits_value (acc : N) (s : string) : N :=
  match s with
  | EmptyString => acc
  | String c s' => digits_value (acc * 10 + digit_value c) s'
  end.

(** [str(n)] of a non-negative integer. *)
Definition str_of_nat (n : nat) : string :=
  NilZero.string_of_uint (Nat.to_uint n).

Definition newline : string := String (ascii_of_N 10) EmptyString.

End Py.

(* ====================================================================== *)
(** ** Exceptions and results *)
(* ====================================================================== *)

(** The exceptions the parser can raise; all of them are [ValueError]s. *)
Inductive exn : Type :=
| NoClosingQuotation                 (* shlex: "No closing quotation" *)
| NoEscapedCharacter                 (* shlex: "No escaped character" *)
| InvalidIntLiteral (s : string)     (* int(s): not a literal *)
| IntTooManyDigits (digits : nat)    (* int(s): more digits than the limit *)
| InvalidFloatLiteral (s : string).  (* float(s) *)

Inductive result (A : Type) : Type :=
| Ok (a : A)
| Raise (e : exn).

Arguments Ok {A} a.
Arguments Raise {A} e.

Definition bind {A B : Type} (r : result A) (f : A -> result B) : result B :=
  match r with
  | Ok a => f a
  | Raise e => Raise e
  end.

Notation "x <- r ;; k" := (bind r (fun x => k))
  (at level 61, r at next level, right associativity).

(* ====================================================================== *)
(** ** [shlex.shlex(s, posix=True)] with [whitespace = ','],
       [whitespace_split = True] and [commenters = ''] *)
(* ====================================================================== *)

Module Shlex.

(** The lexer's [state] attribute: [' '], ['a'], an open quote character,
    or the escape character.  ([None], end of input, is where [tokens]
    stops.) *)
Inductive state : Type :=
| StSpace
| StWord
| StQuote (q : ascii)
| StEscape.

Definition comma : ascii := ascii_of_N 44.
Definition squote : ascii := ascii_of_N 39.
Definition dquote : ascii := ascii_of_N 34.
Definition backslash : ascii := ascii_of_N 92.

(** [nextchar in self.whitespace] *)
Definition is_whitespace (c : ascii) : bool := Ascii.eqb c comma.
(** [nextchar in self.quotes] *)
Definition is_quote (c : ascii) : bool :=
  (Ascii.eqb c squote || Ascii.eqb c dquote)%bool.
(** [nextchar in self.escape] *)
Definition is_escape (c : ascii) : bool := Ascii.eqb c backslash.
(** [self.state in self.escapedquotes] *)
Definition is_escapedquote (c : ascii) : bool := Ascii.eqb c dquote.
(** [nextchar in self.wordchars] (posix) *)
Definition is_wordchar (c : ascii) : bool :=
  (Py.in_range 97 122 c || Py.in_range 65 90 c || Py.in_range 48 57 c
   || N.eqb (Py.code c) 95
   || Py.in_range 192 214 c || Py.in_range 216 246 c
   || Py.in_range 248 255 c)%bool.

Definition push (token : string) (c : ascii) : string :=
  token ++ String c EmptyString.

Definition emit (token : string) (r : result (list string)) : result (list string) :=
  ts <- r ;; Ok (token :: ts).

(** [list(lex)]: [read_token] called until it returns [None].  The
    arguments are the lexer's [state] and the locals [token], [quoted]
    and [escapedstate] of the running [read_token]; each [break] hands
    [token] to the iterator and the next [read_token] starts with fresh
    locals.  One character is read per iteration. *)
Fixpoint tokens (st : state) (token : string) (quoted : bool)
         (escapedstate : state) (input : string) : result (list string) :=
  match input with
  | EmptyString =>
      match st with
      | StSpace => Ok []
      | StWord =>
          if (Py.nonempty token || quoted)%bool then Ok [token] else Ok []
      | StQuote _ => Raise NoClosingQuotation
      | StEscape => Raise NoEscapedCharacter
      end
  | String nextchar rest =>
      match st with
      | StSpace =>
          if is_whitespace nextchar then
            if (Py.nonempty token || quoted)%bool
            then emit token (tokens StSpace EmptyString false StSpace rest)
            else tokens StSpace token quoted escapedstate rest
          else if is_escape nextchar then
            tokens StEscape token quoted StWord rest
          else if is_wordchar nextchar then
            tokens StWord (String nextchar EmptyString) quoted escapedstate rest
          else if is_quote nextchar then
            tokens (StQuote nextchar) token quoted escapedstate rest
          else (* whitespace_split *)
            tokens StWord (String nextchar EmptyString) quoted escapedstate rest
      | StQuote q =>
          (* quoted = True *)
          if Ascii.eqb nextchar q then
            tokens StWord token true escapedstate rest
          else if (is_escape nextchar && is_escapedquote q)%bool then
            tokens StEscape token true (StQuote q) rest
          else
            tokens (StQuote q) (push token nextchar) true escapedstate rest
      | StEscape =>
          let token' :=
            match escapedstate with
            | StQuote q =>
                if (negb (Ascii.eqb nextchar backslash)
                    && negb (Ascii.eqb nextchar q))%bool
                then push token backslash else token
            | _ => token
            end in
          tokens escapedstate (push token' nextchar) quoted escapedstate rest
      | StWord =>
          if is_whitespace nextchar then
            if (Py.nonempty token || quoted)%bool
            then emit token (tokens StSpace EmptyString false StSpace rest)
            else tokens StSpace token quoted escapedstate rest
          else if is_quote nextchar then
            tokens (StQuote nextchar) token quoted escapedstate rest
          else if is_escape nextchar then
            tokens StEscape token quoted StWord rest
          else
            tokens StWord (push token nextchar) quoted escapedstate rest
      end
  end.

(** [list(lex)] of a fresh lexer on [s]. *)
Definition split (s : string) : result (list string) :=
  tokens StSpace EmptyString false StSpace s.

End Shlex.

(* ====================================================================== *)
(** ** The argument parser *)
(* ====================================================================== *)

(** An argument value.  [VFloat m k] is [float] of the decimal literal
    [m / 10^k]; the rounding to a double is not modelled. *)
Inductive value : Type :=
| VInt (n : N)
| VFloat (mantissa : N) (scale : nat)
| VBool (b : bool)
| VNone
| VStr (s : string).

(** A [dict] with string keys, in insertion order. *)
Definition dict (A : Type) : Type := list (string * A).

(** [d[k] = v] *)
Fixpoint dict_set {A : Type} (k : string) (v : A) (d : dict A) : dict A :=
  match d with
  | [] => [(k, v)]
  | (k', v') :: d' =>
      if String.eqb k k' then (k', v) :: d' else (k', v') :: dict_set k v d'
  end.

(** [d.get(k)] *)
Fixpoint dict_get {A : Type} (k : string) (d : dict A) : option A :=
  match d with
  | [] => None
  | (k', v') :: d' => if String.eqb k k' then Some v' else dict_get k d'
  end.

Definition ACTION : string := "ACTION:".

(** The default of [sys.int_info.default_max_str_digits]. *)
Definition INT_MAX_STR_DIGITS : nat := 4300.

(** The decimal digits that [s] starts with. *)
Fixpoint leading_decimals (s : string) : nat :=
  match s with
  | EmptyString => 0
  | String c s' =>
      if Py.isdecimal_char c then S (leading_decimals s') else 0
  end.

(** [int(val)], reached when [val.isdigit()]: the digits at the start are
    counted against the limit first, then anything that is not a decimal
    digit is refused. *)
Definition py_int (val : string) : result value :=
  if Nat.ltb INT_MAX_STR_DIGITS (leading_decimals val)
  then Raise (IntTooManyDigits (leading_decimals val))
  else if Py.all_chars Py.isdecimal_char val
  then Ok (VInt (Py.digits_value 0 val))
  else Raise (InvalidIntLiteral val).

(** [float(val)], reached when [val.replace('.', '', 1).isdigit()]. *)
Definition py_float (val : string) : result value :=
  let digits := Py.replace "." EmptyString (Some 1) val in
  if Py.all_chars Py.isdecimal_char digits
  then Ok (VFloat (Py.digits_value 0 digits)
                  (Z.to_nat (Py.len val - 1 - Py.find "." val)))
  else Raise (InvalidFloatLiteral val).

Definition wrapped_in (q : ascii) (val : string) : bool :=
  (Py.is_char q (Py.first_char val) && Py.is_char q (Py.last_char val))%bool.

(** The coercion chain of lines 258-271 and, again, of lines 275-288. *)
Definition coerce (val : string) : result value :=
  if Py.isdigit val then py_int val
  else if Py.isdigit (Py.replace "." EmptyString (Some 1) val) then py_float val
  else if String.eqb (Py.lower val) "true" then Ok (VBool true)
  else if String.eqb (Py.lower val) "false" then Ok (VBool false)
  else if String.eqb (Py.lower val) "none" then Ok VNone
  else if (wrapped_in Shlex.dquote val || wrapped_in Shlex.squote val)%bool
       then Ok (VStr (Py.slice val 1 (-1)))
       else Ok (VStr val).

(** [token.split('=', 1)] of a token that contains ['=']. *)
Fixpoint split_eq (token : string) : string * string :=
  match token with
  | EmptyString => (EmptyString, EmptyString)
  | String c rest =>
      if Ascii.eqb c "=" then (EmptyString, rest)
      else let (k, v) := split_eq rest in (String c k, v)
  end.

(** The loop [for token in tokens] of lines 252-289. *)
Fixpoint collect (tokens : list string) (args : list value) (kwargs : dict value)
  : result (list value * dict value) :=
  match tokens with
  | [] => Ok (args, kwargs)
  | token :: tokens' =>
      let token := Py.strip token in
      if Py.contains "=" token then
        let (key, val) := split_eq token in
        let key := Py.strip key in
        let val := Py.strip val in
        v <- coerce val ;;
        collect tokens' args (dict_set key v kwargs)
      else
        v <- coerce token ;;
        collect tokens' (args ++ [v]) kwargs
  end.

(** The [while] loop of lines 228-239 over [rest], the characters of
    [action_text] from [end_idx] on; it returns [depth] and [end_idx]. *)
Fixpoint scan (rest : string) (depth : Z) (in_single_quote in_double_quote : bool)
         (end_idx : Z) : Z * Z :=
  match rest with
  | EmptyString => (depth, end_idx)
  | String char rest' =>
      if (depth >? 0)%Z then
        let in_single_quote' :=
          if (Ascii.eqb char Shlex.squote && negb in_double_quote)%bool
          then negb in_single_quote else in_single_quote in
        let in_double_quote' :=
          if (Ascii.eqb char Shlex.squote && negb in_double_quote)%bool
          then in_double_quote
          else if (Ascii.eqb char Shlex.dquote && negb in_single_quote)%bool
               then negb in_double_quote else in_double_quote in
        let depth' :=
          if (negb in_single_quote' && negb in_double_quote')%bool then
            if Ascii.eqb char "(" then (depth + 1)%Z
            else if Ascii.eqb char ")" then (depth - 1)%Z
            else depth
          else depth in
        scan rest' depth' in_single_quote' in_double_quote' (end_idx + 1)%Z
      else (depth, end_idx)
  end.

(** A parsed call [(tool_name, args, kwargs)]; [None] is the triple
    [(None, None, None)]. *)
Definition parsed : Type := string * list value * dict value.

(** The body of [if line.startswith('ACTION:')], lines 219-290. *)
Definition parse_line (line : string) : result (option parsed) :=
  let action_text := Py.strip (Py.replace ACTION EmptyString (Some 1) line) in
  if (negb (Py.contains "(" action_text) && negb (Py.contains ")" action_text))%bool
  then Ok (Some (Py.strip action_text, [], []))
  else
    let start_idx := Py.find "(" action_text in
    let tool_name := Py.strip (Py.slice action_text 0 start_idx) in
    let '(depth, end_idx) :=
      scan (Py.slice_from action_text (start_idx + 1)) 1 false false
           (start_idx + 1) in
    if negb (depth =? 0)%Z then Ok None
    else
      let args_part :=
        Py.strip (Py.slice action_text (start_idx + 1) (end_idx - 1)) in
      if negb (Py.nonempty args_part) then Ok (Some (tool_name, [], []))
      else
        tokens <- Shlex.split args_part ;;
        r <- collect tokens [] [] ;;
        Ok (Some (tool_name, fst r, snd r)).

Fixpoint parse_lines (lines : list string) : result (option parsed) :=
  match lines with
  | [] => Ok None
  | line :: lines' =>
      if Py.startswith ACTION line then parse_line line
      else parse_lines lines'
  end.

Definition parse_action (text : string) : result (option parsed) :=
  parse_lines (Py.split Py.newline (Py.strip text)).

(* ====================================================================== *)
(** ** [json.dumps(obj, ensure_ascii=False)] *)
(* ====================================================================== *)

Module Json.

(** The objects the agent serialises: strings, step numbers, lists and
    dicts with string keys. *)
#[warnings="-register-all"]
Inductive json : Type :=
| JStr (s : string)
| JInt (n : nat)
| JList (l : list json)
| JDict (d : list (string * json)).

Definition dq : string := String Shlex.dquote EmptyString.
Definition bs : string := String Shlex.backslash EmptyString.

Definition hex_digit (n : N) : ascii :=
  if N.ltb n 10 then ascii_of_N (48 + n) else ascii_of_N (87 + n).

(** [ESCAPE_DCT]: the replacement of one character inside a string. *)
Definition escape_char (c : ascii) : string :=
  let n := Py.code c in
  if N.eqb n 92 then bs ++ bs
  else if N.eqb n 34 then bs ++ dq
  else if N.eqb n 8 then bs ++ "b"
  else if N.eqb n 12 then bs ++ "f"
  else if N.eqb n 10 then bs ++ "n"
  else if N.eqb n 13 then bs ++ "r"
  else if N.eqb n 9 then bs ++ "t"
  else if N.ltb n 32
       then bs ++ "u00" ++ String (hex_digit (N.div n 16))
                             (String (hex_digit (N.modulo n 16)) EmptyString)
       else String c EmptyString.

Fixpoint escape (s : string) : string :=
  match s with
  | EmptyString => EmptyString
  | String c s' => escape_char c ++ escape s'
  end.

Definition encode_string (s : string) : string := dq ++ escape s ++ dq.

Fixpoint dumps (j : json) : string :=
  match j with
  | JStr s => encode_string s
  | JInt n => Py.str_of_nat n
  | JList l => "[" ++ Py.join ", " (List.map dumps l) ++ "]"
  | JDict d =>
      "{" ++ Py.join ", "
               (List.map (fun kv => let '(k, v) := kv in
                                    (encode_string k ++ ": " ++ dumps v)%string) d)
          ++ "}"
  end.

End Json.

(* ====================================================================== *)
(** ** The agent *)
(* ====================================================================== *)

(** [{"role": ..., "content": ...}] *)
Record message : Type := { role : string; content : string }.

(** [{"tool": tool_name, "result": observation}] *)
Record tool_call : Type := { tool : string; tool_result : string }.

(** [{"thought": thought, "tools": tool_calls}] *)
Record step_entry : Type := { thought : string; tools_called : list tool_call }.

(** What calling a registered tool does: it returns a string, or raises an
    exception of class [Exception] whose [str] is [msg]. *)
Inductive outcome : Type :=
| Returns (s : string)
| Throws (msg : string).

Definition MAX_ACTIONS_PER_STEP : nat := 5.
Definition DEFAULT_MAX_STEPS : nat := 20.
Definition STEP_JSON : string := "STEP_JSON:".
Definition FINAL_ANSWER : string := "FINAL ANSWER:".
Definition CORRECTIVE : string :=
  "Please use ACTION: tool_name(arguments) or provide your FINAL ANSWER:".
Definition MAX_STEPS_REACHED : string := "Max steps reached.".

Definition nl : string := Py.newline.

Definition json_of_tool_call (tc : tool_call) : Json.json :=
  Json.JDict [("tool", Json.JStr (tool tc)); ("result", Json.JStr (tool_result tc))].

Definition json_of_step_entry (e : step_entry) : Json.json :=
  Json.JDict [("thought", Json.JStr (thought e));
              ("tools", Json.JList (List.map json_of_tool_call (tools_called e)))].

(** [step_data] of line 428 *)
Definition step_record (step_num : nat) (thought : string)
           (tool_calls : list tool_call) : Json.json :=
  Json.JDict [("type", Json.JStr "step"); ("step", Json.JInt step_num);
              ("thought", Json.JStr thought);
              ("tools", Json.JList (List.map json_of_tool_call tool_calls))].

(** [step_data] of line 404 *)
Definition final_record (thought final_part : string) (steps : list step_entry)
  : Json.json :=
  Json.JDict [("type", Json.JStr "final"); ("thought", Json.JStr thought);
              ("answer", Json.JStr final_part);
              ("steps", Json.JList (List.map json_of_step_entry steps))].

(** The dict of line 451 *)
Definition max_steps_record (steps : list step_entry) : Json.json :=
  Json.JDict [("type", Json.JStr "final"); ("answer", Json.JStr MAX_STEPS_REACHED);
              ("steps", Json.JList (List.map json_of_step_entry steps))].

(** One [print] of a [STEP_JSON:] line. *)
Definition emit_json (j : Json.json) : string := STEP_JSON ++ Json.dumps j.

Fixpoint repeat_string (s : string) (n : nat) : string :=
  match n with
  | O => EmptyString
  | S n' => s ++ repeat_string s n'
  end.

(** The first line that starts with [thought:], lines 392-396. *)
Fixpoint extract_thought (lines : list string) : string :=
  match lines with
  | [] => EmptyString
  | line :: lines' =>
      if Py.startswith "thought:" (Py.lower (Py.strip line))
      then Py.strip (Py.slice_from (Py.strip line) 8)
      else extract_thought lines'
  end.

(** Line 399 *)
Definition is_final (llm_reply : string) : bool :=
  (Py.contains FINAL_ANSWER llm_reply && negb (Py.contains ACTION llm_reply))%bool.

(** Lines 400-401 *)
Definition final_part_of (llm_reply : string) : string :=
  let final_part := Py.strip (Py.last_piece (Py.split FINAL_ANSWER llm_reply)) in
  Py.strip (Py.replace "Goodbye!" EmptyString None
              (Py.replace "You: quit" EmptyString None final_part)).

(** Line 412 *)
Definition action_lines_of (llm_reply : string) : list string :=
  List.filter (fun l => Py.startswith ACTION (Py.strip l)) (Py.split nl llm_reply).

Definition observation_text (tool_name observation : string) : string :=
  "Tool: " ++ tool_name ++ nl ++ "Result: " ++ observation.

(** The user turn of lines 436-443 *)
Definition observations_turn (observations : list string) : message :=
  {| role := "user";
     content := "OBSERVATIONS:" ++ nl ++ Py.join (nl ++ nl) observations ++ nl ++ nl
                ++ "Based on these observations, what is your next step? "
                ++ "If done, provide FINAL ANSWER. Do NOT include ACTION lines if concluding." |}.

(** The user turn of lines 445-448 *)
Definition corrective_turn : message :=
  {| role := "user"; content := CORRECTIVE |}.

Section Agent.

(** The state of everything outside the agent: database, mail, files,
    the model service. *)
Variable W : Type.

(** [self.call_llm] *)
Variable call_llm : list message -> W -> string * W.

(** [self.tools]: a callable applied to [*args, **kwargs]. *)
Variable tools : dict (list value -> dict value -> W -> outcome * W).

(** [self.system_prompt], the literal of lines 311-357. *)
Variable system_prompt : string.

Definition execute_tool (tool_name : string) (args : list value)
           (kwargs : dict value) (w : W) : string * W :=
  match dict_get tool_name tools with
  | None => ("Error: unknown tool '" ++ tool_name ++ "'", w)
  | Some f =>
      match f args kwargs w with
      | (Returns s, w') => (s, w')
      | (Throws msg, w') => ("Error executing " ++ tool_name ++ ": " ++ msg, w')
      end
  end.

(** The [for line in action_lines] loop of lines 417-425, with its
    locals; an exception of [parse_action] leaves the loop. *)
Fixpoint run_actions (action_lines : list string) (observations : list string)
         (tool_calls : list tool_call) (action_count : nat) (w : W)
  : result (list string * list tool_call) * W :=
  match action_lines with
  | [] => (Ok (observations, tool_calls), w)
  | line :: action_lines' =>
      if Nat.leb MAX_ACTIONS_PER_STEP action_count
      then (Ok (observations, tool_calls), w)
      else
        let action_count := action_count + 1 in
        match parse_action line with
        | Raise e => (Raise e, w)
        | Ok None => run_actions action_lines' observations tool_calls action_count w
        | Ok (Some (tool_name, args, kwargs)) =>
            if Py.nonempty tool_name then
              let '(observation, w') := execute_tool tool_name args kwargs w in
              run_actions action_lines'
                (observations ++ [observation_text tool_name observation])
                (tool_calls ++ [{| tool := tool_name; tool_result := observation |}])
                action_count w'
            else run_actions action_lines' observations tool_calls action_count w
        end
  end.

(** What [run] has built so far: the transcript, the step history, what
    it printed (one entry per [print]) and the outside world. *)
Record state : Type :=
  { messages : list message;
    steps : list step_entry;
    stdout : list string;
    world : W }.

(** How one iteration of the loop ends. *)
Inductive iteration : Type :=
| Return (final_part : string) (st : state)
| Next (st : state)
| Abort (e : exn) (st : state).

(** The body of [for step_num in range(1, max_steps + 1)]. *)
Definition step (structured : bool) (step_num : nat) (st : state) : iteration :=
  let '(llm_reply, w1) := call_llm (messages st) (world st) in
  let thought := extract_thought (Py.split nl llm_reply) in
  if is_final llm_reply then
    let final_part := final_part_of llm_reply in
    let printed :=
      if structured
      then [emit_json (final_record thought final_part (steps st))]
      else [nl ++ "FINAL ANALYSIS:" ++ nl ++ final_part ++ nl;
            repeat_string "=" 70] in
    Return final_part
      {| messages := messages st; steps := steps st;
         stdout := stdout st ++ printed; world := w1 |}
  else
    match run_actions (action_lines_of llm_reply) [] [] 0 w1 with
    | (Raise e, w2) =>
        Abort e {| messages := messages st; steps := steps st;
                   stdout := stdout st; world := w2 |}
    | (Ok (observations, tool_calls), w2) =>
        let printed :=
          if (structured && negb (Nat.eqb (List.length tool_calls) 0))%bool
          then [emit_json (step_record step_num thought tool_calls)]
          else [] in
        Next {| messages :=
                  messages st
                  ++ [{| role := "assistant"; content := llm_reply |};
                      if negb (Nat.eqb (List.length tool_calls) 0)
                      then observations_turn observations
                      else corrective_turn];
                steps := steps st ++ [{| thought := thought; tools_called := tool_calls |}];
                stdout := stdout st ++ printed;
                world := w2 |}
    end.

(** The [for] loop: [remaining] iterations from [step_num] on, then
    lines 450-452.  The value is what [run] returns ([None] after the
    last step) or the exception it raises. *)
Fixpoint run_loop (structured : bool) (remaining step_num : nat) (st : state)
  : result (option string) * state :=
  match remaining with
  | O =>
      (Ok None,
       {| messages := messages st; steps := steps st;
          stdout := stdout st
                    ++ (if structured
                        then [emit_json (max_steps_record (steps st))]
                        else []);
          world := world st |})
  | S remaining' =>
      match step structured step_num st with
      | Return final_part st' => (Ok (Some final_part), st')
      | Abort e st' => (Raise e, st')
      | Next st' => run_loop structured remaining' (step_num + 1) st'
      end
  end.

(** [run(question, max_steps, structured)] started in the world [w]. *)
Definition run (question : string) (max_steps : nat) (structured : bool) (w : W)
  : result (option string) * state :=
  run_loop structured max_steps 1
    {| messages := [{| role := "system"; content := system_prompt |};
                    {| role := "user"; content := question |}];
       steps := [];
       stdout := [];
       world := w |}.

(** The specification of "executed in order": the calls of [ps] made one
    after the other, each in the world the one before it left.  It yields
    the observations, the tool calls and the last world. *)
Fixpoint execute_all (ps : list parsed) (obs : list string)
         (calls : list tool_call) (w : W) : list string * list tool_call * W :=
  match ps with
  | [] => (obs, calls, w)
  | (name, args, kwargs) :: ps' =>
      let '(o, w') := execute_tool name args kwargs w in
      execute_all ps' (obs ++ [observation_text name o])
                  (calls ++ [{| tool := name; tool_result := o |}]) w'
  end.

End Agent.

Arguments messages {W} _.
Arguments steps {W} _.
Arguments stdout {W} _.
Arguments world {W} _.
Arguments Return {W} _ _.
Arguments Next {W} _.
Arguments Abort {W} _ _.

(** The line [l] parses to the call [p] of a tool with a non-empty name. *)
Definition callable (l : string) (p : parsed) : Prop :=
  parse_action l = Ok (Some p) /\ Py.nonempty (fst (fst p)) = true.

(* ====================================================================== *)
(** ** The coercion grammar in the words of the specification *)
(* ====================================================================== *)

(** Section 4.1, step 7 of the specification: "integer literal (all-digit)
    -> integer; else a decimal literal (digits with a single interior [.])
    -> float; else case-insensitive true/false -> boolean; else
    case-insensitive none/null sentinel -> null; else if the token is
    wrapped in a single matching pair of quotes (both single or both
    double), strip them -> string; else the literal token text ->
    string".  [spec_coercion] follows these words, not the code. *)

(** The text before and after the first [.] of [s]. *)
Fixpoint dot_parts (s : string) : option (string * string) :=
  match s with
  | EmptyString => None
  | String c s' =>
      if Ascii.eqb c "." then Some (EmptyString, s')
      else match dot_parts s' with
           | Some (a, b) => Some (String c a, b)
           | None => None
           end
  end.

Definition is_integer_literal (s : string) : bool :=
  (Py.nonempty s && Py.all_chars Py.isdecimal_char s)%bool.

Definition is_decimal_literal (s : string) : bool :=
  match dot_parts s with
  | Some (a, b) => (is_integer_literal a && is_integer_literal b)%bool
  | None => false
  end.

Definition quoted_pair (s : string) : bool :=
  (Nat.leb 2 (String.length s)
   && (wrapped_in Shlex.squote s || wrapped_in Shlex.dquote s))%bool.

Definition spec_coercion (token : string) : value :=
  if is_integer_literal token then VInt (Py.digits_value 0 token)
  else if is_decimal_literal token then
    match dot_parts token with
    | Some (a, b) => VFloat (Py.digits_value 0 (a ++ b)) (String.length b)
    | None => VStr token
    end
  else if String.eqb (Py.lower token) "true" then VBool true
  else if String.eqb (Py.lower token) "false" then VBool false
  else if (String.eqb (Py.lower token) "none"
           || String.eqb (Py.lower token) "null")%bool then VNone
  else if quoted_pair token
       then VStr (substring 1 (String.length token - 2) token)
       else VStr token.

(** Every digit of [s] is one of [0-9]. *)
Definition ascii_digits (s : string) : bool :=
  Py.all_chars (fun c => (negb (Py.isdigit_char c) || Py.isdecimal_char c)%bool) s.

(** [s] starts or ends with [.]. *)
Definition edge_dot (s : string) : bool :=
  (Py.is_char "." (Py.first_char s) || Py.is_char "." (Py.last_char s))%bool.

(** [s] is one quote character. *)
Definition lone_quote (s : string) : bool :=
  (Nat.eqb (String.length s) 1
   && (wrapped_in Shlex.squote s || wrapped_in Shlex.dquote s))%bool.

(** The grammar with the three changes that the code makes to it: the
    single [.] of a decimal may also come first or last, [null] is not a
    sentinel, and one quote character alone counts as a pair of quotes
    around nothing.  [amended_coercion] follows these words. *)

(** Digits around a single [.], which may come first or last. *)
Definition is_dotted_decimal (s : string) : bool :=
  match dot_parts s with
  | Some (a, b) =>
      (Py.all_chars Py.isdecimal_char a && Py.all_chars Py.isdecimal_char b
       && Py.nonempty (a ++ b))%bool
  | None => false
  end.

Definition amended_coercion (token : string) : value :=
  if is_integer_literal token then VInt (Py.digits_value 0 token)
  else if is_dotted_decimal token then
    match dot_parts token with
    | Some (a, b) => VFloat (Py.digits_value 0 (a ++ b)) (String.length b)
    | None => VStr token
    end
  else if String.eqb (Py.lower token) "true" then VBool true
  else if String.eqb (Py.lower token) "false" then VBool false
  else if String.eqb (Py.lower token) "none" then VNone
  else if (wrapped_in Shlex.squote token || wrapped_in Shlex.dquote token)%bool
       then VStr (substring 1 (String.length token - 2) token)
       else VStr token.

(** An integer literal has no more digits than [int] accepts. *)
Definition within_int_limit (token : string) : bool :=
  (negb (is_integer_literal token)
   || Nat.leb (String.length token) INT_MAX_STR_DIGITS)%bool.

(* ====================================================================== *)
(** ** Well-formed calls *)
(* ====================================================================== *)

(** The characters with a meaning for the parser: newline, comma, the two
    quotes, backslash, parentheses and [=]. *)
Definition special_char (c : ascii) : bool :=
  (Ascii.eqb c (ascii_of_N 10) || Ascii.eqb c Shlex.comma
   || Ascii.eqb c Shlex.squote || Ascii.eqb c Shlex.dquote
   || Ascii.eqb c Shlex.backslash
   || Ascii.eqb c "(" || Ascii.eqb c ")" || Ascii.eqb c "=")%bool.

Definition plain_char (c : ascii) : bool := negb (special_char c).

Definition not_space (o : option ascii) : bool :=
  match o with
  | Some c => negb (Py.isspace c)
  | None => false
  end.

(** A name, an argument or a key written without quoting: not empty, no
    special character, no white space at either end. *)
Definition plain (t : string) : bool :=
  (Py.all_chars plain_char t
   && not_space (Py.first_char t) && not_space (Py.last_char t))%bool.

(** The characters the scan of lines 228-239 passes over unchanged. *)
Definition scan_inert (c : ascii) : bool :=
  negb (Ascii.eqb c Shlex.squote || Ascii.eqb c Shlex.dquote
        || Ascii.eqb c "(" || Ascii.eqb c ")")%bool.

(** The characters the lexer adds to the current token: anything but the
    comma, the quotes and the backslash. *)
Definition lex_inert (c : ascii) : bool :=
  negb (Shlex.is_whitespace c || Shlex.is_quote c || Shlex.is_escape c)%bool.

(** [ACTION: NAME(a, b, k=v)] *)
Definition call_text (NAME a b k v : string) : string :=
  "ACTION: " ++ NAME ++ "(" ++ a ++ ", " ++ b ++ ", " ++ k ++ "=" ++ v ++ ")".

(** An argument as it is written in a call: a bare token, or a text
    between two quotes of the same kind. *)
Inductive arg : Type :=
| Bare (token : string)
| Quoted (q : ascii) (body : string).

Definition arg_text (a : arg) : string :=
  match a with
  | Bare token => token
  | Quoted q body => String q (body ++ String q EmptyString)
  end.

(** What the lexer makes of an argument: the token, or the text between
    the quotes. *)
Definition arg_payload (a : arg) : string :=
  match a with
  | Bare token => token
  | Quoted _ body => body
  end.

(** The value that the amended grammar gives an argument: the coercion of
    the token, or of the text between the quotes.  The quotes keep commas,
    spaces and parentheses inside one argument; they do not keep a text
    from being read as a number, a boolean or [none]. *)
Definition arg_value (a : arg) : value := amended_coercion (arg_payload a).

(** The characters of a quoted text: no line feed, no quote of either
    kind, no backslash and no [=]; commas, spaces and parentheses are
    allowed. *)
Definition quotable_char (c : ascii) : bool :=
  negb (Ascii.eqb c (ascii_of_N 10) || Ascii.eqb c Shlex.squote
        || Ascii.eqb c Shlex.dquote || Ascii.eqb c Shlex.backslash
        || Ascii.eqb c "=")%bool.

(** A well-formed argument: a plain token, or a text of quotable
    characters between two quotes of the same kind, without white space at
    either end.  In both the digits are [0-9] and an integer literal is
    within the limit of [int]. *)
Definition well_formed_arg (a : arg) : bool :=
  match a with
  | Bare token => (plain token && ascii_digits token && within_int_limit token)%bool
  | Quoted q body =>
      (Shlex.is_quote q && Py.all_chars quotable_char body
       && not_space (Py.first_char body) && not_space (Py.last_char body)
       && ascii_digits body && within_int_limit body)%bool
  end.

(** No line feed and no carriage return in [s]. *)
Definition single_line (s : string) : bool :=
  Py.all_chars (fun c => negb (Ascii.eqb c (ascii_of_N 10)
                               || Ascii.eqb c (ascii_of_N 13))%bool) s.

(* ====================================================================== *)
(** ** A small registry and scripted replies, for the examples *)
(* ====================================================================== *)

Module Sample.

(** The sample world is the log of the tools that ran, oldest first. *)
Definition log : Type := list string.

Definition logged (name : string) (o : outcome)
    : list value -> dict value -> log -> outcome * log :=
  fun _ _ w => (o, (w ++ [name])%list).

(** [query_postgres(query)]: one positional string or the keyword
    [query]; any other binding of the arguments is a [TypeError]. *)
Definition query_postgres (args : list value) (kwargs : dict value) (w : log)
  : outcome * log :=
  match args, kwargs with
  | [VStr _], [] => (Returns "Query returned no rows.", (w ++ ["query_postgres"])%list)
  | [], [("query", VStr _)] =>
      (Returns "Query returned no rows.", (w ++ ["query_postgres"])%list)
  | _, _ => (Throws "query_postgres() got an unexpected keyword argument",
             (w ++ ["query_postgres"])%list)
  end.

Definition tools : dict (list value -> dict value -> log -> outcome * log) :=
  [("query_postgres", query_postgres);
   ("list_tables", logged "list_tables" (Returns "Available tables: audit_events"));
   ("get_table_schema",
    logged "get_table_schema" (Returns "Table 'users' not found or no access."));
   ("get_distinct_statuses",
    logged "get_distinct_statuses" (Returns "Query returned no rows."))].

(** A model that answers [reply] whatever the transcript. *)
Definition always (reply : string) : list message -> log -> string * log :=
  fun _ w => (reply, w).

(** A model that answers [first] to the opening transcript (the system
    prompt and the question) and [final] to every longer one. *)
Definition then_final (first final : string)
  : list message -> log -> string * log :=
  fun transcript w =>
    (if Nat.leb (List.length transcript) 2 then first else final,
     (w ++ ["call_llm"])%list).

Definition lines (ls : list string) : string := Py.join nl ls.

Definition seven_actions : string :=
  lines ["Thought: look around";
         "ACTION: list_tables()";
         "ACTION: get_table_schema(users)";
         "ACTION: get_distinct_statuses";
         "ACTION: list_tables";
         "ACTION: get_table_schema(audit_events)";
         "ACTION: get_distinct_statuses()";
         "ACTION: list_tables()"].

Definition five_called : list parsed :=
  [("list_tables", [], []);
   ("get_table_schema", [VStr "users"], []);
   ("get_distinct_statuses", [], []);
   ("list_tables", [], []);
   ("get_table_schema", [VStr "audit_events"], [])].

(** Five unterminated calls, then a well-formed one. *)
Definition five_malformed_then_one : string :=
  lines ["ACTION: list_tables(";
         "ACTION: list_tables(";
         "ACTION: list_tables(";
         "ACTION: list_tables(";
         "ACTION: list_tables(";
         "ACTION: list_tables()"].

Definition final_with_action : string :=
  lines ["ACTION: list_tables()"; "FINAL ANSWER: done"].

Definition dangling_backslash : string := "ACTION: list_tables(a\)".

(** [ACTION: list_tables("a\")]: the backslash escapes the closing quote. *)
Definition escaped_closing_quote : string :=
  "ACTION: list_tables(" ++ Json.dq ++ "a" ++ Json.bs ++ Json.dq ++ ")".

(** The call that rule 3 of the system prompt (line 331) tells the model
    to make. *)
Definition prompt_rule_3_call : string :=
  "ACTION: query_postgres(" ++ Json.dq
  ++ "SELECT 1 FROM audit_events WHERE user_id='X' LIMIT 1" ++ Json.dq ++ ")".

Definition start (w : log) : state log :=
  {| messages := [{| role := "system"; content := "You are an analyst." |};
                  {| role := "user"; content := "Any suspicious users?" |}];
     steps := []; stdout := []; world := w |}.

End Sample.

(* ====================================================================== *)
(** ** The database tools *)
(* ====================================================================== *)

(** [c.upper()].  The upper case of the sharp s is two letters.  The upper
    case of the micro sign and of y with diaeresis lies above code point
    255: both are left as they are, which the two tests made on an
    upper-cased text (a prefix and substrings, all in ASCII letters)
    cannot tell apart. *)
Definition upper_char (c : ascii) : string :=
  if N.eqb (Py.code c) 223 then "SS"
  else if (Py.in_range 97 122 c
           || (Py.in_range 224 254 c && negb (N.eqb (Py.code c) 247)))%bool
       then String (ascii_of_N (Py.code c - 32)) EmptyString
       else String c EmptyString.

(** [s.upper()] *)
Fixpoint upper (s : string) : string :=
  match s with
  | EmptyString => EmptyString
  | String c s' => upper_char c ++ upper s'
  end.

(** What the database does with a query (lines 32-44: connect, execute,
    read the column names, fetch every row, close): it raises an exception
    with a message, or gives the column names and the rows.  A cell is
    [None] or the [str] of its value. *)
Inductive db_outcome : Type :=
| DbRows (colnames : list string) (rows : list (list (option string)))
| DbFails (msg : string).

(** What a block that writes files or sends mail does: it completes, with
    the identifier it made up, or raises an exception with a message. *)
Inductive stored : Type :=
| Stored (id : string)
| StoreFails (msg : string).

(** Line 28 *)
Definition forbidden : list string :=
  ["INSERT"; "UPDATE"; "DELETE"; "DROP"; "ALTER"; "CREATE"; "TRUNCATE"; "GRANT"].

Definition ONLY_SELECT : string := "Error: Only SELECT queries are allowed.".
Definition NO_WRITES : string :=
  "Error: Write operations or schema changes are not permitted.".
Definition NO_ROWS : string := "Query returned no rows.".

(** Line 50 *)
Definition cell_text (cell : option string) : string :=
  match cell with
  | Some s => s
  | None => "NULL"
  end.

(** A text without a line feed. *)
Definition no_line_feed (s : string) : bool :=
  Py.all_chars (fun c => negb (Ascii.eqb c (ascii_of_N 10))) s.

(** The list [lines] of lines 47-52. *)
Definition result_lines (colnames : list string)
           (rows : list (list (option string))) : list string :=
  let header := Py.join " | " colnames in
  ([header; repeat_string "-" (String.length header)]
   ++ List.map (fun row => Py.join " | " (List.map cell_text row)) (firstn 20 rows)
   ++ (if Nat.ltb 20 (List.length rows)
       then [("... and " ++ Py.str_of_nat (List.length rows - 20) ++ " more rows.")%string]
       else []))%list.

(** Line 115: the query of [user_exists], with the user id pasted in. *)
Definition user_query (user_id : string) : string :=
  "SELECT 1 FROM audit_events WHERE user_id = '" ++ user_id ++ "' LIMIT 1".

(** Line 111 *)
Definition STATUS_QUERY : string :=
  "SELECT DISTINCT status FROM audit_events WHERE status IS NOT NULL;".

Section Tools.

Variable W : Type.

(** The database behind [psycopg2]. *)
Variable db : string -> W -> db_outcome * W.

(** Lines 127-137, 147-171, 181-190 and 200-205: the blocks that write
    the alert, send the mail, write the report and write the review
    request.  The arguments are the texts that the f-strings print. *)
Variable store_alert : string -> string -> string -> W -> stored * W.
Variable send_mail : string -> string -> string -> option string -> W -> stored * W.
Variable store_report : string -> string -> W -> stored * W.
Variable store_review : string -> string -> string -> W -> stored * W.

Definition query_postgres (query : string) (w : W) : string * W :=
  let sql_upper := upper (Py.strip query) in
  if negb (Py.startswith "SELECT" sql_upper) then (ONLY_SELECT, w)
  else if List.existsb (fun keyword => Py.contains keyword sql_upper) forbidden
  then (NO_WRITES, w)
  else
    match db query w with
    | (DbFails msg, w') => ("Database error: " ++ msg, w')
    | (DbRows colnames rows, w') =>
        match rows with
        | [] => (NO_ROWS, w')
        | _ :: _ => (Py.join nl (result_lines colnames rows), w')
        end
    end.

Definition get_distinct_statuses (w : W) : string * W :=
  query_postgres STATUS_QUERY w.

Definition user_exists (user_id : string) (w : W) : bool * W :=
  let '(result, w') := query_postgres (user_query user_id) w in
  ((Py.contains "1" result && negb (Py.contains "No rows" result)
    && negb (Py.contains "Error" result))%bool, w').

Definition create_security_alert (user_id severity reason : string) (w : W)
  : string * W :=
  let '(exists_, w1) := user_exists user_id w in
  if negb exists_
  then ("Cannot create alert: User " ++ user_id ++ " has no audit events.", w1)
  else
    match store_alert user_id severity reason w1 with
    | (Stored alert_id, w2) =>
        ("Security alert created: " ++ alert_id ++ " (severity: " ++ severity ++ ")",
         w2)
    | (StoreFails msg, w2) => ("Failed to create alert: " ++ msg, w2)
    end.

Definition send_email_alert (recipient user_id subject body_text : string)
           (body_html : option string) (w : W) : string * W :=
  let '(exists_, w1) := user_exists user_id w in
  if negb exists_
  then ("Cannot send email: User " ++ user_id ++ " has no audit events.", w1)
  else
    match send_mail recipient subject body_text body_html w1 with
    | (Stored _, w2) =>
        ("Email sent to " ++ recipient ++ " - Subject: " ++ subject, w2)
    | (StoreFails msg, w2) => ("Failed to send email: " ++ msg, w2)
    end.

Definition generate_report (user_id analysis : string) (w : W) : string * W :=
  let '(exists_, w1) := user_exists user_id w in
  if negb exists_
  then ("Cannot generate report: User " ++ user_id ++ " has no audit events.", w1)
  else
    match store_report user_id analysis w1 with
    | (Stored report_id, w2) => ("Report generated: " ++ report_id, w2)
    | (StoreFails msg, w2) => ("Failed to generate report: " ++ msg, w2)
    end.

Definition request_manual_review (user_id urgency reason : string) (w : W)
  : string * W :=
  let '(exists_, w1) := user_exists user_id w in
  if negb exists_
  then ("Cannot request review: User " ++ user_id ++ " has no audit events.", w1)
  else
    match store_review user_id urgency reason w1 with
    | (Stored request_id, w2) =>
        ("Manual review requested: " ++ request_id ++ " (urgency: " ++ urgency ++ ")",
         w2)
    | (StoreFails msg, w2) => ("Failed to request review: " ++ msg, w2)
    end.

End Tools.

(* ====================================================================== *)
(** ** The main program *)
(* ====================================================================== *)

(** [str(e)] of the exceptions of the parser.  The text that [int] and
    [float] refused is made of digits and dots, so its [repr] is the text
    between single quotes. *)
Definition exn_message (e : exn) : string :=
  match e with
  | NoClosingQuotation => "No closing quotation"
  | NoEscapedCharacter => "No escaped character"
  | InvalidIntLiteral s => "invalid literal for int() with base 10: '" ++ s ++ "'"
  | IntTooManyDigits digits =>
      "Exceeds the limit (" ++ Py.str_of_nat INT_MAX_STR_DIGITS
      ++ " digits) for integer string conversion: value has "
      ++ Py.str_of_nat digits
      ++ " digits; use sys.set_int_max_str_digits() to increase the limit"
  | InvalidFloatLiteral s => "could not convert string to float: '" ++ s ++ "'"
  end.

(** What the terminal shows: the text of a [print], or the prompt of an
    [input]. *)
Inductive console : Type :=
| Printed (text : string)
| Prompted (text : string).

(** How the process ends: [sys.exit(0)] or the end of the script, or an
    exception that nothing caught. *)
Inductive exit_status : Type :=
| Exited
| Uncaught (e : exn).

Definition QUIT_WORDS : list string := ["quit"; "exit"; "q"].

(** [s in ("quit", "exit", "q")] *)
Definition is_quit_word (s : string) : bool :=
  List.existsb (String.eqb s) QUIT_WORDS.

(** Lines 462-467: the first line of standard input that is neither blank
    nor a quit word; [EmptyString] when there is none. *)
Fixpoint pick_question (stdin : list string) : string :=
  match stdin with
  | [] => EmptyString
  | line :: stdin' =>
      let line := Py.strip line in
      if (Py.nonempty line && negb (is_quit_word (Py.lower line)))%bool
      then line
      else pick_question stdin'
  end.

(** The test of line 465 on a raw line of standard input. *)
Definition is_question (line : string) : bool :=
  (Py.nonempty (Py.strip line)
   && negb (is_quit_word (Py.lower (Py.strip line))))%bool.

(** The inputs up to the first quit word. *)
Fixpoint before_quit (inputs : list string) : list string :=
  match inputs with
  | [] => []
  | i :: inputs' =>
      if is_quit_word (Py.lower i) then [] else i :: before_quit inputs'
  end.

(** The questions of an interactive session: the inputs before the first
    quit word that are not blank. *)
Definition asked (inputs : list string) : list string :=
  List.filter (fun i => Py.nonempty (Py.strip i)) (before_quit inputs).

Definition BANNER : list console :=
  [Printed "AWB BANK AUDIT AGENT (AUTONOMOUS, SQL-FIRST)";
   Printed (repeat_string "=" 70);
   Printed (nl ++ "INTERACTIVE MODE - Ask anything about the audit logs.");
   Printed ("Type " ++ Json.dq ++ "quit" ++ Json.dq ++ " to exit." ++ nl)].

Section Main.

Variable W : Type.
Variable call_llm : list message -> W -> string * W.
Variable tools : dict (list value -> dict value -> W -> outcome * W).
Variable system_prompt : string.

(** Lines 461-471: standard input is not a terminal. *)
Definition batch (stdin : list string) (w : W) : exit_status * list string * W :=
  let question := pick_question stdin in
  if Py.nonempty question then
    let '(r, st) :=
      run W call_llm tools system_prompt question DEFAULT_MAX_STEPS true w in
    (match r with
     | Ok _ => Exited
     | Raise e => Uncaught e
     end, stdout st, world st)
  else (Exited, [], w).

End Main.

(** How a call of [agent.run] ends for the loop that made it: it returns,
    it raises an exception of class [Exception] with a message, or a
    keyboard interrupt stops it. *)
Inductive run_end : Type :=
| RunReturns
| RunRaises (msg : string)
| RunInterrupted.

Section Interactive.

Variable W : Type.

(** [agent.run(user_input, structured=False)] at line 491: how it ends,
    what it printed and the world it leaves. *)
Variable agent_run : string -> W -> run_end * list string * W.

(** The [while True] loop of lines 480-496 over the lines typed, the end
    of [inputs] being the end of file. *)
Fixpoint interactive_loop (inputs : list string) (shown : list console) (w : W)
  : list console * W :=
  match inputs with
  | [] => ((shown ++ [Prompted "You: "])%list, w)
  | user_input :: inputs' =>
      let shown := (shown ++ [Prompted "You: "])%list in
      if is_quit_word (Py.lower user_input)
      then ((shown ++ [Printed (nl ++ "Goodbye!")])%list, w)
      else if negb (Py.nonempty (Py.strip user_input))
      then interactive_loop inputs' shown w
      else
        let '(e, printed, w') := agent_run user_input w in
        let shown := (shown ++ List.map Printed printed)%list in
        match e with
        | RunReturns => interactive_loop inputs' shown w'
        | RunInterrupted =>
            ((shown ++ [Printed (nl ++ nl ++ "Interrupted.")])%list, w')
        | RunRaises msg =>
            interactive_loop inputs'
              (shown ++ [Printed (nl ++ "Error: " ++ msg ++ nl)])%list w'
        end
  end.

(** Lines 474-496: standard input is a terminal. *)
Definition interactive (inputs : list string) (w : W) : list console * W :=
  interactive_loop inputs BANNER w.

(** The world after the questions [qs] were put one after the other, up
    to the first run that a keyboard interrupt stops. *)
Fixpoint world_after (qs : list string) (w : W) : W :=
  match qs with
  | [] => w
  | q :: qs' =>
      let '(e, _, w') := agent_run q w in
      match e with
      | RunInterrupted => w'
      | _ => world_after qs' w'
      end
  end.

(** Whether a keyboard interrupt stops one of the runs on the questions
    [qs], put one after the other. *)
Fixpoint interrupted (qs : list string) (w : W) : bool :=
  match qs with
  | [] => false
  | q :: qs' =>
      let '(e, _, w') := agent_run q w in
      match e with
      | RunInterrupted => true
      | _ => interrupted qs' w'
      end
  end.

End Interactive.

Section Uninterrupted.

Variable W : Type.
Variable call_llm : list message -> W -> string * W.
Variable tools : dict (list value -> dict value -> W -> outcome * W).
Variable system_prompt : string.

(** [agent.run(user_input, structured=False)] when no keyboard interrupt
    arrives: the method [run]. *)
Definition run_unstructured (user_input : string) (w : W)
  : run_end * list string * W :=
  let '(r, st) :=
    run W call_llm tools system_prompt user_input DEFAULT_MAX_STEPS false w in
  (match r with
   | Ok _ => RunReturns
   | Raise e => RunRaises (exn_message e)
   end, stdout st, world st).

End Uninterrupted.

(** A scripted [agent.run] for the examples: it prints the question and
    adds it to the log; on the question [word] a keyboard interrupt stops
    it. *)
Module SampleSession.

Definition stops_at (word : string) (question : string) (w : Sample.log)
  : run_end * list string * Sample.log :=
  (if String.eqb question word then RunInterrupted else RunReturns,
   [question], (w ++ [question])%list).

End SampleSession.


(** A sample database: one table, whose server is down when the log says
    so. *)
Module SampleDb.

Definition answer (query : string) : db_outcome :=
  if Py.contains "u42" query
  then DbRows ["?column?"] [[Some "1"]]
  else DbRows ["?column?"] [].

(** The world is the list of the queries received. *)
Definition db (query : string) (w : list string) : db_outcome * list string :=
  (answer query, (w ++ [query])%list).

(** A server that refuses every connection. *)
Definition down (query : string) (w : list string) : db_outcome * list string :=
  (DbFails "connection to server at 127.0.0.1, port 5432 failed",
   (w ++ [query])%list).

(** A table of 25 one-column rows. *)
Definition many (query : string) (w : list string) : db_outcome * list string :=
  (DbRows ["id"] (List.repeat [Some "7"] 25), (w ++ [query])%list).

Definition store3 (a b c : string) (w : list string) : stored * list string :=
  (Stored "ID-1", (w ++ ["stored"])%list).

Definition store2 (a b : string) (w : list string) : stored * list string :=
  (Stored "ID-1", (w ++ ["stored"])%list).

Definition mail (a b c : string) (h : option string) (w : list string)
  : stored * list string :=
  (Stored EmptyString, (w ++ ["sent"])%list).

End SampleDb.

(* ====================================================================== *)
(** ** Facts about the string methods *)
(* ====================================================================== *)

Lemma append_assoc (x y z : string) : (x ++ y) ++ z = x ++ (y ++ z).
Proof. induction x as [|c x IH]; simpl; [reflexivity | now rewrite IH]. Qed.

Lemma append_nil_r (x : string) : x ++ EmptyString = x.
Proof. induction x as [|c x IH]; simpl; [reflexivity | now rewrite IH]. Qed.

Lemma length_append (x y : string) :
  String.length (x ++ y) = String.length x + String.length y.
Proof. induction x as [|c x IH]; simpl; [reflexivity | now rewrite IH]. Qed.

Lemma all_chars_app (p : ascii -> bool) (x y : string) :
  Py.all_chars p (x ++ y) = (Py.all_chars p x && Py.all_chars p y)%bool.
Proof.
  induction x as [|c x IH]; simpl; [reflexivity|].
  now rewrite IH, andb_assoc.
Qed.

Lemma prefix_app (x y : string) : prefix x (x ++ y) = true.
Proof.
  induction x as [|c x IH]; simpl; [now destruct y|].
  destruct (ascii_dec c c) as [_|N]; [exact IH | now elim N].
Qed.

Lemma contains_unfold (sub s : string) :
  Py.contains sub s =
  if prefix sub s then true
  else match s with
       | EmptyString => false
       | String _ s' => Py.contains sub s'
       end.
Proof. destruct s; reflexivity. Qed.

Lemma contains_prefix (sub s : string) :
  prefix sub s = true -> Py.contains sub s = true.
Proof. intros H. rewrite contains_unfold, H. reflexivity. Qed.

Lemma contains_skip (sub a s : string) :
  Py.contains sub s = true -> Py.contains sub (a ++ s) = true.
Proof.
  intros H. induction a as [|c a IH]; [exact H|].
  change (String c a ++ s) with (String c (a ++ s)).
  rewrite contains_unfold, IH.
  now destruct (prefix sub (String c (a ++ s))).
Qed.

(** [x in a + x + b] *)
Lemma contains_middle (x a b : string) : Py.contains x (a ++ x ++ b) = true.
Proof. apply contains_skip, contains_prefix, prefix_app. Qed.

(* ====================================================================== *)
(** ** The dispatcher and the action loop *)
(* ====================================================================== *)

Section Loop.

Context {W : Type}.
Variable tools : dict (list value -> dict value -> W -> outcome * W).

(** Once the counter has reached the cap, the loop leaves at once. *)
Lemma run_actions_capped (ls obs : list string) (calls : list tool_call)
      (n : nat) (w : W) :
  MAX_ACTIONS_PER_STEP <= n ->
  run_actions W tools ls obs calls n w = (Ok (obs, calls), w).
Proof.
  intros Hn. destruct ls as [|l ls]; simpl; [reflexivity|].
  destruct n as [|[|[|[|[|n]]]]]; unfold MAX_ACTIONS_PER_STEP in Hn; try lia.
  reflexivity.
Qed.

(** Only the first [5 - action_count] lines are looked at. *)
Lemma run_actions_firstn (ls obs : list string) (calls : list tool_call)
      (n : nat) (w : W) :
  run_actions W tools ls obs calls n w =
  run_actions W tools (firstn (MAX_ACTIONS_PER_STEP - n) ls) obs calls n w.
Proof.
  revert obs calls n w.
  induction ls as [|l ls IH]; intros obs calls n w.
  - now rewrite firstn_nil.
  - destruct (Nat.leb MAX_ACTIONS_PER_STEP n) eqn:Hcap.
    + apply Nat.leb_le in Hcap.
      now rewrite !run_actions_capped by exact Hcap.
    + pose proof Hcap as Hlt. apply Nat.leb_gt in Hlt.
      replace (MAX_ACTIONS_PER_STEP - n) with (S (MAX_ACTIONS_PER_STEP - (n + 1)))
        by (unfold MAX_ACTIONS_PER_STEP in *; lia).
      cbn [firstn run_actions]. rewrite Hcap.
      destruct (parse_action l) as [[[[name args] kwargs]|]|e]; try reflexivity.
      * destruct (Py.nonempty name); [|apply IH].
        destruct (execute_tool W tools name args kwargs w) as [o w'].
        apply IH.
      * apply IH.
Qed.

(** The step's tool calls grow by at most the slots that are left. *)
Lemma run_actions_bound (ls obs obs' : list string) (calls calls' : list tool_call)
      (n : nat) (w w' : W) :
  run_actions W tools ls obs calls n w = (Ok (obs', calls'), w') ->
  List.length calls' <= List.length calls + (MAX_ACTIONS_PER_STEP - n)
  /\ List.length obs' = List.length obs + (List.length calls' - List.length calls)
  /\ List.length calls <= List.length calls'.
Proof.
  revert obs calls n w.
  induction ls as [|l ls IH]; intros obs calls n w H.
  - simpl in H. inversion H; subst. lia.
  - cbn [run_actions] in H.
    destruct (Nat.leb MAX_ACTIONS_PER_STEP n) eqn:Hcap.
    + inversion H; subst. lia.
    + apply Nat.leb_gt in Hcap. unfold MAX_ACTIONS_PER_STEP in *.
      destruct (parse_action l) as [[[[name args] kwargs]|]|e]; [| |discriminate].
      * destruct (Py.nonempty name).
        -- destruct (execute_tool W tools name args kwargs w) as [o w1].
           apply IH in H. rewrite !length_app in H. cbn [Datatypes.length] in H. lia.
        -- apply IH in H. lia.
      * apply IH in H. lia.
Qed.

Lemma run_actions_all_callable (ls : list string) (ps : list parsed)
      (obs : list string) (calls : list tool_call) (n : nat) (w : W) :
  Forall2 callable ls ps ->
  n + List.length ls <= MAX_ACTIONS_PER_STEP ->
  run_actions W tools ls obs calls n w =
  let '(obs', calls', w') := execute_all W tools ps obs calls w in (Ok (obs', calls'), w').
Proof.
  intros HF. revert obs calls n w.
  induction HF as [|l p ls ps [Hp Hne] HF IH]; intros obs calls n w Hlen.
  - reflexivity.
  - simpl in Hlen. cbn [run_actions].
    destruct (Nat.leb MAX_ACTIONS_PER_STEP n) eqn:Hcap.
    + apply Nat.leb_le in Hcap. lia.
    + rewrite Hp. destruct p as [[name args] kwargs]. simpl in Hne.
      rewrite Hne. cbn [execute_all].
      destruct (execute_tool W tools name args kwargs w) as [o w1].
      apply IH. lia.
Qed.

Lemma execute_all_calls (ps : list parsed) (obs : list string)
      (calls : list tool_call) (w : W) :
  List.map tool (snd (fst (execute_all W tools ps obs calls w)))
  = (List.map tool calls ++ List.map (fun p => fst (fst p)) ps)%list.
Proof.
  revert obs calls w.
  induction ps as [|[[name args] kwargs] ps IH]; intros obs calls w; simpl.
  - now rewrite app_nil_r.
  - destruct (execute_tool W tools name args kwargs w) as [o w1].
    rewrite IH, map_app, <- app_assoc. reflexivity.
Qed.

End Loop.



(** C10. Every action line takes one of the five slots, whether it parses
    or not: only the first five action lines of a reply are looked at, a
    line that does not parse uses up its slot without a call, and what
    follows five action lines is never executed. *)
Theorem C10_unparsed_lines_use_slots
        {W : Type} (tools : dict (list value -> dict value -> W -> outcome * W))
        (reply : string) (w : W) :
  run_actions W tools (action_lines_of reply) [] [] 0 w
  = run_actions W tools (firstn 5 (action_lines_of reply)) [] [] 0 w
  /\ (forall line rest obs calls n w0,
         n < 5 -> parse_action line = Ok None ->
         run_actions W tools (line :: rest) obs calls n w0
         = run_actions W tools rest obs calls (n + 1) w0)
  /\ (forall pre rest,
         List.length pre = 5 -> action_lines_of reply = (pre ++ rest)%list ->
         run_actions W tools (action_lines_of reply) [] [] 0 w
         = run_actions W tools pre [] [] 0 w).
Proof.
  split; [apply (run_actions_firstn tools)|]. split.
  - intros line rest obs calls n w0 Hn Hp. cbn [run_actions].
    rewrite Hp.
    destruct (Nat.leb MAX_ACTIONS_PER_STEP n) eqn:Hcap; [|reflexivity].
    apply Nat.leb_le in Hcap. unfold MAX_ACTIONS_PER_STEP in Hcap. lia.
  - intros pre rest Hlen Heq. rewrite Heq, run_actions_firstn.
    change (MAX_ACTIONS_PER_STEP - 0) with 5.
    rewrite <- Hlen, firstn_app, Nat.sub_diag, firstn_all. simpl.
    now rewrite app_nil_r.
Qed.

(** C10 on five unterminated calls followed by a well-formed one: no tool
    runs. *)
Lemma C10_witness :
  run_actions Sample.log Sample.tools
              (action_lines_of Sample.five_malformed_then_one) [] [] 0 []
  = (Ok ([], []), []).
Proof.
  destruct (C10_unparsed_lines_use_slots Sample.tools
              Sample.five_malformed_then_one []) as [_ [Hslot Hdrop]].
  rewrite (Hdrop (List.repeat "ACTION: list_tables(" 5) ["ACTION: list_tables()"]
                 eq_refl eq_refl).
  assert (Hp : parse_action "ACTION: list_tables(" = Ok None)
    by (vm_compute; reflexivity).
  simpl List.repeat.
  rewrite (Hslot _ _ [] [] 0 [] ltac:(lia) Hp).
  rewrite (Hslot _ _ [] [] 1 [] ltac:(lia) Hp).
  rewrite (Hslot _ _ [] [] 2 [] ltac:(lia) Hp).
  rewrite (Hslot _ _ [] [] 3 [] ltac:(lia) Hp).
  rewrite (Hslot _ _ [] [] 4 [] ltac:(lia) Hp).
  reflexivity.
Defined.

(** C8. [execute_tool] always returns a string.  For a name that is not
    registered the string contains the name; when the registered callable
    raises, the string contains the name and the message of the exception.
    Either way the action loop goes on with the next line. *)
Theorem C8_execute_tool_never_raises
        {W : Type} (tools : dict (list value -> dict value -> W -> outcome * W))
        (tool_name : string) (args : list value) (kwargs : dict value) (w : W) :
  (dict_get tool_name tools = None ->
   exists s, execute_tool W tools tool_name args kwargs w = (s, w)
             /\ Py.contains tool_name s = true)
  /\ (forall f msg w',
         dict_get tool_name tools = Some f ->
         f args kwargs w = (Throws msg, w') ->
         exists s, execute_tool W tools tool_name args kwargs w = (s, w')
                   /\ Py.contains tool_name s = true
                   /\ Py.contains msg s = true)
  /\ (forall line rest obs calls n,
         n < MAX_ACTIONS_PER_STEP ->
         parse_action line = Ok (Some (tool_name, args, kwargs)) ->
         Py.nonempty tool_name = true ->
         run_actions W tools (line :: rest) obs calls n w
         = run_actions W tools rest
             (obs ++ [observation_text tool_name
                        (fst (execute_tool W tools tool_name args kwargs w))])%list
             (calls ++ [{| tool := tool_name;
                           tool_result :=
                             fst (execute_tool W tools tool_name args kwargs w) |}])%list
             (n + 1)
             (snd (execute_tool W tools tool_name args kwargs w))).
Proof.
  split; [|split].
  - intros Hnone. unfold execute_tool. rewrite Hnone.
    eexists. split; [reflexivity|].
    apply (contains_middle tool_name "Error: unknown tool '" "'").
  - intros f msg w' Hsome Hthrows. unfold execute_tool.
    rewrite Hsome, Hthrows. eexists. split; [reflexivity|]. split.
    + apply (contains_middle tool_name "Error executing " (": " ++ msg)).
    + replace ("Error executing " ++ tool_name ++ ": " ++ msg)
        with (("Error executing " ++ tool_name ++ ": ") ++ msg ++ EmptyString)
        by (now rewrite append_nil_r, !append_assoc).
      apply contains_middle.
  - intros line rest obs calls n Hn Hp Hne. cbn [run_actions].
    destruct (Nat.leb MAX_ACTIONS_PER_STEP n) eqn:Hcap.
    + apply Nat.leb_le in Hcap. lia.
    + rewrite Hp, Hne.
      now destruct (execute_tool W tools tool_name args kwargs w).
Qed.

(** C8 on an unregistered name and on a callable that raises. *)
Lemma C8_witness :
  execute_tool Sample.log Sample.tools "drop_table" [VStr "users"] [] []
  = ("Error: unknown tool 'drop_table'", [])
  /\ execute_tool Sample.log Sample.tools "query_postgres" [VInt 1; VInt 2] [] []
     = ("Error executing query_postgres: query_postgres() got an unexpected keyword argument",
        ["query_postgres"])
  /\ Py.contains "query_postgres"
       (fst (execute_tool Sample.log Sample.tools "query_postgres" [VInt 1; VInt 2] [] []))
     = true.
Proof.
  destruct (C8_execute_tool_never_raises Sample.tools "drop_table"
              [VStr "users"] [] []) as [Hunknown _].
  destruct (Hunknown eq_refl) as [s1 [E1 _]].
  destruct (C8_execute_tool_never_raises Sample.tools "query_postgres"
              [VInt 1; VInt 2] [] []) as [_ [Hthrows _]].
  destruct (Hthrows Sample.query_postgres
              "query_postgres() got an unexpected keyword argument"
              ["query_postgres"] eq_refl eq_refl) as [s2 [E2 [Hname _]]].
  split; [|split].
  - vm_compute. reflexivity.
  - vm_compute. reflexivity.
  - rewrite E2. exact Hname.
Defined.

(* ====================================================================== *)
(** ** The parser on particular lines *)
(* ====================================================================== *)

(** C4. [parse_action] raises on some lines instead of returning the null
    triple: a backslash before the closing parenthesis makes [shlex] raise
    [ValueError("No escaped character")], and a backslash before a closing
    double quote [ValueError("No closing quotation")].  An unterminated
    call, or a quote that never closes, does give the null triple; a
    closing parenthesis without an opening one gives a call. *)
Theorem C4_parse_action_can_raise :
  parse_action Sample.dangling_backslash = Raise NoEscapedCharacter
  /\ parse_action Sample.escaped_closing_quote = Raise NoClosingQuotation
  /\ parse_action "ACTION: NAME(a, b" = Ok None
  /\ parse_action "ACTION: NAME('a, b)" = Ok None
  /\ parse_action "ACTION: list_tables)"
     = Ok (Some ("list_tables", [VStr "list_tables"], [])).
Proof. repeat split; vm_compute; reflexivity. Qed.

(** A superscript digit passes [isdigit] and is then refused by [int]. *)
Lemma superscript_digit_raises :
  parse_action ("ACTION: NAME(" ++ String (ascii_of_N 178) ")")
  = Raise (InvalidIntLiteral (String (ascii_of_N 178) EmptyString)).
Proof. vm_compute. reflexivity. Qed.

(** C5. A token whose [=] is inside quotes is split into key and value
    all the same, because the lexer has removed the quotes before the test
    ['=' in token]: [NAME('a=b')] binds the keyword [a], and the call of
    rule 3 of the system prompt binds a keyword named after the start of
    its SQL text.  An unquoted [=] splits once, and the last of two equal
    keys wins. *)
Theorem C5_quoted_equals_is_split :
  parse_action "ACTION: NAME('a=b')" = Ok (Some ("NAME", [], [("a", VStr "b")]))
  /\ parse_action Sample.prompt_rule_3_call
     = Ok (Some ("query_postgres", [],
                 [("SELECT 1 FROM audit_events WHERE user_id", VStr "'X' LIMIT 1")]))
  /\ parse_action "ACTION: NAME(a, k=x=y, b)"
     = Ok (Some ("NAME", [VStr "a"; VStr "b"], [("k", VStr "x=y")]))
  /\ parse_action "ACTION: NAME(k=1, j=2, k=3)"
     = Ok (Some ("NAME", [], [("k", VInt 3); ("j", VInt 2)])).
Proof. repeat split; vm_compute; reflexivity. Qed.

(** The lexer also removes the quotes of a quoted number or keyword, so
    the coercion sees [42] and [true], not the quoted text. *)
Lemma quoted_literals_lose_their_quotes :
  parse_action "ACTION: NAME('42', 'true')"
  = Ok (Some ("NAME", [VInt 42; VBool true], [])).
Proof. vm_compute. reflexivity. Qed.



(* ====================================================================== *)
(** ** The loop on particular replies *)
(* ====================================================================== *)

(** C7. A run does not always reach the step limit without an exception:
    with a model that answers a call ending in a backslash, the first step
    raises the [ValueError] of [parse_action] out of [run], before any
    step is recorded or anything is printed. *)
Theorem C7_run_raises_before_max_steps :
  run Sample.log (Sample.always Sample.dangling_backslash) Sample.tools
      "You are an analyst." "Any suspicious users?" DEFAULT_MAX_STEPS true []
  = (Raise NoEscapedCharacter,
     {| messages := [{| role := "system"; content := "You are an analyst." |};
                     {| role := "user"; content := "Any suspicious users?" |}];
        steps := []; stdout := []; world := [] |}).
Proof. vm_compute. reflexivity. Qed.

(** A model that never acts and never concludes: the run takes its 20
    steps, returns [None] and has printed the max-steps record only. *)
Lemma run_stalls_until_max_steps :
  exists st',
    run Sample.log (Sample.always "Thought: hm") Sample.tools
        "You are an analyst." "Any suspicious users?" DEFAULT_MAX_STEPS true []
    = (Ok None, st')
    /\ List.length (steps st') = 20
    /\ List.length (messages st') = 42
    /\ stdout st' = [emit_json (max_steps_record (steps st'))].
Proof. eexists. split; [vm_compute; reflexivity|]. repeat split. Qed.

(** C1, as stated, fails: a reply with both markers whose action line
    parses has its action executed and is answered with the observations,
    not with the corrective turn. *)
Lemma C1_counterexample :
  Py.contains FINAL_ANSWER Sample.final_with_action = true
  /\ Py.contains ACTION Sample.final_with_action = true
  /\ exists st',
      step Sample.log (Sample.always Sample.final_with_action) Sample.tools
           false 1 (Sample.start []) = Next st'
      /\ world st' = ["list_tables"]
      /\ List.map tool (List.concat (List.map tools_called (steps st')))
         = ["list_tables"]
      /\ ~ In corrective_turn (messages st').
Proof.
  split; [vm_compute; reflexivity|]. split; [vm_compute; reflexivity|].
  eexists. split; [vm_compute; reflexivity|].
  split; [reflexivity|]. split; [reflexivity|].
  cbn [messages]. intros [H|[H|[H|[H|[]]]]]; discriminate H.
Qed.

(** C9, as stated, fails: in structured mode a step without a tool call
    is recorded in the history and prints nothing. *)
Lemma C9_counterexample :
  exists st',
    step Sample.log (Sample.always "Thought: let me think.") Sample.tools
         true 1 (Sample.start []) = Next st'
    /\ steps st' = [{| thought := "let me think."; tools_called := [] |}]
    /\ stdout st' = [].
Proof. eexists. split; [vm_compute; reflexivity|]. split; reflexivity. Qed.

(* ====================================================================== *)
(** ** One iteration of the loop *)
(* ====================================================================== *)

Section Iteration.

Context {W : Type}.
Variable call_llm : list message -> W -> string * W.
Variable tools : dict (list value -> dict value -> W -> outcome * W).

(** What an iteration does with a reply that is not a final answer. *)
Lemma step_not_final (structured : bool) (step_num : nat) (st : state W) :
  is_final (fst (call_llm (messages st) (world st))) = false ->
  (forall a st', step W call_llm tools structured step_num st <> Return a st')
  /\ (forall st',
         step W call_llm tools structured step_num st = Next st' ->
         exists obs calls,
           run_actions W tools
             (action_lines_of (fst (call_llm (messages st) (world st))))
             [] [] 0 (snd (call_llm (messages st) (world st)))
           = (Ok (obs, calls), world st')
           /\ steps st'
              = (steps st
                 ++ [{| thought :=
                          extract_thought
                            (Py.split nl (fst (call_llm (messages st) (world st))));
                        tools_called := calls |}])%list
           /\ messages st'
              = (messages st
                 ++ [{| role := "assistant";
                        content := fst (call_llm (messages st) (world st)) |};
                     match calls with
                     | [] => corrective_turn
                     | _ :: _ => observations_turn obs
                     end])%list
           /\ stdout st'
              = (stdout st
                 ++ match calls with
                    | [] => []
                    | _ :: _ =>
                        if structured
                        then [emit_json
                                (step_record step_num
                                   (extract_thought
                                      (Py.split nl
                                         (fst (call_llm (messages st) (world st)))))
                                   calls)]
                        else []
                    end)%list).
Proof.
  intros Hnf. unfold step.
  destruct (call_llm (messages st) (world st)) as [reply w1]. simpl in *.
  rewrite Hnf.
  destruct (run_actions W tools (action_lines_of reply) [] [] 0 w1)
    as [[[obs calls]|e] w2].
  - split; [discriminate|].
    intros st' H. inversion H; subst; clear H. simpl.
    exists obs, calls. split; [reflexivity|]. split; [reflexivity|].
    destruct calls; simpl; [rewrite andb_false_r|rewrite andb_true_r];
      split; reflexivity.
  - split; discriminate.
Qed.

End Iteration.

(** C1. A reply that contains both [FINAL ANSWER:] and [ACTION:] never
    ends the run as a final answer.  It is treated as any reply that is
    not final: its action lines, five at most, are parsed and executed;
    the assistant turn is followed by the observations when a tool call
    was made, and by the corrective turn only when none was. *)
Theorem C1_both_markers_is_not_final
        {W : Type} (call_llm : list message -> W -> string * W)
        (tools : dict (list value -> dict value -> W -> outcome * W))
        (structured : bool) (step_num : nat) (st : state W) :
  Py.contains FINAL_ANSWER (fst (call_llm (messages st) (world st))) = true ->
  Py.contains ACTION (fst (call_llm (messages st) (world st))) = true ->
  (forall a st', step W call_llm tools structured step_num st <> Return a st')
  /\ (forall st',
         step W call_llm tools structured step_num st = Next st' ->
         exists obs calls,
           run_actions W tools
             (action_lines_of (fst (call_llm (messages st) (world st))))
             [] [] 0 (snd (call_llm (messages st) (world st)))
           = (Ok (obs, calls), world st')
           /\ List.length calls <= 5
           /\ List.map tools_called (steps st')
              = (List.map tools_called (steps st) ++ [calls])%list
           /\ messages st'
              = (messages st
                 ++ [{| role := "assistant";
                        content := fst (call_llm (messages st) (world st)) |};
                     match calls with
                     | [] => corrective_turn
                     | _ :: _ => observations_turn obs
                     end])%list).
Proof.
  intros _ Haction.
  assert (Hnf : is_final (fst (call_llm (messages st) (world st))) = false)
    by (unfold is_final; rewrite Haction; apply andb_false_r).
  destruct (step_not_final call_llm tools structured step_num st Hnf) as [Hr Hn].
  split; [exact Hr|].
  intros st' Hst. destruct (Hn st' Hst) as [obs [calls [Hrun [Hsteps [Hmsg _]]]]].
  exists obs, calls. split; [exact Hrun|]. split.
  - apply run_actions_bound in Hrun. simpl in Hrun. lia.
  - split; [|exact Hmsg]. rewrite Hsteps, map_app. reflexivity.
Qed.

(** C1 on the reply [ACTION: list_tables()] / [FINAL ANSWER: done]. *)
Lemma C1_witness :
  exists st' obs calls,
    step Sample.log (Sample.always Sample.final_with_action) Sample.tools
         true 1 (Sample.start []) = Next st'
    /\ run_actions Sample.log Sample.tools
         (action_lines_of Sample.final_with_action) [] [] 0 []
       = (Ok (obs, calls), world st')
    /\ List.length calls <= 5
    /\ messages st'
       = (messages (Sample.start [])
          ++ [{| role := "assistant"; content := Sample.final_with_action |};
              match calls with
              | [] => corrective_turn
              | _ :: _ => observations_turn obs
              end])%list.
Proof.
  destruct (C1_both_markers_is_not_final
              (Sample.always Sample.final_with_action) Sample.tools
              true 1 (Sample.start []) eq_refl eq_refl) as [_ Hnext].
  eexists.
  match goal with
  | |- exists obs calls, step _ _ _ _ _ _ = Next ?s /\ _ =>
      assert (E : step Sample.log (Sample.always Sample.final_with_action)
                       Sample.tools true 1 (Sample.start []) = Next s)
  end.
  { vm_compute. reflexivity. }
  destruct (Hnext _ E) as [obs [calls [Hrun [Hlen [_ Hmsg]]]]].
  exists obs, calls.
  split; [exact E|]. split; [exact Hrun|]. split; [exact Hlen | exact Hmsg].
Defined.

(* ====================================================================== *)
(** ** The emitted records *)
(* ====================================================================== *)

Lemma all_chars_string_of_uint (p : ascii -> bool) (d : Decimal.uint) :
  (forall c, Py.isdecimal_char c = true -> p c = true) ->
  Py.all_chars p (NilEmpty.string_of_uint d) = true.
Proof.
  intros Hp. induction d; simpl; try reflexivity;
    rewrite IHd, andb_true_r; apply Hp; reflexivity.
Qed.

Lemma single_line_str_of_nat (n : nat) : single_line (Py.str_of_nat n) = true.
Proof.
  unfold Py.str_of_nat, NilZero.string_of_uint, single_line.
  assert (Hp : forall c, Py.isdecimal_char c = true ->
                         negb (Ascii.eqb c (ascii_of_N 10)
                               || Ascii.eqb c (ascii_of_N 13)) = true).
  { intros c Hc.
    destruct (Ascii.eqb_spec c (ascii_of_N 10)) as [->|_]; [discriminate Hc|].
    destruct (Ascii.eqb_spec c (ascii_of_N 13)) as [->|_]; [discriminate Hc|].
    reflexivity. }
  destruct (Nat.to_uint n) eqn:E; try reflexivity;
    apply (all_chars_string_of_uint _ _ Hp).
Qed.

Lemma single_line_app (x y : string) :
  single_line x = true -> single_line y = true -> single_line (x ++ y) = true.
Proof.
  unfold single_line. intros Hx Hy. now rewrite all_chars_app, Hx, Hy.
Qed.

Lemma single_line_escape_char (c : ascii) :
  single_line (Json.escape_char c) = true.
Proof. destruct c as [[] [] [] [] [] [] [] []]; reflexivity. Qed.

Lemma single_line_encode_string (s : string) :
  single_line (Json.encode_string s) = true.
Proof.
  unfold Json.encode_string.
  apply single_line_app; [reflexivity|].
  apply single_line_app; [|reflexivity].
  induction s as [|c s IH]; [reflexivity|].
  simpl. apply single_line_app; [apply single_line_escape_char | exact IH].
Qed.

Lemma single_line_join (sep : string) (l : list string) :
  single_line sep = true ->
  Forall (fun x => single_line x = true) l ->
  single_line (Py.join sep l) = true.
Proof.
  intros Hsep Hl. induction Hl as [|x l Hx Hl IH]; [reflexivity|].
  destruct l as [|y l]; [exact Hx|].
  change (Py.join sep (x :: y :: l)) with (x ++ sep ++ Py.join sep (y :: l)).
  apply single_line_app; [exact Hx|]. apply single_line_app; [exact Hsep | exact IH].
Qed.

(** [json.dumps] never puts a line break in its output: the ones inside
    strings are escaped. *)
Lemma single_line_dumps : forall j, single_line (Json.dumps j) = true.
Proof.
  fix IH 1. intros [s|n|l|d]; cbn [Json.dumps].
  - apply single_line_encode_string.
  - apply single_line_str_of_nat.
  - apply single_line_app; [reflexivity|].
    apply single_line_app; [|reflexivity].
    apply single_line_join; [reflexivity|].
    induction l as [|j l IHl]; constructor; [apply IH | exact IHl].
  - apply single_line_app; [reflexivity|].
    apply single_line_app; [|reflexivity].
    apply single_line_join; [reflexivity|].
    induction d as [|[k v] d IHd]; constructor; [|exact IHd].
    apply single_line_app; [apply single_line_encode_string|].
    apply single_line_app; [reflexivity | apply IH].
Qed.

Section Records.

Context {W : Type}.
Variable call_llm : list message -> W -> string * W.
Variable tools : dict (list value -> dict value -> W -> outcome * W).

(** An iteration only ever adds to what was printed. *)
Lemma step_appends (structured : bool) (step_num : nat) (st : state W) :
  exists printed,
    stdout (match step W call_llm tools structured step_num st with
            | Return _ st' | Next st' | Abort _ st' => st'
            end) = (stdout st ++ printed)%list.
Proof.
  unfold step.
  destruct (call_llm (messages st) (world st)) as [reply w1].
  destruct (is_final reply).
  - eexists. reflexivity.
  - destruct (run_actions W tools (action_lines_of reply) [] [] 0 w1)
      as [[[obs calls]|e] w2].
    + eexists. reflexivity.
    + exists []. simpl. now rewrite app_nil_r.
Qed.

Lemma run_loop_appends (structured : bool) (n step_num : nat) (st : state W) :
  exists printed,
    stdout (snd (run_loop W call_llm tools structured n step_num st))
    = (stdout st ++ printed)%list.
Proof.
  revert step_num st. induction n as [|n IH]; intros step_num st.
  - eexists. reflexivity.
  - cbn [run_loop].
    destruct (step_appends structured step_num st) as [p1 Hp1].
    destruct (step W call_llm tools structured step_num st) as [a st'|st'|e st'].
    + exists p1. exact Hp1.
    + destruct (IH (step_num + 1) st') as [p2 Hp2].
      exists (p1 ++ p2)%list. rewrite Hp2, Hp1, app_assoc. reflexivity.
    + exists p1. exact Hp1.
Qed.

(** A run that returns [None] has printed the max-steps record last. *)
Lemma run_loop_none (n step_num : nat) (st st' : state W) :
  run_loop W call_llm tools true n step_num st = (Ok None, st') ->
  exists before,
    stdout st' = (before ++ [emit_json (max_steps_record (steps st'))])%list.
Proof.
  revert step_num st. induction n as [|n IH]; intros step_num st H.
  - cbn [run_loop] in H. inversion H; subst; clear H. simpl.
    eexists. reflexivity.
  - cbn [run_loop] in H.
    destruct (step W call_llm tools true step_num st) as [a st1|st1|e st1];
      [discriminate H | | discriminate H].
    exact (IH _ _ H).
Qed.

Lemma run_actions_total (ls obs : list string) (calls : list tool_call)
      (n : nat) (w : W) :
  (forall line, In line ls -> exists r, parse_action line = Ok r) ->
  exists obs' calls' w',
    run_actions W tools ls obs calls n w = (Ok (obs', calls'), w').
Proof.
  revert obs calls n w. induction ls as [|l ls IH]; intros obs calls n w Hp.
  - do 3 eexists. reflexivity.
  - cbn [run_actions].
    destruct (Nat.leb MAX_ACTIONS_PER_STEP n); [do 3 eexists; reflexivity|].
    destruct (Hp l (or_introl eq_refl)) as [r Hr]. rewrite Hr.
    assert (Hp' : forall line, In line ls -> exists r, parse_action line = Ok r)
      by (intros line Hin; apply Hp; right; exact Hin).
    destruct r as [[[name args] kwargs]|]; [|apply IH; exact Hp'].
    destruct (Py.nonempty name); [|apply IH; exact Hp'].
    destruct (execute_tool W tools name args kwargs w) as [o w1].
    apply IH; exact Hp'.
Qed.

(** Without a final answer, and with action lines that [parse_action]
    accepts or rejects without raising, the loop runs all its iterations,
    records one step for each and returns [None]. *)
Lemma run_loop_exhausts (structured : bool) (n step_num : nat) (st : state W) :
  (forall ms w, is_final (fst (call_llm ms w)) = false) ->
  (forall ms w line,
      In line (action_lines_of (fst (call_llm ms w))) ->
      exists r, parse_action line = Ok r) ->
  exists st',
    run_loop W call_llm tools structured n step_num st = (Ok None, st')
    /\ List.length (steps st') = List.length (steps st) + n.
Proof.
  intros Hnf Hparse. revert step_num st.
  induction n as [|n IH]; intros step_num st.
  - eexists. split; [reflexivity|]. simpl. lia.
  - cbn [run_loop]. unfold step.
    specialize (Hnf (messages st) (world st)).
    specialize (Hparse (messages st) (world st)).
    destruct (call_llm (messages st) (world st)) as [reply w1]. simpl in *.
    rewrite Hnf.
    destruct (run_actions_total (action_lines_of reply) [] [] 0 w1 Hparse)
      as [obs [calls [w2 Hrun]]].
    rewrite Hrun.
    match goal with
    | |- exists st', run_loop _ _ _ _ _ _ ?s = _ /\ _ =>
        destruct (IH (step_num + 1) s) as [st' [Hloop Hlen]]
    end.
    exists st'. split; [exact Hloop|].
    rewrite Hlen. simpl. rewrite length_app. simpl. lia.
Qed.

(** With the default limit: 20 steps, then the max-steps record. *)
Lemma run_reaches_max_steps (system_prompt question : string)
      (structured : bool) (w : W) :
  (forall ms w, is_final (fst (call_llm ms w)) = false) ->
  (forall ms w line,
      In line (action_lines_of (fst (call_llm ms w))) ->
      exists r, parse_action line = Ok r) ->
  exists st',
    run W call_llm tools system_prompt question DEFAULT_MAX_STEPS structured w
    = (Ok None, st')
    /\ List.length (steps st') = 20
    /\ (structured = true ->
        exists before,
          stdout st' = (before ++ [emit_json (max_steps_record (steps st'))])%list).
Proof.
  intros Hnf Hparse. unfold run.
  match goal with
  | |- exists st', run_loop _ _ _ _ _ _ ?s = _ /\ _ =>
      destruct (run_loop_exhausts structured DEFAULT_MAX_STEPS 1 s Hnf Hparse)
        as [st' [Hloop Hlen]]
  end.
  exists st'. split; [exact Hloop|]. split; [exact Hlen|].
  intros ->. exact (run_loop_none _ _ _ _ Hloop).
Qed.

End Records.

(** C9. In structured mode a step prints one [STEP_JSON:] line with the
    record [{type: "step", step, thought, tools: [{tool, result}, ...]}]
    when it made at least one tool call, and nothing when it made none; a
    final answer prints [{type: "final", thought, answer, steps}]; a run
    that returns [None] has printed [{type: "final", answer: "Max steps
    reached.", steps}] last; printing only appends, and each record is one
    line. *)
Theorem C9_structured_records
        {W : Type} (call_llm : list message -> W -> string * W)
        (tools : dict (list value -> dict value -> W -> outcome * W))
        (step_num : nat) (st : state W) :
  (forall st',
      step W call_llm tools true step_num st = Next st' ->
      exists t calls,
        steps st' = (steps st ++ [{| thought := t; tools_called := calls |}])%list
        /\ stdout st'
           = (stdout st
              ++ match calls with
                 | [] => []
                 | _ :: _ =>
                     [(STEP_JSON
                      ++ Json.dumps
                           (Json.JDict
                              [("type", Json.JStr "step");
                               ("step", Json.JInt step_num);
                               ("thought", Json.JStr t);
                               ("tools",
                                Json.JList
                                  (List.map
                                     (fun c => Json.JDict
                                                 [("tool", Json.JStr (tool c));
                                                  ("result", Json.JStr (tool_result c))])
                                     calls))]))%string]
                 end)%list)
  /\ (forall a st',
         step W call_llm tools true step_num st = Return a st' ->
         exists t,
           steps st' = steps st
           /\ stdout st'
              = (stdout st
                 ++ [(STEP_JSON
                     ++ Json.dumps
                          (Json.JDict
                             [("type", Json.JStr "final");
                              ("thought", Json.JStr t);
                              ("answer", Json.JStr a);
                              ("steps",
                               Json.JList (List.map json_of_step_entry (steps st)))]))%string])%list)
  /\ (forall n st',
         run_loop W call_llm tools true n step_num st = (Ok None, st') ->
         exists before,
           stdout st'
           = (before
              ++ [(STEP_JSON
                  ++ Json.dumps
                       (Json.JDict
                          [("type", Json.JStr "final");
                           ("answer", Json.JStr "Max steps reached.");
                           ("steps",
                            Json.JList (List.map json_of_step_entry (steps st')))]))%string])%list)
  /\ (forall n, exists printed,
         stdout (snd (run_loop W call_llm tools true n step_num st))
         = (stdout st ++ printed)%list)
  /\ (forall j, single_line (emit_json j) = true).
Proof.
  split; [|split; [|split; [|split]]].
  - intros st' H.
    destruct (is_final (fst (call_llm (messages st) (world st)))) eqn:Hf.
    + exfalso. unfold step in H.
      destruct (call_llm (messages st) (world st)) as [reply w1]. simpl in Hf.
      rewrite Hf in H. discriminate H.
    + destruct (proj2 (step_not_final call_llm tools true step_num st Hf) st' H)
        as [obs [calls [_ [Hsteps [_ Hout]]]]].
      eexists. exists calls. split; [exact Hsteps|].
      rewrite Hout. destruct calls; reflexivity.
  - intros a st' H. unfold step in H.
    destruct (call_llm (messages st) (world st)) as [reply w1].
    destruct (is_final reply).
    + inversion H; subst; clear H. eexists. split; reflexivity.
    + destruct (run_actions W tools (action_lines_of reply) [] [] 0 w1)
        as [[[obs calls]|e] w2]; discriminate H.
  - intros n st' H. exact (run_loop_none call_llm tools n step_num st st' H).
  - intros n. apply run_loop_appends.
  - intros j. unfold emit_json.
    apply single_line_app; [reflexivity | apply single_line_dumps].
Qed.

(** C9 on a step that calls one tool. *)
Lemma C9_witness :
  exists st' t calls,
    step Sample.log (Sample.always "ACTION: list_tables()") Sample.tools
         true 3 (Sample.start []) = Next st'
    /\ steps st' = [{| thought := t; tools_called := calls |}]
    /\ stdout st'
       = match calls with
         | [] => []
         | _ :: _ =>
             [(STEP_JSON
               ++ Json.dumps
                    (Json.JDict
                       [("type", Json.JStr "step");
                        ("step", Json.JInt 3);
                        ("thought", Json.JStr t);
                        ("tools",
                         Json.JList
                           (List.map
                              (fun c => Json.JDict
                                          [("tool", Json.JStr (tool c));
                                           ("result", Json.JStr (tool_result c))])
                              calls))]))%string]
         end.
Proof.
  destruct (C9_structured_records (Sample.always "ACTION: list_tables()")
              Sample.tools 3 (Sample.start [])) as [Hstep _].
  eexists.
  match goal with
  | |- exists t calls, step _ _ _ _ _ _ = Next ?s /\ _ =>
      assert (E : step Sample.log (Sample.always "ACTION: list_tables()")
                       Sample.tools true 3 (Sample.start []) = Next s)
  end.
  { vm_compute. reflexivity. }
  destruct (Hstep _ E) as [t [calls [Hs Ho]]].
  exists t, calls. split; [exact E|]. split; [exact Hs | exact Ho].
Defined.

(* ====================================================================== *)
(** ** The coercion chain against the grammar of the specification *)
(* ====================================================================== *)

Lemma prefix_nil (s : string) : prefix EmptyString s = true.
Proof. destruct s; reflexivity. Qed.

Lemma prefix_char (d c : ascii) (s : string) :
  prefix (String d EmptyString) (String c s) = Ascii.eqb c d.
Proof.
  simpl. rewrite prefix_nil.
  destruct (ascii_dec d c) as [->|N].
  - now rewrite Ascii.eqb_refl.
  - symmetry. apply Ascii.eqb_neq. congruence.
Qed.

Lemma replace_aux_done (old new s : string) :
  Py.replace_aux old new (Some 0) 0 s = s.
Proof. destruct s; reflexivity. Qed.

(** Removing the first [.] joins the text before it and the text after. *)
Lemma replace_first_dot (s : string) :
  Py.replace "." EmptyString (Some 1) s
  = match dot_parts s with
    | Some (a, b) => a ++ b
    | None => s
    end.
Proof.
  unfold Py.replace. induction s as [|c s IH]; [reflexivity|].
  cbn [Py.replace_aux dot_parts]. rewrite prefix_char.
  destruct (Ascii.eqb c ".").
  - cbn [option_map Nat.pred String.length Nat.sub]. now rewrite replace_aux_done.
  - rewrite IH. now destruct (dot_parts s) as [[a b]|].
Qed.

Lemma dot_parts_some (s a b : string) :
  dot_parts s = Some (a, b) ->
  s = a ++ String "." b /\ Py.find_from "." s 0 = Py.len a.
Proof.
  revert a. induction s as [|c s IH]; intros a H; [discriminate H|].
  cbn [dot_parts] in H. cbn [Py.find_from]. rewrite prefix_char.
  destruct (Ascii.eqb_spec c ".") as [->|N].
  - inversion H; subst. split; reflexivity.
  - destruct (dot_parts s) as [[a' b']|]; [|discriminate H].
    inversion H; subst; clear H.
    destruct (IH a' eq_refl) as [Hs Hf]. split.
    + simpl. now rewrite <- Hs.
    + clear - Hf. unfold Py.len in *. simpl String.length.
      assert (G : forall t i, Py.find_from "." t (i + 1) = (Py.find_from "." t i + 1)%Z
                              \/ Py.find_from "." t i = (-1)%Z).
      { clear. induction t as [|d t IHt]; intros i; cbn [Py.find_from].
        - right. reflexivity.
        - rewrite prefix_char. destruct (Ascii.eqb d "."); [left; reflexivity|].
          apply IHt. }
      destruct (G s 0%Z) as [G1|G1].
      * rewrite G1, Hf. lia.
      * rewrite Hf in G1. lia.
Qed.

Lemma last_char_app (x y : string) :
  Py.nonempty y = true -> Py.last_char (x ++ y) = Py.last_char y.
Proof.
  intros Hy. induction x as [|c x IH]; [reflexivity|].
  simpl. rewrite IH. destruct (x ++ y) eqn:E; [|reflexivity].
  destruct x; simpl in E; [subst y; discriminate Hy | discriminate E].
Qed.

Lemma ascii_digits_same (s : string) :
  ascii_digits s = true ->
  Py.all_chars Py.isdigit_char s = Py.all_chars Py.isdecimal_char s.
Proof.
  unfold ascii_digits. induction s as [|c s IH]; [reflexivity|].
  simpl. intros H. apply andb_true_iff in H as [Hc Hs]. rewrite (IH Hs).
  f_equal. unfold Py.isdigit_char in *.
  destruct (Py.isdecimal_char c); [reflexivity|].
  rewrite orb_false_r in Hc. now apply negb_true_iff in Hc.
Qed.

Lemma ascii_digits_app (x y : string) :
  ascii_digits (x ++ y) = (ascii_digits x && ascii_digits y)%bool.
Proof. apply all_chars_app. Qed.

Lemma nonempty_app (x y : string) :
  Py.nonempty (x ++ y) = (Py.nonempty x || Py.nonempty y)%bool.
Proof. now destruct x. Qed.

(** [val[1:-1]] of a value of two characters or more. *)
Lemma slice_inner (s : string) :
  2 <= String.length s ->
  Py.slice s 1 (-1) = substring 1 (String.length s - 2) s.
Proof.
  intros H. unfold Py.slice, Py.clamp, Py.len.
  change (1 <? 0)%Z with false. change (-1 <? 0)%Z with true. cbv iota.
  rewrite Z.min_l by lia. rewrite Z.max_l by lia.
  f_equal. lia.
Qed.

Lemma lower_char_n (c : ascii) : Py.lower_char c = "n"%char -> c = "n"%char \/ c = "N"%char.
Proof.
  destruct c as [[] [] [] [] [] [] [] []]; vm_compute; intros H;
    try discriminate H; auto.
Qed.

Lemma lower_char_u (c : ascii) : Py.lower_char c = "u"%char -> c = "u"%char \/ c = "U"%char.
Proof.
  destruct c as [[] [] [] [] [] [] [] []]; vm_compute; intros H;
    try discriminate H; auto.
Qed.

Lemma lower_char_l (c : ascii) : Py.lower_char c = "l"%char -> c = "l"%char \/ c = "L"%char.
Proof.
  destruct c as [[] [] [] [] [] [] [] []]; vm_compute; intros H;
    try discriminate H; auto.
Qed.

(** A token that reads [null] in any letter case comes out as itself. *)
Lemma coerce_null (token : string) :
  Py.lower token = "null" -> coerce token = Ok (VStr token).
Proof.
  destruct token as [|c1 [|c2 [|c3 [|c4 [|c5 t]]]]]; simpl; intros H;
    try discriminate H.
  injection H as H1 H2 H3 H4.
  destruct (lower_char_n _ H1), (lower_char_u _ H2),
           (lower_char_l _ H3), (lower_char_l _ H4); subst; reflexivity.
Qed.

Lemma all_chars_impl (p q : ascii -> bool) (s : string) :
  (forall c, p c = true -> q c = true) ->
  Py.all_chars p s = true -> Py.all_chars q s = true.
Proof.
  intros Hpq. induction s as [|c s IH]; [reflexivity|].
  simpl. intros H. apply andb_true_iff in H as [Hc Hs].
  now rewrite (Hpq c Hc), (IH Hs).
Qed.

Lemma decimal_is_digit (s : string) :
  Py.all_chars Py.isdecimal_char s = true ->
  Py.all_chars Py.isdigit_char s = true.
Proof.
  apply all_chars_impl. intros c H. unfold Py.isdigit_char. now rewrite H.
Qed.

Lemma digits_not_ascii (s : string) :
  Py.all_chars Py.isdigit_char s = true ->
  Py.all_chars Py.isdecimal_char s = false ->
  ascii_digits s = false.
Proof.
  intros Hd Hn. destruct (ascii_digits s) eqn:E; [|reflexivity].
  rewrite (ascii_digits_same s E) in Hd. congruence.
Qed.

Lemma leading_decimals_all (s : string) :
  Py.all_chars Py.isdecimal_char s = true ->
  leading_decimals s = String.length s.
Proof.
  induction s as [|c s IH]; [reflexivity|].
  simpl. intros H. apply andb_true_iff in H as [Hc Hs].
  now rewrite Hc, (IH Hs).
Qed.

(** [val[1:-1]] of a value of one character or more. *)
Lemma slice_inner_any (s : string) :
  1 <= String.length s ->
  Py.slice s 1 (-1) = substring 1 (String.length s - 2) s.
Proof.
  intros H. unfold Py.slice, Py.clamp, Py.len.
  change (1 <? 0)%Z with false. change (-1 <? 0)%Z with true. cbv iota.
  rewrite Z.min_l by lia. rewrite Z.max_l by lia.
  f_equal. lia.
Qed.

(** After the two tests on numbers, the chain of the code and the amended
    grammar make the same tests. *)
Lemma coerce_tail (token : string) :
  (if String.eqb (Py.lower token) "true" then Ok (VBool true)
   else if String.eqb (Py.lower token) "false" then Ok (VBool false)
   else if String.eqb (Py.lower token) "none" then Ok VNone
   else if (wrapped_in Shlex.dquote token || wrapped_in Shlex.squote token)%bool
        then Ok (VStr (Py.slice token 1 (-1))) else Ok (VStr token))
  = Ok (if String.eqb (Py.lower token) "true" then VBool true
        else if String.eqb (Py.lower token) "false" then VBool false
        else if String.eqb (Py.lower token) "none" then VNone
        else if (wrapped_in Shlex.squote token || wrapped_in Shlex.dquote token)%bool
             then VStr (substring 1 (String.length token - 2) token)
             else VStr token).
Proof.
  destruct (String.eqb (Py.lower token) "true"); [reflexivity|].
  destruct (String.eqb (Py.lower token) "false"); [reflexivity|].
  destruct (String.eqb (Py.lower token) "none"); [reflexivity|].
  rewrite (orb_comm (wrapped_in Shlex.dquote token)).
  destruct (wrapped_in Shlex.squote token || wrapped_in Shlex.dquote token)%bool
    eqn:Ew; [|reflexivity].
  rewrite slice_inner_any; [reflexivity|].
  destruct token; [discriminate Ew | simpl; lia].
Qed.

(** The chain of the code gives the value of the amended grammar, or it
    raises; it raises only on a value with a digit that is not [0-9] or on
    an integer literal beyond the limit of [int]. *)
Lemma coerce_shape (token : string) :
  coerce token = Ok (amended_coercion token)
  \/ (exists e, coerce token = Raise e)
     /\ (ascii_digits token = false \/ within_int_limit token = false).
Proof.
  unfold coerce, amended_coercion.
  destruct (Py.isdigit token) eqn:Ed.
  - unfold Py.isdigit in Ed. apply andb_true_iff in Ed as [Hne Hdig].
    unfold py_int, is_integer_literal. rewrite Hne. cbn [andb].
    destruct (Py.all_chars Py.isdecimal_char token) eqn:Edec.
    + destruct (Nat.ltb INT_MAX_STR_DIGITS (leading_decimals token)) eqn:El.
      * right. split; [eexists; reflexivity|]. right.
        unfold within_int_limit, is_integer_literal. rewrite Hne, Edec.
        cbn [andb negb orb]. rewrite (leading_decimals_all token Edec) in El.
        apply Nat.ltb_lt in El. apply Nat.leb_gt. exact El.
      * left. reflexivity.
    + right. split.
      * destruct (Nat.ltb INT_MAX_STR_DIGITS (leading_decimals token));
          eexists; reflexivity.
      * left. now apply digits_not_ascii.
  - assert (Eint : is_integer_literal token = false).
    { unfold is_integer_literal. unfold Py.isdigit in Ed.
      destruct (Py.nonempty token); [|reflexivity]. cbn [andb] in *.
      destruct (Py.all_chars Py.isdecimal_char token) eqn:E; [|reflexivity].
      rewrite (decimal_is_digit token E) in Ed. discriminate Ed. }
    rewrite Eint, replace_first_dot. unfold is_dotted_decimal.
    destruct (dot_parts token) as [[a b]|] eqn:Edot.
    2:{ rewrite Ed. left. apply coerce_tail. }
    destruct (dot_parts_some _ _ _ Edot) as [Htok Hfind].
    destruct (Py.isdigit (a ++ b)) eqn:Eab.
    + unfold Py.isdigit in Eab. apply andb_true_iff in Eab as [Hne Hdig].
      unfold py_float. rewrite replace_first_dot, Edot.
      destruct (Py.all_chars Py.isdecimal_char (a ++ b)) eqn:Edec.
      * left. rewrite all_chars_app in Edec.
        apply andb_true_iff in Edec as [Ea Eb]. rewrite Ea, Eb, Hne.
        cbn [andb]. do 2 f_equal. unfold Py.find. rewrite Hfind. unfold Py.len.
        rewrite Htok, length_append. simpl String.length. lia.
      * right. split; [eexists; reflexivity|]. left.
        pose proof (digits_not_ascii (a ++ b) Hdig Edec) as Hn.
        rewrite Htok. rewrite ascii_digits_app in Hn |- *.
        change (ascii_digits (String "." b)) with (ascii_digits b).
        exact Hn.
    + assert (Edd : (Py.all_chars Py.isdecimal_char a
                     && Py.all_chars Py.isdecimal_char b
                     && Py.nonempty (a ++ b))%bool = false).
      { destruct (Py.all_chars Py.isdecimal_char a) eqn:Ea; [|reflexivity].
        destruct (Py.all_chars Py.isdecimal_char b) eqn:Eb; [|reflexivity].
        destruct (Py.nonempty (a ++ b)) eqn:En; [|reflexivity].
        unfold Py.isdigit in Eab.
        rewrite En, all_chars_app, (decimal_is_digit a Ea), (decimal_is_digit b Eb)
          in Eab. discriminate Eab. }
      rewrite Edd. left. apply coerce_tail.
Qed.

(** Where the amended grammar is the grammar of the specification. *)
Lemma amended_is_spec (token : string) :
  String.eqb (Py.lower token) "null" = false ->
  edge_dot token = false ->
  lone_quote token = false ->
  amended_coercion token = spec_coercion token.
Proof.
  intros Hnull Hedge Hlone. unfold amended_coercion, spec_coercion.
  destruct (is_integer_literal token); [reflexivity|].
  unfold is_dotted_decimal, is_decimal_literal.
  assert (Htail :
    (if String.eqb (Py.lower token) "true" then VBool true
     else if String.eqb (Py.lower token) "false" then VBool false
     else if String.eqb (Py.lower token) "none" then VNone
     else if (wrapped_in Shlex.squote token || wrapped_in Shlex.dquote token)%bool
          then VStr (substring 1 (String.length token - 2) token)
          else VStr token)
    = (if String.eqb (Py.lower token) "true" then VBool true
       else if String.eqb (Py.lower token) "false" then VBool false
       else if (String.eqb (Py.lower token) "none"
                || String.eqb (Py.lower token) "null")%bool then VNone
       else if quoted_pair token
            then VStr (substring 1 (String.length token - 2) token)
            else VStr token)).
  { rewrite Hnull, orb_false_r. unfold quoted_pair.
    destruct (wrapped_in Shlex.squote token || wrapped_in Shlex.dquote token)%bool
      eqn:Ew; [|now rewrite andb_false_r].
    assert (Hle : Nat.leb 2 (String.length token) = true).
    { apply Nat.leb_le. unfold lone_quote in Hlone.
      rewrite Ew, andb_true_r in Hlone. apply Nat.eqb_neq in Hlone.
      destruct token as [|c t]; [discriminate Ew|]. simpl in *. lia. }
    now rewrite Hle. }
  destruct (dot_parts token) as [[a b]|] eqn:Edot; [|exact Htail].
  destruct (dot_parts_some _ _ _ Edot) as [Htok _].
  assert (Ha : Py.nonempty a = true).
  { destruct a; [|reflexivity]. subst token. discriminate Hedge. }
  assert (Hb : Py.nonempty b = true).
  { destruct b; [|reflexivity]. exfalso. subst token.
    unfold edge_dot in Hedge. rewrite last_char_app in Hedge by reflexivity.
    simpl in Hedge. now rewrite orb_true_r in Hedge. }
  unfold is_integer_literal. rewrite nonempty_app, Ha, Hb. cbn [orb andb].
  rewrite andb_true_r.
  destruct (Py.all_chars Py.isdecimal_char a && Py.all_chars Py.isdecimal_char b)%bool;
    [reflexivity | exact Htail].
Qed.

Lemma dot_parts_after (d rest : string) :
  Py.all_chars Py.isdecimal_char d = true ->
  dot_parts (d ++ String "." rest) = Some (d, rest).
Proof.
  induction d as [|c d IH]; intros H; [reflexivity|].
  cbn [Py.all_chars] in H. apply andb_true_iff in H as [Hc Hd].
  change (String c d ++ String "." rest) with (String c (d ++ String "." rest)).
  cbn [dot_parts]. rewrite (IH Hd).
  destruct (Ascii.eqb_spec c ".") as [->|_]; [discriminate Hc | reflexivity].
Qed.

(** A decimal whose [.] comes last, or first, is a float. *)
Lemma amended_edge_dot (d : string) :
  is_integer_literal d = true ->
  amended_coercion (d ++ ".") = VFloat (Py.digits_value 0 d) 0
  /\ amended_coercion ("." ++ d) = VFloat (Py.digits_value 0 d) (String.length d).
Proof.
  unfold is_integer_literal. intros H. apply andb_true_iff in H as [Hne Hd].
  split.
  - unfold amended_coercion, is_integer_literal, is_dotted_decimal.
    rewrite all_chars_app, Hd. cbn [Py.all_chars andb].
    change (Py.isdecimal_char ".") with false. rewrite andb_false_r.
    rewrite (dot_parts_after d EmptyString Hd), Hd, append_nil_r, Hne.
    reflexivity.
  - unfold amended_coercion, is_integer_literal, is_dotted_decimal.
    change ("." ++ d) with (String "." d). cbn [Py.all_chars dot_parts Py.nonempty].
    change (Py.isdecimal_char ".") with false.
    change (Ascii.eqb "." ".") with true. cbv iota.
    change (EmptyString ++ d) with d. cbn [andb].
    now rewrite Hd, Hne.
Qed.



(* ====================================================================== *)
(** ** The parser on well-formed calls *)
(* ====================================================================== *)

Lemma first_char_app (x y : string) :
  Py.nonempty x = true -> Py.first_char (x ++ y) = Py.first_char x.
Proof. now destruct x. Qed.

Lemma not_space_nonempty (s : string) :
  not_space (Py.first_char s) = true -> Py.nonempty s = true.
Proof. now destruct s. Qed.

Lemma last_char_nonempty (s : string) :
  not_space (Py.last_char s) = true -> Py.nonempty s = true.
Proof. now destruct s. Qed.

Lemma lstrip_id (s : string) :
  not_space (Py.first_char s) = true -> Py.lstrip s = s.
Proof.
  destruct s as [|c s]; [reflexivity|]. simpl. intros H.
  apply negb_true_iff in H. now rewrite H.
Qed.

Lemma rstrip_id (s : string) :
  not_space (Py.last_char s) = true -> Py.rstrip s = s.
Proof.
  induction s as [|c s IH]; [reflexivity|].
  destruct s as [|d s].
  - simpl. intros H. apply negb_true_iff in H. now rewrite H.
  - intros H. change (Py.last_char (String c (String d s)))
      with (Py.last_char (String d s)) in H.
    change (Py.rstrip (String c (String d s)))
      with (match Py.rstrip (String d s) with
            | EmptyString =>
                if Py.isspace c then EmptyString else String c EmptyString
            | r => String c r
            end).
    now rewrite (IH H).
Qed.

(** [s.strip()] of a string without white space at either end. *)
Lemma strip_id (s : string) :
  not_space (Py.first_char s) = true ->
  not_space (Py.last_char s) = true ->
  Py.strip s = s.
Proof.
  intros Hf Hl. unfold Py.strip. rewrite (lstrip_id s Hf). now apply rstrip_id.
Qed.

(** [s.split('\n')] of a single line. *)
Lemma split_single_line (s : string) :
  Py.all_chars (fun c => negb (Ascii.eqb c (ascii_of_N 10))) s = true ->
  Py.split Py.newline s = [s].
Proof.
  unfold Py.split, Py.newline. induction s as [|c s IH]; [reflexivity|].
  intros H. cbn [Py.all_chars] in H. apply andb_true_iff in H as [Hc Hs].
  cbn [Py.split_aux]. rewrite prefix_char.
  apply negb_true_iff in Hc. rewrite Hc, (IH Hs). reflexivity.
Qed.

Lemma replace_action (rest : string) :
  Py.replace ACTION EmptyString (Some 1) ("ACTION:" ++ rest) = rest.
Proof. unfold Py.replace. cbn. destruct rest; reflexivity. Qed.

Lemma contains_char_false (c : ascii) (s : string) :
  Py.all_chars (fun d => negb (Ascii.eqb d c)) s = true ->
  Py.contains (String c EmptyString) s = false.
Proof.
  induction s as [|d s IH]; [reflexivity|].
  intros H. cbn [Py.all_chars] in H. apply andb_true_iff in H as [Hd Hs].
  rewrite contains_unfold, prefix_char.
  apply negb_true_iff in Hd. rewrite Hd. exact (IH Hs).
Qed.

Lemma find_from_app (c : ascii) (x y : string) (i : Z) :
  Py.all_chars (fun d => negb (Ascii.eqb d c)) x = true ->
  Py.find_from (String c EmptyString) (x ++ String c y) i = (i + Py.len x)%Z.
Proof.
  revert i. induction x as [|d x IH]; intros i.
  - intros _. simpl. rewrite prefix_nil.
    destruct (ascii_dec c c) as [_|N]; [unfold Py.len; simpl; lia | now elim N].
  - intros H. cbn [Py.all_chars] in H. apply andb_true_iff in H as [Hd Hx].
    change (String d x ++ String c y) with (String d (x ++ String c y)).
    cbn [Py.find_from]. rewrite prefix_char.
    apply negb_true_iff in Hd. rewrite Hd, (IH _ Hx).
    unfold Py.len. simpl String.length. lia.
Qed.

Lemma substring_prefix (x y : string) :
  substring 0 (String.length x) (x ++ y) = x.
Proof.
  induction x as [|c x IH]; simpl; [now destruct y | now rewrite IH].
Qed.

Lemma substring_skip (x z : string) (k m : nat) :
  substring (String.length x + k) m (x ++ z) = substring k m z.
Proof. induction x as [|c x IH]; simpl; [reflexivity | exact IH]. Qed.

(** [s[:len(x)]] of [s = x + y] *)
Lemma slice_head (x y : string) : Py.slice (x ++ y) 0 (Py.len x) = x.
Proof.
  unfold Py.slice, Py.clamp, Py.len. rewrite length_append.
  change (0 <? 0)%Z with false. cbv iota.
  replace (Z.of_nat (String.length x) <? 0)%Z with false
    by (symmetry; apply Z.ltb_ge; lia).
  rewrite !Z.min_l by lia.
  change (Z.to_nat 0) with 0.
  replace (Z.to_nat (Z.of_nat (String.length x) - 0)) with (String.length x) by lia.
  apply substring_prefix.
Qed.

(** [s[len(x)+1 : len(x)+1+len(y)]] of [s = x + c + y + z] *)
Lemma slice_middle (x y z : string) (c : ascii) :
  Py.slice (x ++ String c (y ++ z)) (Py.len x + 1) (Py.len x + 1 + Py.len y) = y.
Proof.
  unfold Py.slice, Py.clamp, Py.len. rewrite length_append. simpl String.length.
  rewrite length_append.
  replace (Z.of_nat (String.length x) + 1 <? 0)%Z with false
    by (symmetry; apply Z.ltb_ge; lia).
  replace (Z.of_nat (String.length x) + 1 + Z.of_nat (String.length y) <? 0)%Z
    with false by (symmetry; apply Z.ltb_ge; lia).
  rewrite !Z.min_l by lia.
  replace (Z.to_nat (Z.of_nat (String.length x) + 1)) with (String.length x + 1)
    by lia.
  replace (Z.to_nat (Z.of_nat (String.length x) + 1 + Z.of_nat (String.length y)
                     - (Z.of_nat (String.length x) + 1)))
    with (String.length y) by lia.
  rewrite substring_skip. simpl. apply substring_prefix.
Qed.

(** [s[len(x)+1:]] of [s = x + c + y] *)
Lemma slice_from_tail (x y : string) (c : ascii) :
  Py.slice_from (x ++ String c y) (Py.len x + 1) = y.
Proof.
  unfold Py.slice_from.
  assert (L : Py.len (x ++ String c y) = (Py.len x + 1 + Py.len y)%Z)
    by (unfold Py.len; rewrite length_append; simpl String.length; lia).
  assert (E : x ++ String c y = x ++ String c (y ++ EmptyString))
    by now rewrite append_nil_r.
  rewrite L, E. apply slice_middle.
Qed.

Lemma plain_char_inv (c : ascii) :
  plain_char c = true ->
  Ascii.eqb c (ascii_of_N 10) = false /\ Ascii.eqb c Shlex.comma = false
  /\ Ascii.eqb c Shlex.squote = false /\ Ascii.eqb c Shlex.dquote = false
  /\ Ascii.eqb c Shlex.backslash = false
  /\ Ascii.eqb c "(" = false /\ Ascii.eqb c ")" = false /\ Ascii.eqb c "=" = false.
Proof.
  unfold plain_char, special_char. intros H. apply negb_true_iff in H.
  repeat (apply orb_false_iff in H; destruct H as [H ?]).
  repeat split; assumption.
Qed.

Lemma plain_scan_inert (c : ascii) : plain_char c = true -> scan_inert c = true.
Proof.
  intros H. destruct (plain_char_inv c H) as (_ & _ & H1 & H2 & _ & H3 & H4 & _).
  unfold scan_inert. now rewrite H1, H2, H3, H4.
Qed.

Lemma plain_lex_inert (c : ascii) : plain_char c = true -> lex_inert c = true.
Proof.
  intros H. destruct (plain_char_inv c H) as (_ & H0 & H1 & H2 & H3 & _).
  unfold lex_inert, Shlex.is_whitespace, Shlex.is_quote, Shlex.is_escape.
  now rewrite H0, H1, H2, H3.
Qed.

Lemma plain_parts (t : string) :
  plain t = true ->
  Py.all_chars plain_char t = true
  /\ not_space (Py.first_char t) = true
  /\ not_space (Py.last_char t) = true
  /\ Py.nonempty t = true.
Proof.
  unfold plain. intros H.
  apply andb_true_iff in H as [H Hl]. apply andb_true_iff in H as [Ha Hf].
  repeat split; try assumption. now apply not_space_nonempty.
Qed.

Lemma scan_inert_inv (c : ascii) :
  scan_inert c = true ->
  Ascii.eqb c Shlex.squote = false /\ Ascii.eqb c Shlex.dquote = false
  /\ Ascii.eqb c "(" = false /\ Ascii.eqb c ")" = false.
Proof.
  unfold scan_inert. intros H. apply negb_true_iff in H.
  repeat (apply orb_false_iff in H; destruct H as [H ?]).
  repeat split; assumption.
Qed.

(** Outside quotes, the scan passes over inert characters. *)
Lemma scan_inert_app (p rest : string) (i : Z) :
  Py.all_chars scan_inert p = true ->
  scan (p ++ rest) 1 false false i = scan rest 1 false false (i + Py.len p).
Proof.
  revert i. induction p as [|c p IH]; intros i H.
  - simpl. unfold Py.len. simpl. now rewrite Z.add_0_r.
  - cbn [Py.all_chars] in H. apply andb_true_iff in H as [Hc Hp].
    destruct (scan_inert_inv c Hc) as (H1 & H2 & H3 & H4).
    change (String c p ++ rest) with (String c (p ++ rest)).
    cbn [scan]. change (1 >? 0)%Z with true. cbv iota.
    rewrite H1, H2, H3, H4. cbn [andb negb]. rewrite (IH _ Hp).
    f_equal. unfold Py.len. simpl String.length. lia.
Qed.

Lemma scan_close (rest : string) (i : Z) :
  scan (String ")" rest) 1 false false i = (0%Z, (i + 1)%Z).
Proof. cbn. destruct rest; reflexivity. Qed.

Lemma lex_inert_inv (c : ascii) :
  lex_inert c = true ->
  Shlex.is_whitespace c = false /\ Shlex.is_quote c = false
  /\ Shlex.is_escape c = false.
Proof.
  unfold lex_inert. intros H. apply negb_true_iff in H.
  repeat (apply orb_false_iff in H; destruct H as [H ?]).
  repeat split; assumption.
Qed.

(** Inside a word, the lexer adds inert characters to the token. *)
Lemma tokens_word_app (p rest token : string) (quoted : bool) (esc : Shlex.state) :
  Py.all_chars lex_inert p = true ->
  Shlex.tokens Shlex.StWord token quoted esc (p ++ rest)
  = Shlex.tokens Shlex.StWord (token ++ p) quoted esc rest.
Proof.
  revert token. induction p as [|c p IH]; intros token H.
  - simpl. now rewrite append_nil_r.
  - cbn [Py.all_chars] in H. apply andb_true_iff in H as [Hc Hp].
    destruct (lex_inert_inv c Hc) as (H1 & H2 & H3).
    change (String c p ++ rest) with (String c (p ++ rest)).
    cbn [Shlex.tokens]. rewrite H1, H2, H3, (IH _ Hp).
    unfold Shlex.push. now rewrite append_assoc.
Qed.

(** A word of inert characters before a comma is one token. *)
Lemma tokens_word_comma (w rest : string) (esc : Shlex.state) :
  Py.nonempty w = true -> Py.all_chars lex_inert w = true ->
  Shlex.tokens Shlex.StSpace EmptyString false esc (w ++ String Shlex.comma rest)
  = Shlex.emit w (Shlex.tokens Shlex.StSpace EmptyString false Shlex.StSpace rest).
Proof.
  intros Hne H. destruct w as [|c w]; [discriminate Hne|].
  cbn [Py.all_chars] in H. apply andb_true_iff in H as [Hc Hw].
  destruct (lex_inert_inv c Hc) as (H1 & H2 & H3).
  change (String c w ++ String Shlex.comma rest)
    with (String c (w ++ String Shlex.comma rest)).
  cbn [Shlex.tokens]. rewrite H1, H2, H3.
  assert (E : Shlex.tokens Shlex.StWord (String c EmptyString) false esc
                (w ++ String Shlex.comma rest)
              = Shlex.emit (String c w)
                  (Shlex.tokens Shlex.StSpace EmptyString false Shlex.StSpace rest)).
  { rewrite (tokens_word_app _ _ _ _ _ Hw). now cbn. }
  now destruct (Shlex.is_wordchar c).
Qed.

(** A word of inert characters at the end of the input is one token. *)
Lemma tokens_word_end (w : string) (esc : Shlex.state) :
  Py.nonempty w = true -> Py.all_chars lex_inert w = true ->
  Shlex.tokens Shlex.StSpace EmptyString false esc w = Ok [w].
Proof.
  intros Hne H. destruct w as [|c w]; [discriminate Hne|].
  cbn [Py.all_chars] in H. apply andb_true_iff in H as [Hc Hw].
  destruct (lex_inert_inv c Hc) as (H1 & H2 & H3).
  cbn [Shlex.tokens]. rewrite H1, H2, H3.
  assert (E : Shlex.tokens Shlex.StWord (String c EmptyString) false esc w
              = Ok [String c w]).
  { rewrite <- (append_nil_r w) at 1.
    rewrite (tokens_word_app _ _ _ _ _ Hw). now cbn. }
  now destruct (Shlex.is_wordchar c).
Qed.

Lemma last_char_snoc (x : string) (c : ascii) :
  Py.last_char (x ++ String c EmptyString) = Some c.
Proof. now rewrite last_char_app. Qed.

Lemma plain_no_char (t : string) (c : ascii) :
  special_char c = true ->
  Py.all_chars plain_char t = true ->
  Py.all_chars (fun d => negb (Ascii.eqb d c)) t = true.
Proof.
  intros Hc. apply all_chars_impl. intros d Hd.
  destruct (Ascii.eqb_spec d c) as [->|_]; [|reflexivity].
  unfold plain_char in Hd. now rewrite Hc in Hd.
Qed.

(** A one-line text without white space at either end is parsed as its
    single line. *)
Lemma parse_action_one_line (text : string) :
  not_space (Py.first_char text) = true ->
  not_space (Py.last_char text) = true ->
  Py.all_chars (fun c => negb (Ascii.eqb c (ascii_of_N 10))) text = true ->
  Py.startswith ACTION text = true ->
  parse_action text = parse_line text.
Proof.
  intros Hf Hl Hnl Hs. unfold parse_action.
  rewrite (strip_id text Hf Hl), (split_single_line text Hnl).
  cbn [parse_lines]. now rewrite Hs.
Qed.

(** A line [ACTION: NAME(args)] whose [args] hold no quote and no
    parenthesis: the scan ends at the last character, and what is between
    the parentheses goes to the lexer. *)
Lemma parse_line_call (NAME args : string) :
  plain NAME = true ->
  Py.all_chars scan_inert args = true ->
  parse_line ("ACTION: " ++ NAME ++ "(" ++ args ++ ")")
  = if negb (Py.nonempty (Py.strip args)) then Ok (Some (NAME, [], []))
    else tokens <- Shlex.split (Py.strip args) ;;
         r <- collect tokens [] [] ;;
         Ok (Some (NAME, fst r, snd r)).
Proof.
  intros HN Hargs.
  destruct (plain_parts NAME HN) as (Hall & Hfirst & Hlast & Hne).
  unfold parse_line.
  change ("ACTION: " ++ NAME ++ "(" ++ args ++ ")")
    with ("ACTION:" ++ String " " (NAME ++ String "(" (args ++ ")"))).
  rewrite replace_action.
  set (body := NAME ++ String "(" (args ++ ")")).
  assert (Hstrip : Py.strip (String " " body) = body).
  { unfold Py.strip. change (Py.lstrip (String " " body)) with (Py.lstrip body).
    assert (Hfb : not_space (Py.first_char body) = true)
      by (unfold body; now rewrite first_char_app).
    rewrite (lstrip_id body Hfb). apply rstrip_id.
    unfold body.
    replace (NAME ++ String "(" (args ++ ")"))
      with ((NAME ++ String "(" args) ++ ")")
      by (now rewrite append_assoc).
    now rewrite last_char_snoc. }
  rewrite Hstrip.
  assert (Hopen : Py.contains "(" body = true)
    by (apply (contains_middle "(" NAME (args ++ ")"))).
  rewrite Hopen. cbn [negb andb].
  assert (Hfind : Py.find "(" body = Py.len NAME).
  { unfold Py.find, body. rewrite find_from_app; [lia|].
    now apply plain_no_char. }
  rewrite Hfind.
  assert (Hhead : Py.slice body 0 (Py.len NAME) = NAME) by apply slice_head.
  assert (Htail : Py.slice_from body (Py.len NAME + 1) = args ++ ")")
    by apply slice_from_tail.
  assert (Hmid : Py.slice body (Py.len NAME + 1) (Py.len NAME + 1 + Py.len args + 1 - 1)
                 = args).
  { replace (Py.len NAME + 1 + Py.len args + 1 - 1)%Z
      with (Py.len NAME + 1 + Py.len args)%Z by lia.
    apply slice_middle. }
  rewrite Htail, (scan_inert_app args ")" _ Hargs), scan_close.
  cbv beta iota zeta. change (negb (0 =? 0)%Z) with false. cbv iota.
  rewrite Hmid, Hhead, (strip_id NAME Hfirst Hlast). reflexivity.
Qed.

(** A line [ACTION: NAME] *)
Lemma parse_line_bare (NAME : string) :
  plain NAME = true ->
  parse_line ("ACTION: " ++ NAME) = Ok (Some (NAME, [], [])).
Proof.
  intros HN.
  destruct (plain_parts NAME HN) as (Hall & Hfirst & Hlast & Hne).
  unfold parse_line.
  change ("ACTION: " ++ NAME) with ("ACTION:" ++ String " " NAME).
  rewrite replace_action.
  assert (Hstrip : Py.strip (String " " NAME) = NAME).
  { unfold Py.strip. change (Py.lstrip (String " " NAME)) with (Py.lstrip NAME).
    rewrite (lstrip_id NAME Hfirst). now apply rstrip_id. }
  rewrite Hstrip.
  rewrite (contains_char_false "(" NAME), (contains_char_false ")" NAME);
    try (now apply plain_no_char).
  cbn [negb andb]. now rewrite (strip_id NAME Hfirst Hlast).
Qed.

Lemma split_eq_app (k v : string) :
  Py.all_chars (fun d => negb (Ascii.eqb d "=")) k = true ->
  split_eq (k ++ String "=" v) = (k, v).
Proof.
  induction k as [|c k IH]; intros H; [reflexivity|].
  cbn [Py.all_chars] in H. apply andb_true_iff in H as [Hc Hk].
  apply negb_true_iff in Hc.
  change (String c k ++ String "=" v) with (String c (k ++ String "=" v)).
  cbn [split_eq]. now rewrite Hc, (IH Hk).
Qed.

(** [" " + t] stripped, for [t] without white space at either end *)
Lemma strip_space (t : string) :
  not_space (Py.first_char t) = true ->
  not_space (Py.last_char t) = true ->
  Py.strip (String " " t) = t.
Proof.
  intros Hf Hl. unfold Py.strip.
  change (Py.lstrip (String " " t)) with (Py.lstrip t).
  rewrite (lstrip_id t Hf). now apply rstrip_id.
Qed.

Lemma quotable_char_inv (c : ascii) :
  quotable_char c = true ->
  Ascii.eqb c (ascii_of_N 10) = false /\ Ascii.eqb c Shlex.squote = false
  /\ Ascii.eqb c Shlex.dquote = false /\ Ascii.eqb c Shlex.backslash = false
  /\ Ascii.eqb c "=" = false.
Proof.
  unfold quotable_char. intros H. apply negb_true_iff in H.
  repeat (apply orb_false_iff in H; destruct H as [H ?]).
  repeat split; assumption.
Qed.

Lemma is_quote_inv (q : ascii) :
  Shlex.is_quote q = true -> q = Shlex.squote \/ q = Shlex.dquote.
Proof.
  unfold Shlex.is_quote. intros H. apply orb_true_iff in H as [H|H];
    apply Ascii.eqb_eq in H; [now left | now right].
Qed.

(** Inside quotes, the scan passes over every character that is not a
    quote. *)
Lemma scan_in_quotes (body rest : string) (in_single in_double : bool) (i : Z) :
  (in_single || in_double)%bool = true ->
  Py.all_chars quotable_char body = true ->
  scan (body ++ rest) 1 in_single in_double i
  = scan rest 1 in_single in_double (i + Py.len body).
Proof.
  intros Hin. revert i. induction body as [|c body IH]; intros i H.
  - simpl. unfold Py.len. simpl. now rewrite Z.add_0_r.
  - cbn [Py.all_chars] in H. apply andb_true_iff in H as [Hc Hb].
    destruct (quotable_char_inv c Hc) as (_ & H1 & H2 & _).
    change (String c body ++ rest) with (String c (body ++ rest)).
    cbn [scan]. change (1 >? 0)%Z with true. cbv iota.
    rewrite H1, H2. cbn [andb].
    replace (negb in_single && negb in_double)%bool with false
      by (now destruct in_single, in_double).
    rewrite (IH _ Hb). f_equal. unfold Py.len. simpl String.length. lia.
Qed.

(** The scan passes over a quoted text, parentheses included. *)
Lemma scan_quoted (q : ascii) (body rest : string) (i : Z) :
  Shlex.is_quote q = true ->
  Py.all_chars quotable_char body = true ->
  scan (String q (body ++ String q rest)) 1 false false i
  = scan rest 1 false false (i + Py.len (String q (body ++ String q EmptyString))).
Proof.
  intros Hq Hb.
  assert (Hlen : Py.len (String q (body ++ String q EmptyString))
                 = (1 + Py.len body + 1)%Z)
    by (unfold Py.len; simpl String.length; rewrite length_append;
        simpl String.length; lia).
  rewrite Hlen.
  destruct (is_quote_inv q Hq) as [->| ->].
  - cbn [scan]. change (1 >? 0)%Z with true. cbv iota.
    change (Ascii.eqb Shlex.squote Shlex.squote) with true. cbn [andb negb].
    rewrite (scan_in_quotes body _ true false _ eq_refl Hb).
    cbn [scan]. change (1 >? 0)%Z with true. cbv iota.
    change (Ascii.eqb Shlex.squote Shlex.squote) with true. cbn [andb negb].
    change (Ascii.eqb Shlex.squote "(") with false.
    change (Ascii.eqb Shlex.squote ")") with false. cbv iota.
    f_equal. lia.
  - cbn [scan]. change (1 >? 0)%Z with true. cbv iota.
    change (Ascii.eqb Shlex.dquote Shlex.squote) with false.
    change (Ascii.eqb Shlex.dquote Shlex.dquote) with true. cbn [andb negb].
    rewrite (scan_in_quotes body _ false true _ eq_refl Hb).
    cbn [scan]. change (1 >? 0)%Z with true. cbv iota.
    change (Ascii.eqb Shlex.dquote Shlex.squote) with false.
    change (Ascii.eqb Shlex.dquote Shlex.dquote) with true. cbn [andb negb].
    change (Ascii.eqb Shlex.dquote "(") with false.
    change (Ascii.eqb Shlex.dquote ")") with false. cbv iota.
    f_equal. lia.
Qed.

Lemma well_formed_bare (token : string) :
  well_formed_arg (Bare token) = true ->
  plain token = true /\ ascii_digits token = true
  /\ within_int_limit token = true.
Proof.
  cbn [well_formed_arg]. intros H.
  apply andb_true_iff in H as [H H3]. apply andb_true_iff in H as [H1 H2].
  now repeat split.
Qed.

Lemma well_formed_quoted (q : ascii) (body : string) :
  well_formed_arg (Quoted q body) = true ->
  Shlex.is_quote q = true /\ Py.all_chars quotable_char body = true
  /\ not_space (Py.first_char body) = true
  /\ not_space (Py.last_char body) = true
  /\ ascii_digits body = true /\ within_int_limit body = true.
Proof.
  cbn [well_formed_arg]. intros H.
  apply andb_true_iff in H as [H H6]. apply andb_true_iff in H as [H H5].
  apply andb_true_iff in H as [H H4]. apply andb_true_iff in H as [H H3].
  apply andb_true_iff in H as [H1 H2]. now repeat split.
Qed.

(** The scan passes over a well-formed argument. *)
Lemma scan_arg (a : arg) (rest : string) (i : Z) :
  well_formed_arg a = true ->
  scan (arg_text a ++ rest) 1 false false i
  = scan rest 1 false false (i + Py.len (arg_text a)).
Proof.
  destruct a as [token|q body]; intros H.
  - destruct (well_formed_bare token H) as (Hp & _).
    destruct (plain_parts token Hp) as (Hall & _).
    apply scan_inert_app. exact (all_chars_impl _ _ token plain_scan_inert Hall).
  - destruct (well_formed_quoted q body H) as (Hq & Hb & _).
    cbn [arg_text].
    change (String q (body ++ String q EmptyString) ++ rest)
      with (String q ((body ++ String q EmptyString) ++ rest)).
    rewrite append_assoc.
    change (String q EmptyString ++ rest) with (String q rest).
    now apply scan_quoted.
Qed.

(** Between quotes, the lexer adds every character that is neither the
    quote nor a backslash to the token; the closing quote ends the quoted
    part and leaves the token open. *)
Lemma tokens_quote_body (q : ascii) (body rest token : string) (quoted : bool)
      (esc : Shlex.state) :
  Shlex.is_quote q = true ->
  Py.all_chars quotable_char body = true ->
  Shlex.tokens (Shlex.StQuote q) token quoted esc (body ++ String q rest)
  = Shlex.tokens Shlex.StWord (token ++ body) true esc rest.
Proof.
  intros Hq. revert token quoted. induction body as [|c body IH];
    intros token quoted H.
  - cbn [append Shlex.tokens]. now rewrite Ascii.eqb_refl, append_nil_r.
  - cbn [Py.all_chars] in H. apply andb_true_iff in H as [Hc Hb].
    destruct (quotable_char_inv c Hc) as (_ & H1 & H2 & H3 & _).
    change (String c body ++ String q rest)
      with (String c (body ++ String q rest)).
    cbn [Shlex.tokens].
    assert (Hcq : Ascii.eqb c q = false)
      by (destruct (is_quote_inv q Hq) as [->| ->]; assumption).
    rewrite Hcq. unfold Shlex.is_escape at 1. rewrite H3. cbn [andb].
    rewrite (IH _ _ Hb). unfold Shlex.push. now rewrite append_assoc.
Qed.

(** Inside a word, the lexer adds a well-formed argument, without its
    quotes, to the token. *)
Lemma tokens_word_arg (a : arg) (rest token : string) (quoted : bool)
      (esc : Shlex.state) :
  well_formed_arg a = true ->
  exists quoted',
    Shlex.tokens Shlex.StWord token quoted esc (arg_text a ++ rest)
    = Shlex.tokens Shlex.StWord (token ++ arg_payload a) quoted' esc rest.
Proof.
  destruct a as [t|q body]; intros H.
  - destruct (well_formed_bare t H) as (Hp & _).
    destruct (plain_parts t Hp) as (Hall & _).
    exists quoted. apply tokens_word_app.
    exact (all_chars_impl _ _ t plain_lex_inert Hall).
  - destruct (well_formed_quoted q body H) as (Hq & Hb & _).
    exists true. cbn [arg_text arg_payload].
    change (String q (body ++ String q EmptyString) ++ rest)
      with (String q ((body ++ String q EmptyString) ++ rest)).
    rewrite append_assoc.
    change (String q EmptyString ++ rest) with (String q rest).
    cbn [Shlex.tokens]. rewrite Hq.
    assert (Hws : Shlex.is_whitespace q = false)
      by (destruct (is_quote_inv q Hq) as [->| ->]; reflexivity).
    rewrite Hws. now apply tokens_quote_body.
Qed.

(** At the start of a token, likewise. *)
Lemma tokens_space_arg (a : arg) (rest : string) (esc : Shlex.state) :
  well_formed_arg a = true ->
  exists quoted',
    Shlex.tokens Shlex.StSpace EmptyString false esc (arg_text a ++ rest)
    = Shlex.tokens Shlex.StWord (arg_payload a) quoted' esc rest.
Proof.
  destruct a as [t|q body]; intros H.
  - destruct (well_formed_bare t H) as (Hp & _).
    destruct (plain_parts t Hp) as (Hall & _ & _ & Hne).
    exists false. cbn [arg_text arg_payload].
    destruct t as [|c t]; [discriminate Hne|].
    cbn [Py.all_chars] in Hall. apply andb_true_iff in Hall as [Hc Ht].
    destruct (lex_inert_inv c (plain_lex_inert c Hc)) as (H1 & H2 & H3).
    change (String c t ++ rest) with (String c (t ++ rest)).
    cbn [Shlex.tokens]. rewrite H1, H2, H3.
    assert (E : Shlex.tokens Shlex.StWord (String c EmptyString) false esc (t ++ rest)
                = Shlex.tokens Shlex.StWord (String c t) false esc rest).
    { rewrite (tokens_word_app t rest _ false esc
                 (all_chars_impl _ _ t plain_lex_inert Ht)). reflexivity. }
    now destruct (Shlex.is_wordchar c).
  - destruct (well_formed_quoted q body H) as (Hq & Hb & _).
    exists true. cbn [arg_text arg_payload].
    change (String q (body ++ String q EmptyString) ++ rest)
      with (String q ((body ++ String q EmptyString) ++ rest)).
    rewrite append_assoc.
    change (String q EmptyString ++ rest) with (String q rest).
    cbn [Shlex.tokens]. rewrite Hq.
    assert (Hws : Shlex.is_whitespace q = false
                  /\ Shlex.is_escape q = false /\ Shlex.is_wordchar q = false)
      by (destruct (is_quote_inv q Hq) as [->| ->]; now repeat split).
    destruct Hws as (-> & -> & ->).
    now rewrite (tokens_quote_body q body rest EmptyString false esc Hq Hb).
Qed.

(** A comma ends a token that is not empty. *)
Lemma tokens_comma (token rest : string) (quoted : bool) (esc : Shlex.state) :
  Py.nonempty token = true ->
  Shlex.tokens Shlex.StWord token quoted esc (String Shlex.comma rest)
  = Shlex.emit token
      (Shlex.tokens Shlex.StSpace EmptyString false Shlex.StSpace rest).
Proof.
  intros H. cbn [Shlex.tokens].
  change (Shlex.is_whitespace Shlex.comma) with true. cbv iota.
  now rewrite H.
Qed.

(** So does the end of the input. *)
Lemma tokens_end (token : string) (quoted : bool) (esc : Shlex.state) :
  Py.nonempty token = true ->
  Shlex.tokens Shlex.StWord token quoted esc EmptyString = Ok [token].
Proof. intros H. cbn [Shlex.tokens]. now rewrite H. Qed.

(** What the parser needs of the payload of a well-formed argument. *)
Lemma arg_payload_facts (a : arg) :
  well_formed_arg a = true ->
  not_space (Py.first_char (arg_payload a)) = true
  /\ not_space (Py.last_char (arg_payload a)) = true
  /\ Py.contains "=" (arg_payload a) = false
  /\ coerce (arg_payload a) = Ok (arg_value a).
Proof.
  intros H.
  assert (Hc : ascii_digits (arg_payload a) = true
               /\ within_int_limit (arg_payload a) = true).
  { destruct a as [t|q body].
    - now destruct (well_formed_bare t H) as (_ & H1 & H2).
    - now destruct (well_formed_quoted q body H) as (_ & _ & _ & _ & H1 & H2). }
  destruct Hc as [Hd Hw].
  assert (Hco : coerce (arg_payload a) = Ok (arg_value a)).
  { unfold arg_value.
    destruct (coerce_shape (arg_payload a)) as [E|[_ [E|E]]];
      [exact E | congruence | congruence]. }
  destruct a as [t|q body].
  - destruct (well_formed_bare t H) as (Hp & _).
    destruct (plain_parts t Hp) as (Hall & Hf & Hl & _).
    repeat split; try assumption.
    apply contains_char_false. now apply plain_no_char.
  - destruct (well_formed_quoted q body H) as (_ & Hb & Hf & Hl & _).
    repeat split; try assumption.
    apply contains_char_false. revert Hb. apply all_chars_impl.
    intros c Hcq. destruct (quotable_char_inv c Hcq) as (_ & _ & _ & _ & E).
    now rewrite E.
Qed.

(** What the parser needs of the text of a well-formed argument. *)
Lemma arg_text_facts (a : arg) :
  well_formed_arg a = true ->
  not_space (Py.first_char (arg_text a)) = true
  /\ not_space (Py.last_char (arg_text a)) = true
  /\ Py.all_chars (fun c => negb (Ascii.eqb c (ascii_of_N 10))) (arg_text a) = true.
Proof.
  destruct a as [t|q body]; intros H.
  - destruct (well_formed_bare t H) as (Hp & _).
    destruct (plain_parts t Hp) as (Hall & Hf & Hl & _).
    repeat split; try assumption. now apply plain_no_char.
  - destruct (well_formed_quoted q body H) as (Hq & Hb & _).
    cbn [arg_text].
    assert (Hsp : negb (Py.isspace q) = true
                  /\ negb (Ascii.eqb q (ascii_of_N 10)) = true)
      by (destruct (is_quote_inv q Hq) as [->| ->]; now split).
    destruct Hsp as [Hsp Hnl].
    split; [exact Hsp|]. split.
    + change (String q (body ++ String q EmptyString))
        with (String q body ++ String q EmptyString).
      rewrite last_char_snoc. exact Hsp.
    + cbn [Py.all_chars]. rewrite Hnl, all_chars_app. cbn [Py.all_chars andb].
      rewrite Hnl. cbn [andb]. rewrite andb_true_r.
      revert Hb. apply all_chars_impl. intros c Hcq.
      destruct (quotable_char_inv c Hcq) as (E & _). now rewrite E.
Qed.

Lemma len_app (x y : string) : Py.len (x ++ y) = (Py.len x + Py.len y)%Z.
Proof. unfold Py.len. rewrite length_append. lia. Qed.

(** A line [ACTION: NAME(args)] on whose [args] the scan ends at the
    closing parenthesis: what is between the parentheses goes to the
    lexer. *)
Lemma parse_line_scanned (NAME args : string) :
  plain NAME = true ->
  scan (args ++ ")") 1 false false (Py.len NAME + 1)
  = (0%Z, (Py.len NAME + 1 + Py.len args + 1)%Z) ->
  parse_line ("ACTION: " ++ NAME ++ "(" ++ args ++ ")")
  = if negb (Py.nonempty (Py.strip args)) then Ok (Some (NAME, [], []))
    else tokens <- Shlex.split (Py.strip args) ;;
         r <- collect tokens [] [] ;;
         Ok (Some (NAME, fst r, snd r)).
Proof.
  intros HN Hscan.
  destruct (plain_parts NAME HN) as (Hall & Hfirst & Hlast & Hne).
  unfold parse_line.
  change ("ACTION: " ++ NAME ++ "(" ++ args ++ ")")
    with ("ACTION:" ++ String " " (NAME ++ String "(" (args ++ ")"))).
  rewrite replace_action.
  set (body := NAME ++ String "(" (args ++ ")")).
  assert (Hstrip : Py.strip (String " " body) = body).
  { unfold Py.strip. change (Py.lstrip (String " " body)) with (Py.lstrip body).
    assert (Hfb : not_space (Py.first_char body) = true)
      by (unfold body; now rewrite first_char_app).
    rewrite (lstrip_id body Hfb). apply rstrip_id.
    unfold body.
    replace (NAME ++ String "(" (args ++ ")"))
      with ((NAME ++ String "(" args) ++ ")")
      by (now rewrite append_assoc).
    now rewrite last_char_snoc. }
  rewrite Hstrip.
  assert (Hopen : Py.contains "(" body = true)
    by (apply (contains_middle "(" NAME (args ++ ")"))).
  rewrite Hopen. cbn [negb andb].
  assert (Hfind : Py.find "(" body = Py.len NAME).
  { unfold Py.find, body. rewrite find_from_app; [lia|].
    now apply plain_no_char. }
  rewrite Hfind.
  assert (Hhead : Py.slice body 0 (Py.len NAME) = NAME) by apply slice_head.
  assert (Htail : Py.slice_from body (Py.len NAME + 1) = args ++ ")")
    by apply slice_from_tail.
  assert (Hmid : Py.slice body (Py.len NAME + 1) (Py.len NAME + 1 + Py.len args + 1 - 1)
                 = args).
  { replace (Py.len NAME + 1 + Py.len args + 1 - 1)%Z
      with (Py.len NAME + 1 + Py.len args)%Z by lia.
    apply slice_middle. }
  rewrite Htail, Hscan.
  cbv beta iota zeta. change (negb (0 =? 0)%Z) with false. cbv iota.
  rewrite Hmid, Hhead, (strip_id NAME Hfirst Hlast). reflexivity.
Qed.



(* ====================================================================== *)
(** ** The guard of [query_postgres] *)
(* ====================================================================== *)

Lemma upper_app (a b : string) : upper (a ++ b) = upper a ++ upper b.
Proof.
  induction a as [|c a IH]; [reflexivity|].
  simpl. now rewrite IH, append_assoc.
Qed.

Lemma prefix_app_l (x a b : string) :
  prefix x a = true -> prefix x (a ++ b) = true.
Proof.
  revert a. induction x as [|c x IH]; intros a H; [apply prefix_nil|].
  destruct a as [|d a]; [discriminate H|].
  simpl in *. destruct (ascii_dec c d); [now apply IH | discriminate H].
Qed.

Lemma contains_app_l (x a b : string) :
  Py.contains x a = true -> Py.contains x (a ++ b) = true.
Proof.
  induction a as [|d a IH]; intros H.
  - rewrite contains_unfold in H.
    destruct (prefix x EmptyString) eqn:E; [|discriminate H].
    apply contains_prefix. now apply (prefix_app_l x EmptyString b).
  - rewrite contains_unfold in H.
    change (String d a ++ b) with (String d (a ++ b)). rewrite contains_unfold.
    destruct (prefix x (String d a)) eqn:E.
    + pose proof (prefix_app_l x (String d a) b E) as P.
      change (String d a ++ b) with (String d (a ++ b)) in P. now rewrite P.
    + rewrite (IH H). now destruct (prefix x (String d (a ++ b))).
Qed.

(** Stripping on the left keeps a word that does not start with white
    space, and what follows it. *)
Lemma lstrip_keeps (pre x post : string) :
  not_space (Py.first_char x) = true ->
  exists pre', Py.lstrip (pre ++ x ++ post) = pre' ++ x ++ post.
Proof.
  intros Hx. induction pre as [|d pre IH].
  - exists EmptyString. simpl. apply lstrip_id.
    rewrite first_char_app; [exact Hx | now apply not_space_nonempty].
  - change (String d pre ++ x ++ post) with (String d (pre ++ x ++ post)).
    cbn [Py.lstrip]. destruct (Py.isspace d).
    + exact IH.
    + now exists (String d pre).
Qed.

(** Stripping on the right keeps a text that does not end with white
    space. *)
Lemma rstrip_keeps (y post : string) :
  not_space (Py.last_char y) = true ->
  exists post', Py.rstrip (y ++ post) = y ++ post'.
Proof.
  induction y as [|c y IH]; intros Hy; [discriminate Hy|].
  change (String c y ++ post) with (String c (y ++ post)). cbn [Py.rstrip].
  destruct y as [|d y].
  - simpl in Hy. apply negb_true_iff in Hy. simpl. rewrite Hy.
    destruct (Py.rstrip post) as [|e r].
    + now exists EmptyString.
    + now exists (String e r).
  - destruct (IH Hy) as [post' E]. rewrite E. now exists post'.
Qed.

(** [strip] keeps a word without white space at its ends, wherever it
    is. *)
Lemma strip_keeps (pre x post : string) :
  not_space (Py.first_char x) = true ->
  not_space (Py.last_char x) = true ->
  exists pre' post', Py.strip (pre ++ x ++ post) = pre' ++ x ++ post'.
Proof.
  intros Hf Hl. unfold Py.strip.
  destruct (lstrip_keeps pre x post Hf) as [pre' E]. rewrite E.
  replace (pre' ++ x ++ post) with ((pre' ++ x) ++ post)
    by now rewrite append_assoc.
  destruct (rstrip_keeps (pre' ++ x) post) as [post' E'].
  - now rewrite last_char_app by now apply last_char_nonempty.
  - exists pre', post'. now rewrite E', append_assoc.
Qed.

Section ToolFacts.

Context {W : Type}.
Variable db : string -> W -> db_outcome * W.

(** X1. A query in which a forbidden word occurs, in any letter case and at
    any place (a statement, a part of an identifier, a piece of a string
    literal), never reaches the database. *)
Theorem query_postgres_refuses_keywords (pre word post : string) (w : W) :
  not_space (Py.first_char word) = true ->
  not_space (Py.last_char word) = true ->
  In (upper word) forbidden ->
  snd (query_postgres W db (pre ++ word ++ post) w) = w
  /\ (fst (query_postgres W db (pre ++ word ++ post) w) = ONLY_SELECT
      \/ fst (query_postgres W db (pre ++ word ++ post) w) = NO_WRITES).
Proof.
  intros Hf Hl Hin. unfold query_postgres.
  destruct (Py.startswith "SELECT" (upper (Py.strip (pre ++ word ++ post))));
    cbn [negb]; [|split; [reflexivity | left; reflexivity]].
  destruct (strip_keeps pre word post Hf Hl) as [pre' [post' E]].
  assert (Hex : List.existsb
                  (fun keyword =>
                     Py.contains keyword (upper (Py.strip (pre ++ word ++ post))))
                  forbidden = true).
  { apply existsb_exists. exists (upper word). split; [exact Hin|].
    rewrite E, !upper_app. apply contains_middle. }
  rewrite Hex. split; [reflexivity | right; reflexivity].
Qed.

Lemma length_repeat_string (c : ascii) (n : nat) :
  String.length (repeat_string (String c EmptyString) n) = n.
Proof. induction n as [|n IH]; simpl; [reflexivity | now rewrite IH]. Qed.

Lemma all_chars_repeat_string (p : ascii -> bool) (c : ascii) (n : nat) :
  p c = true -> Py.all_chars p (repeat_string (String c EmptyString) n) = true.
Proof. intros Hc. induction n as [|n IH]; simpl; [reflexivity | now rewrite Hc]. Qed.

Lemma single_line_no_line_feed (s : string) :
  single_line s = true -> no_line_feed s = true.
Proof.
  apply all_chars_impl. intros c H. apply negb_true_iff in H.
  apply orb_false_iff in H as [H _]. now rewrite H.
Qed.

Lemma no_line_feed_app (x y : string) :
  no_line_feed x = true -> no_line_feed y = true -> no_line_feed (x ++ y) = true.
Proof.
  unfold no_line_feed. intros Hx Hy. now rewrite all_chars_app, Hx, Hy.
Qed.

Lemma no_line_feed_join (sep : string) (l : list string) :
  no_line_feed sep = true ->
  Forall (fun x => no_line_feed x = true) l ->
  no_line_feed (Py.join sep l) = true.
Proof.
  intros Hsep Hl. induction Hl as [|x l Hx Hl IH]; [reflexivity|].
  destruct l as [|y l]; [exact Hx|].
  change (Py.join sep (x :: y :: l)) with (x ++ sep ++ Py.join sep (y :: l)).
  apply no_line_feed_app; [exact Hx|].
  apply no_line_feed_app; [exact Hsep | exact IH].
Qed.

(** [split] cuts at the first line feed. *)
Lemma split_first_line (x rest : string) :
  no_line_feed x = true ->
  Py.split nl (x ++ nl ++ rest) = x :: Py.split nl rest.
Proof.
  unfold Py.split, nl, Py.newline, no_line_feed.
  induction x as [|c x IH]; intros H.
  - cbn [append Py.split_aux]. rewrite prefix_char, Ascii.eqb_refl. reflexivity.
  - cbn [Py.all_chars] in H. apply andb_true_iff in H as [Hc Hx].
    apply negb_true_iff in Hc.
    change (String c x ++ String (ascii_of_N 10) EmptyString ++ rest)
      with (String c (x ++ String (ascii_of_N 10) EmptyString ++ rest)).
    cbn [Py.split_aux]. rewrite prefix_char, Hc, (IH Hx). reflexivity.
Qed.

(** Lines without a line feed, joined by line feeds and split again, are
    the lines. *)
Lemma split_join_lines (entries : list string) :
  entries <> [] ->
  Forall (fun x => no_line_feed x = true) entries ->
  Py.split nl (Py.join nl entries) = entries.
Proof.
  intros Hne Hall. induction Hall as [|x l Hx Hl IH]; [now elim Hne|].
  destruct l as [|y l].
  - apply split_single_line. exact Hx.
  - change (Py.join nl (x :: y :: l)) with (x ++ nl ++ Py.join nl (y :: l)).
    rewrite (split_first_line _ _ Hx), IH; [reflexivity | discriminate].
Qed.

(** X2. The answer to a query that returned rows, when no column name and
    no cell has a line feed: its lines are the header, a rule of dashes as
    long as the header, one line for each of the first 20 rows and, when
    there are more rows, one line that says how many were left out; 23
    lines at most. *)
Theorem query_postgres_shows_20_rows (query : string) (w w' : W)
        (colnames : list string) (rows : list (list (option string))) :
  Py.startswith "SELECT" (upper (Py.strip query)) = true ->
  List.existsb (fun keyword => Py.contains keyword (upper (Py.strip query)))
               forbidden = false ->
  db query w = (DbRows colnames rows, w') ->
  rows <> [] ->
  Forall (fun name => no_line_feed name = true) colnames ->
  Forall (Forall (fun cell => no_line_feed (cell_text cell) = true)) rows ->
  exists header rule shown notice,
    query_postgres W db query w
    = (Py.join nl (header :: rule :: shown ++ notice)%list, w')
    /\ Py.split nl (fst (query_postgres W db query w))
       = (header :: rule :: shown ++ notice)%list
    /\ header = Py.join " | " colnames
    /\ rule = repeat_string "-" (String.length header)
    /\ Py.all_chars (Ascii.eqb "-") rule = true
    /\ String.length rule = String.length header
    /\ shown = List.map (fun row => Py.join " | " (List.map cell_text row))
                        (firstn 20 rows)
    /\ List.length shown = Nat.min 20 (List.length rows)
    /\ (List.length rows <= 20 -> notice = [])
    /\ (20 < List.length rows ->
        notice = [("... and " ++ Py.str_of_nat (List.length rows - 20)
                   ++ " more rows.")%string])
    /\ List.length (Py.split nl (fst (query_postgres W db query w))) <= 23.
Proof.
  intros Hsel Hforb Hdb Hrows Hcols Hcells. unfold query_postgres.
  rewrite Hsel, Hforb, Hdb. cbn [negb fst].
  destruct rows as [|r rows]; [now elim Hrows|].
  set (all := r :: rows) in *. unfold result_lines.
  set (header := Py.join " | " colnames).
  set (rule := repeat_string "-" (String.length header)).
  set (shown := List.map (fun row => Py.join " | " (List.map cell_text row))
                         (firstn 20 all)).
  set (notice := if Nat.ltb 20 (List.length all)
                 then [("... and " ++ Py.str_of_nat (List.length all - 20)
                        ++ " more rows.")%string]
                 else []).
  exists header, rule, shown, notice.
  assert (Hshown : List.length shown = Nat.min 20 (List.length all))
    by (unfold shown; now rewrite length_map, length_firstn).
  assert (Hlen : List.length (header :: rule :: shown ++ notice)%list <= 23).
  { cbn [List.length]. rewrite length_app, Hshown. unfold notice.
    destruct (Nat.ltb 20 (List.length all)); cbn [List.length]; lia. }
  assert (Hlines : Forall (fun x => no_line_feed x = true)
                          (header :: rule :: shown ++ notice)%list).
  { constructor; [now apply no_line_feed_join|].
    constructor; [now apply all_chars_repeat_string|].
    apply Forall_app. split.
    - unfold shown. apply Forall_map.
      pose proof Hcells as Hfirst.
      rewrite <- (firstn_skipn 20 all) in Hfirst.
      apply Forall_app in Hfirst as [Hfirst _].
      eapply Forall_impl; [|exact Hfirst].
      intros row Hrow. apply no_line_feed_join; [reflexivity|].
      apply Forall_map. exact Hrow.
    - unfold notice. destruct (Nat.ltb 20 (List.length all)); constructor;
        [|constructor].
      apply no_line_feed_app; [reflexivity|].
      apply no_line_feed_app; [|reflexivity].
      apply single_line_no_line_feed, single_line_str_of_nat. }
  assert (Hsplit : Py.split nl (Py.join nl (header :: rule :: shown ++ notice)%list)
                   = (header :: rule :: shown ++ notice)%list)
    by (apply split_join_lines; [discriminate | exact Hlines]).
  split; [reflexivity|]. split; [exact Hsplit|]. split; [reflexivity|].
  split; [reflexivity|].
  split; [now apply all_chars_repeat_string|].
  split; [apply length_repeat_string|]. split; [reflexivity|].
  split; [exact Hshown|].
  split; [|split].
  - intros Hle. unfold notice.
    destruct (Nat.ltb 20 (List.length all)) eqn:E; [|reflexivity].
    apply Nat.ltb_lt in E. lia.
  - intros Hlt. unfold notice.
    destruct (Nat.ltb 20 (List.length all)) eqn:E; [reflexivity|].
    apply Nat.ltb_ge in E. lia.
  - change (List.length
              (Py.split nl (Py.join nl (header :: rule :: shown ++ notice)%list))
            <= 23).
    rewrite Hsplit. exact Hlen.
Qed.

(** X3. The query of [get_distinct_statuses] passes both tests of the guard:
    the function always asks the database, and answers with its failure,
    with the no-rows text, or with the formatted rows. *)
Theorem get_distinct_statuses_reaches_db (w : W) :
  get_distinct_statuses W db w
  = match db STATUS_QUERY w with
    | (DbFails msg, w') => ("Database error: " ++ msg, w')
    | (DbRows colnames [], w') => (NO_ROWS, w')
    | (DbRows colnames (r :: rows), w') =>
        (Py.join nl (result_lines colnames (r :: rows)), w')
    end.
Proof.
  unfold get_distinct_statuses, query_postgres.
  assert (H1 : Py.startswith "SELECT" (upper (Py.strip STATUS_QUERY)) = true)
    by (vm_compute; reflexivity).
  assert (H2 : List.existsb
                 (fun keyword => Py.contains keyword (upper (Py.strip STATUS_QUERY)))
                 forbidden = false)
    by (vm_compute; reflexivity).
  rewrite H1, H2. cbn [negb].
  destruct (db STATUS_QUERY w) as [[colnames [|r rows]|msg] w']; reflexivity.
Qed.

(** The query of [user_exists] has no white space at its ends and starts
    with [SELECT], whatever the user id. *)
Lemma user_query_stripped (user_id : string) :
  Py.strip (user_query user_id) = user_query user_id.
Proof.
  apply strip_id; [reflexivity|]. unfold user_query.
  replace ("SELECT 1 FROM audit_events WHERE user_id = '" ++ user_id ++ "' LIMIT 1")
    with (("SELECT 1 FROM audit_events WHERE user_id = '" ++ user_id ++ "' LIMIT ")
          ++ "1") by (now rewrite !append_assoc).
  now rewrite last_char_snoc.
Qed.

Lemma user_query_select (user_id : string) :
  Py.startswith "SELECT" (upper (Py.strip (user_query user_id))) = true.
Proof.
  rewrite user_query_stripped. unfold user_query.
  rewrite upper_app. apply prefix_app_l. vm_compute. reflexivity.
Qed.

Lemma user_query_keyword (user_id kw : string) :
  Py.contains kw (upper user_id) = true ->
  Py.contains kw (upper (Py.strip (user_query user_id))) = true.
Proof.
  intros H. rewrite user_query_stripped. unfold user_query.
  rewrite !upper_app. apply contains_skip. now apply contains_app_l.
Qed.

(** X4. A user id in which a forbidden word occurs, in any letter case, never
    exists for [user_exists]: the guard refuses the query and the database
    is not asked. *)
Theorem user_exists_refuses_keyword_ids (user_id kw : string) (w : W) :
  In kw forbidden ->
  Py.contains kw (upper user_id) = true ->
  user_exists W db user_id w = (false, w).
Proof.
  intros Hin Hc. unfold user_exists, query_postgres.
  rewrite user_query_select. cbn [negb].
  assert (Hex : List.existsb
                  (fun keyword =>
                     Py.contains keyword (upper (Py.strip (user_query user_id))))
                  forbidden = true).
  { apply existsb_exists. exists kw. split; [exact Hin|].
    now apply user_query_keyword. }
  rewrite Hex. reflexivity.
Qed.

(** X5. When the database fails with a message that holds the digit 1, and
    the answer holds neither [No rows] nor [Error], [user_exists] says that
    the user exists. *)
Theorem user_exists_on_database_failure (user_id msg : string) (w w' : W) :
  List.existsb (fun keyword => Py.contains keyword (upper (user_query user_id)))
               forbidden = false ->
  db (user_query user_id) w = (DbFails msg, w') ->
  Py.contains "1" msg = true ->
  Py.contains "No rows" ("Database error: " ++ msg) = false ->
  Py.contains "Error" ("Database error: " ++ msg) = false ->
  user_exists W db user_id w = (true, w').
Proof.
  intros Hforb Hdb H1 Hno Herr. unfold user_exists, query_postgres.
  rewrite user_query_select, user_query_stripped, Hforb, Hdb. cbn [negb].
  rewrite Hno, Herr.
  rewrite (contains_skip "1" "Database error: " msg H1). reflexivity.
Qed.

(** When the database has no row for the user, [user_exists] says no. *)
Lemma user_exists_no_rows (user_id : string) (colnames : list string) (w w' : W) :
  List.existsb (fun keyword => Py.contains keyword (upper (user_query user_id)))
               forbidden = false ->
  db (user_query user_id) w = (DbRows colnames [], w') ->
  user_exists W db user_id w = (false, w').
Proof.
  intros Hforb Hdb. unfold user_exists, query_postgres.
  rewrite user_query_select, user_query_stripped, Hforb, Hdb. reflexivity.
Qed.

Variable store_alert : string -> string -> string -> W -> stored * W.
Variable send_mail : string -> string -> string -> option string -> W -> stored * W.
Variable store_report : string -> string -> W -> stored * W.
Variable store_review : string -> string -> string -> W -> stored * W.

(** X6. None of the four action tools acts for a user id in which a forbidden
    word occurs: each answers that the user has no audit events, and
    neither the database nor the files nor the mail are touched. *)
Theorem action_tools_refuse_keyword_ids (user_id kw : string) (w : W) :
  In kw forbidden ->
  Py.contains kw (upper user_id) = true ->
  (forall severity reason,
      create_security_alert W db store_alert user_id severity reason w
      = ("Cannot create alert: User " ++ user_id ++ " has no audit events.", w))
  /\ (forall recipient subject body_text body_html,
         send_email_alert W db send_mail recipient user_id subject body_text body_html w
         = ("Cannot send email: User " ++ user_id ++ " has no audit events.", w))
  /\ (forall analysis,
         generate_report W db store_report user_id analysis w
         = ("Cannot generate report: User " ++ user_id ++ " has no audit events.", w))
  /\ (forall urgency reason,
         request_manual_review W db store_review user_id urgency reason w
         = ("Cannot request review: User " ++ user_id ++ " has no audit events.", w)).
Proof.
  intros Hin Hc.
  pose proof (user_exists_refuses_keyword_ids user_id kw w Hin Hc) as E.
  unfold create_security_alert, send_email_alert, generate_report,
    request_manual_review.
  rewrite E. repeat split.
Qed.

(** X7. For a user without a row in the database, the four action tools only
    make the query: nothing is written and nothing is sent. *)
Theorem action_tools_need_audit_events (user_id : string)
        (colnames : list string) (w w' : W) :
  List.existsb (fun keyword => Py.contains keyword (upper (user_query user_id)))
               forbidden = false ->
  db (user_query user_id) w = (DbRows colnames [], w') ->
  (forall severity reason,
      create_security_alert W db store_alert user_id severity reason w
      = ("Cannot create alert: User " ++ user_id ++ " has no audit events.", w'))
  /\ (forall recipient subject body_text body_html,
         send_email_alert W db send_mail recipient user_id subject body_text body_html w
         = ("Cannot send email: User " ++ user_id ++ " has no audit events.", w'))
  /\ (forall analysis,
         generate_report W db store_report user_id analysis w
         = ("Cannot generate report: User " ++ user_id ++ " has no audit events.", w'))
  /\ (forall urgency reason,
         request_manual_review W db store_review user_id urgency reason w
         = ("Cannot request review: User " ++ user_id ++ " has no audit events.", w')).
Proof.
  intros Hforb Hdb.
  pose proof (user_exists_no_rows user_id colnames w w' Hforb Hdb) as E.
  unfold create_security_alert, send_email_alert, generate_report,
    request_manual_review.
  rewrite E. repeat split.
Qed.

(** X8. When the database is down and its message holds the digit 1,
    [create_security_alert] takes the user for an existing one and stores
    the alert. *)
Theorem create_security_alert_when_database_fails
        (user_id severity reason msg alert_id : string) (w w1 w2 : W) :
  List.existsb (fun keyword => Py.contains keyword (upper (user_query user_id)))
               forbidden = false ->
  db (user_query user_id) w = (DbFails msg, w1) ->
  Py.contains "1" msg = true ->
  Py.contains "No rows" ("Database error: " ++ msg) = false ->
  Py.contains "Error" ("Database error: " ++ msg) = false ->
  store_alert user_id severity reason w1 = (Stored alert_id, w2) ->
  create_security_alert W db store_alert user_id severity reason w
  = ("Security alert created: " ++ alert_id ++ " (severity: " ++ severity ++ ")", w2).
Proof.
  intros Hforb Hdb H1 Hno Herr Hstore. unfold create_security_alert.
  rewrite (user_exists_on_database_failure user_id msg w w1 Hforb Hdb H1 Hno Herr).
  cbn [negb]. now rewrite Hstore.
Qed.

End ToolFacts.

(** The guard on a query that names the column [created_at]. *)
Lemma query_postgres_refuses_keywords_witness :
  snd (query_postgres (list string) SampleDb.db
         "SELECT created_at FROM audit_events LIMIT 5" []) = []
  /\ (fst (query_postgres (list string) SampleDb.db
             "SELECT created_at FROM audit_events LIMIT 5" []) = ONLY_SELECT
      \/ fst (query_postgres (list string) SampleDb.db
                "SELECT created_at FROM audit_events LIMIT 5" []) = NO_WRITES).
Proof.
  apply (query_postgres_refuses_keywords SampleDb.db
           "SELECT " "create" "d_at FROM audit_events LIMIT 5" []
           eq_refl eq_refl).
  vm_compute. do 5 right. left. reflexivity.
Defined.

(** X2 on a table of 25 rows. *)
Lemma query_postgres_shows_20_rows_witness :
  exists header rule shown notice,
    query_postgres (list string) SampleDb.many "SELECT id FROM audit_events" []
    = (Py.join nl (header :: rule :: shown ++ notice)%list,
       ["SELECT id FROM audit_events"])
    /\ Py.split nl
         (fst (query_postgres (list string) SampleDb.many
                              "SELECT id FROM audit_events" []))
       = (header :: rule :: shown ++ notice)%list
    /\ header = "id"
    /\ rule = "--"
    /\ List.length shown = 20
    /\ notice = ["... and 5 more rows."]
    /\ List.length
         (Py.split nl
            (fst (query_postgres (list string) SampleDb.many
                                 "SELECT id FROM audit_events" [])))
       <= 23.
Proof.
  assert (Hcells : Forall (Forall (fun cell => no_line_feed (cell_text cell) = true))
                          (List.repeat [Some "7"] 25)).
  { apply Forall_forall. intros row Hin. apply repeat_spec in Hin. subst row.
    constructor; [reflexivity | constructor]. }
  destruct (query_postgres_shows_20_rows SampleDb.many
              "SELECT id FROM audit_events" [] ["SELECT id FROM audit_events"]
              ["id"] (List.repeat [Some "7"] 25)
              eq_refl eq_refl eq_refl ltac:(discriminate)
              ltac:(constructor; [reflexivity | constructor]) Hcells)
    as (header & rule & shown & notice
        & H1 & H2 & H3 & H4 & H5 & H6 & H7 & H8 & H9 & H10 & H11).
  exists header, rule, shown, notice.
  split; [exact H1|]. split; [exact H2|]. split; [exact H3|].
  split; [rewrite H4, H3; reflexivity|].
  split; [rewrite H8; reflexivity|].
  split; [apply H10; vm_compute; lia | exact H11].
Defined.

(** X4 on a sample. *)
Lemma user_exists_refuses_keyword_ids_witness :
  user_exists (list string) SampleDb.db "updater_u42" [] = (false, []).
Proof.
  apply (user_exists_refuses_keyword_ids SampleDb.db "updater_u42" "UPDATE" []).
  - vm_compute. right. left. reflexivity.
  - vm_compute. reflexivity.
Defined.

(** X5 on a sample. *)
Lemma user_exists_on_database_failure_witness :
  user_exists (list string) SampleDb.down "u7" [] = (true, [user_query "u7"]).
Proof.
  apply (user_exists_on_database_failure SampleDb.down "u7"
           "connection to server at 127.0.0.1, port 5432 failed" []
           [user_query "u7"]);
    vm_compute; reflexivity.
Defined.

(** X6 on a sample. *)
Lemma action_tools_refuse_keyword_ids_witness :
  create_security_alert (list string) SampleDb.db SampleDb.store3
    "updater_u42" "HIGH" "many failures" []
  = ("Cannot create alert: User updater_u42 has no audit events.", [])
  /\ generate_report (list string) SampleDb.db SampleDb.store2
       "updater_u42" "nothing found" []
     = ("Cannot generate report: User updater_u42 has no audit events.", []).
Proof.
  destruct (action_tools_refuse_keyword_ids SampleDb.db SampleDb.store3
              SampleDb.mail SampleDb.store2 SampleDb.store3
              "updater_u42" "UPDATE" [])
    as (H1 & _ & H3 & _).
  - vm_compute. right. left. reflexivity.
  - vm_compute. reflexivity.
  - split; [exact (H1 "HIGH" "many failures") | exact (H3 "nothing found")].
Defined.

(** X7 on a sample. *)
Lemma action_tools_need_audit_events_witness :
  send_email_alert (list string) SampleDb.db SampleDb.mail
    "aandadiasmaa@gmail.com" "u7" "Alert" "Please look." None []
  = ("Cannot send email: User u7 has no audit events.", [user_query "u7"])
  /\ request_manual_review (list string) SampleDb.db SampleDb.store3
       "u7" "LOW" "odd hours" []
     = ("Cannot request review: User u7 has no audit events.", [user_query "u7"]).
Proof.
  destruct (action_tools_need_audit_events SampleDb.db SampleDb.store3
              SampleDb.mail SampleDb.store2 SampleDb.store3
              "u7" ["?column?"] [] [user_query "u7"])
    as (_ & H2 & _ & H4).
  - vm_compute. reflexivity.
  - vm_compute. reflexivity.
  - split; [exact (H2 "aandadiasmaa@gmail.com" "Alert" "Please look." None)
           | exact (H4 "LOW" "odd hours")].
Defined.

(** X8 on a sample. *)
Lemma create_security_alert_when_database_fails_witness :
  create_security_alert (list string) SampleDb.down SampleDb.store3
    "u7" "HIGH" "many failures" []
  = ("Security alert created: ID-1 (severity: HIGH)", [user_query "u7"; "stored"]).
Proof.
  apply (create_security_alert_when_database_fails SampleDb.down SampleDb.store3
           "u7" "HIGH" "many failures"
           "connection to server at 127.0.0.1, port 5432 failed" "ID-1"
           [] [user_query "u7"] [user_query "u7"; "stored"]);
    vm_compute; reflexivity.
Defined.

(* ====================================================================== *)
(** ** The main program *)
(* ====================================================================== *)

Lemma is_question_nonempty (line : string) :
  is_question line = true -> Py.nonempty (Py.strip line) = true.
Proof. unfold is_question. intros H. now apply andb_true_iff in H as [H _]. Qed.

Lemma pick_question_skips (stdin : list string) :
  Forall (fun l => is_question l = false) stdin ->
  forall more, pick_question (stdin ++ more) = pick_question more.
Proof.
  intros H more. induction H as [|l stdin Hl H IH]; [reflexivity|].
  cbn [app pick_question]. unfold is_question in Hl. now rewrite Hl.
Qed.

Section MainFacts.

Context {W : Type}.
Variable call_llm : list message -> W -> string * W.
Variable tools : dict (list value -> dict value -> W -> outcome * W).
Variable system_prompt : string.

(** X9. In batch mode the question is the first line of standard input that
    is neither blank nor a quit word, stripped; the lines before it,
    quit words included, are passed over.  Without such a line the agent
    does not run. *)
Theorem batch_runs_first_question (stdin : list string) (w : W) :
  (Forall (fun l => is_question l = false) stdin ->
   batch W call_llm tools system_prompt stdin w = (Exited, [], w))
  /\ (forall pre line post,
         stdin = (pre ++ line :: post)%list ->
         Forall (fun l => is_question l = false) pre ->
         is_question line = true ->
         pick_question stdin = Py.strip line
         /\ batch W call_llm tools system_prompt stdin w
            = let '(r, st) :=
                run W call_llm tools system_prompt (Py.strip line)
                    DEFAULT_MAX_STEPS true w in
              (match r with
               | Ok _ => Exited
               | Raise e => Uncaught e
               end, stdout st, world st)).
Proof.
  split.
  - intros H. unfold batch.
    rewrite <- (app_nil_r stdin),
      (pick_question_skips stdin H []).
    reflexivity.
  - intros pre line post -> Hpre Hline.
    assert (E : pick_question (pre ++ line :: post) = Py.strip line).
    { rewrite (pick_question_skips pre Hpre).
      cbn [pick_question]. unfold is_question in Hline. now rewrite Hline. }
    split; [exact E|]. unfold batch. rewrite E.
    now rewrite (is_question_nonempty line Hline).
Qed.


End MainFacts.


(** X9 on a sample. *)
Lemma batch_runs_first_question_witness :
  pick_question ["quit"; "  "; " Any suspicious users? "; "exit"]
  = "Any suspicious users?"
  /\ batch Sample.log (Sample.always "FINAL ANSWER: none") Sample.tools
           "You are an analyst." ["QUIT"; "q"] []
     = (Exited, [], []).
Proof.
  pose proof (batch_runs_first_question
                (Sample.always "FINAL ANSWER: none") Sample.tools
                "You are an analyst."
                ["quit"; "  "; " Any suspicious users? "; "exit"] []) as [_ H].
  pose proof (batch_runs_first_question
                (Sample.always "FINAL ANSWER: none") Sample.tools
                "You are an analyst." ["QUIT"; "q"] []) as [H0 _].
  split.
  - refine (proj1 (H ["quit"; "  "] " Any suspicious users? " ["exit"]
                     eq_refl _ eq_refl)).
    repeat constructor.
  - apply H0. repeat constructor.
Defined.

(* ====================================================================== *)
(** ** What every run keeps *)
(* ====================================================================== *)

Lemma rstrip_last (s : string) :
  Py.rstrip s = EmptyString \/ not_space (Py.last_char (Py.rstrip s)) = true.
Proof.
  induction s as [|c s IH]; [left; reflexivity|].
  cbn [Py.rstrip]. destruct (Py.rstrip s) as [|d r] eqn:E.
  - destruct (Py.isspace c) eqn:Ec; [left; reflexivity|].
    right. simpl. now rewrite Ec.
  - right. destruct IH as [IH|IH]; [discriminate IH|]. exact IH.
Qed.

Lemma rstrip_first (s : string) :
  Py.nonempty (Py.rstrip s) = true ->
  Py.first_char (Py.rstrip s) = Py.first_char s.
Proof.
  destruct s as [|c s]; [discriminate|].
  cbn [Py.rstrip]. destruct (Py.rstrip s); [|reflexivity].
  now destruct (Py.isspace c).
Qed.

Lemma lstrip_first (s : string) :
  Py.lstrip s = EmptyString \/ not_space (Py.first_char (Py.lstrip s)) = true.
Proof.
  induction s as [|c s IH]; [left; reflexivity|].
  cbn [Py.lstrip]. destruct (Py.isspace c) eqn:Ec; [exact IH|].
  right. simpl. now rewrite Ec.
Qed.

(** [s.strip().strip()] is [s.strip()]. *)
Lemma strip_idempotent (s : string) : Py.strip (Py.strip s) = Py.strip s.
Proof.
  destruct (Py.strip s) as [|c u] eqn:E; [reflexivity|].
  rewrite <- E. unfold Py.strip in E |- *.
  assert (Hne : Py.nonempty (Py.rstrip (Py.lstrip s)) = true) by now rewrite E.
  apply strip_id.
  - rewrite (rstrip_first _ Hne).
    destruct (lstrip_first s) as [H|H]; [|exact H].
    rewrite H in E. discriminate E.
  - destruct (rstrip_last (Py.lstrip s)) as [H|H]; [|exact H].
    rewrite H in E. discriminate E.
Qed.

Section RunFacts.

Context {W : Type}.
Variable call_llm : list message -> W -> string * W.
Variable tools : dict (list value -> dict value -> W -> outcome * W).

(** What an iteration does to the transcript and to the history. *)
Lemma step_shape (structured : bool) (step_num : nat) (st : state W) :
  match step W call_llm tools structured step_num st with
  | Return a st' =>
      messages st' = messages st /\ steps st' = steps st
      /\ exists reply, is_final reply = true /\ a = final_part_of reply
  | Abort _ st' => messages st' = messages st /\ steps st' = steps st
  | Next st' =>
      exists m1 m2 e,
        messages st' = (messages st ++ [m1; m2])%list
        /\ role m1 = "assistant" /\ role m2 = "user"
        /\ steps st' = (steps st ++ [e])%list
  end.
Proof.
  unfold step.
  destruct (call_llm (messages st) (world st)) as [reply w1].
  destruct (is_final reply) eqn:Ef.
  - split; [reflexivity|]. split; [reflexivity|]. now exists reply.
  - destruct (run_actions W tools (action_lines_of reply) [] [] 0 w1)
      as [[[obs calls]|e] w2].
    + eexists. eexists. eexists. split; [reflexivity|].
      split; [reflexivity|]. split; [|reflexivity].
      now destruct calls.
    + split; reflexivity.
Qed.

Lemma run_loop_shape (structured : bool) (n step_num : nat) (st : state W) :
  exists added,
    added <= n
    /\ List.length (steps (snd (run_loop W call_llm tools structured n step_num st)))
       = List.length (steps st) + added
    /\ List.map role (messages (snd (run_loop W call_llm tools structured n step_num st)))
       = (List.map role (messages st)
          ++ List.concat (List.repeat ["assistant"; "user"] added))%list
    /\ firstn (List.length (messages st))
              (messages (snd (run_loop W call_llm tools structured n step_num st)))
       = messages st.
Proof.
  revert step_num st. induction n as [|n IH]; intros step_num st.
  - exists 0. cbn. rewrite app_nil_r, firstn_all. repeat split; lia.
  - cbn [run_loop]. pose proof (step_shape structured step_num st) as Hs.
    destruct (step W call_llm tools structured step_num st) as [a st1|st1|e st1].
    + destruct Hs as (Hm & Hst & _). exists 0. cbn [snd].
      rewrite Hm, Hst. cbn. rewrite app_nil_r, firstn_all. repeat split; lia.
    + destruct Hs as (m1 & m2 & e & Hm & Hr1 & Hr2 & Hst).
      destruct (IH (step_num + 1) st1) as (added & Hle & Hlen & Hroles & Hpre).
      exists (S added). split; [lia|]. split.
      * rewrite Hlen, Hst, length_app. simpl. lia.
      * split.
        -- rewrite Hroles, Hm, map_app. cbn [List.map List.repeat List.concat].
           rewrite Hr1, Hr2, <- app_assoc. reflexivity.
        -- set (R := messages (snd (run_loop W call_llm tools structured n
                                             (step_num + 1) st1))) in *.
           assert (E : firstn (List.length (messages st)) R
                       = firstn (List.length (messages st))
                                (firstn (List.length (messages st1)) R)).
           { rewrite firstn_firstn. f_equal.
             rewrite Hm, length_app. simpl. lia. }
           rewrite E, Hpre, Hm, firstn_app, Nat.sub_diag, firstn_all.
           simpl. now rewrite app_nil_r.
    + destruct Hs as (Hm & Hst). exists 0. cbn [snd].
      rewrite Hm, Hst. cbn. rewrite app_nil_r, firstn_all. repeat split; lia.
Qed.

End RunFacts.

(** X11. Whatever the model answers and however the run ends (final answer,
    step limit or exception), the history has at most [max_steps] steps,
    and the transcript is the system prompt, the question, and one
    assistant turn followed by one user turn for each step of the
    history. *)
Theorem run_keeps_transcript_shape
        {W : Type} (call_llm : list message -> W -> string * W)
        (tools : dict (list value -> dict value -> W -> outcome * W))
        (system_prompt question : string) (max_steps : nat)
        (structured : bool) (w : W) :
  List.length
    (steps (snd (run W call_llm tools system_prompt question max_steps structured w)))
  <= max_steps
  /\ List.map role
       (messages (snd (run W call_llm tools system_prompt question max_steps
                           structured w)))
     = ("system" :: "user"
        :: List.concat
             (List.repeat ["assistant"; "user"]
                (List.length
                   (steps (snd (run W call_llm tools system_prompt question
                                    max_steps structured w))))))%list
  /\ firstn 2 (messages (snd (run W call_llm tools system_prompt question
                                  max_steps structured w)))
     = [{| role := "system"; content := system_prompt |};
        {| role := "user"; content := question |}].
Proof.
  unfold run.
  match goal with
  | |- context [run_loop W call_llm tools structured max_steps 1 ?s] =>
      destruct (run_loop_shape call_llm tools structured max_steps 1 s)
        as (added & Hle & Hlen & Hroles & Hpre)
  end.
  cbn [steps messages List.length List.map] in Hlen, Hroles, Hpre.
  rewrite Hlen, Hroles. cbn [plus]. split; [exact Hle|]. split; [reflexivity|].
  exact Hpre.
Qed.

Section AnswerFacts.

Context {W : Type}.
Variable call_llm : list message -> W -> string * W.
Variable tools : dict (list value -> dict value -> W -> outcome * W).

(** An iteration that returns: the answer is cut from the reply that the
    model gave to the transcript, in the world, of that iteration. *)
Lemma step_return (structured : bool) (step_num : nat) (st st' : state W)
      (a : string) :
  step W call_llm tools structured step_num st = Return a st' ->
  is_final (fst (call_llm (messages st) (world st))) = true
  /\ a = final_part_of (fst (call_llm (messages st) (world st)))
  /\ world st' = snd (call_llm (messages st) (world st))
  /\ messages st' = messages st.
Proof.
  unfold step.
  destruct (call_llm (messages st) (world st)) as [reply w1].
  destruct (is_final reply) eqn:Ef.
  - intros H. inversion H; subst. cbn [fst snd world messages]. now repeat split.
  - destruct (run_actions W tools (action_lines_of reply) [] [] 0 w1)
      as [[[obs calls]|e] w2]; discriminate.
Qed.

(** A loop that returns an answer made some iterations that went on, as
    many as a loop with that limit makes before it gives up, and then one
    that returned. *)
Lemma run_loop_answer (structured : bool) (n step_num : nat) (st st' : state W)
      (a : string) :
  run_loop W call_llm tools structured n step_num st = (Ok (Some a), st') ->
  exists k,
    k < n
    /\ fst (run_loop W call_llm tools structured k step_num st) = Ok None
    /\ is_final
         (fst (call_llm
                 (messages (snd (run_loop W call_llm tools structured k step_num st)))
                 (world (snd (run_loop W call_llm tools structured k step_num st)))))
       = true
    /\ a = final_part_of
             (fst (call_llm
                     (messages (snd (run_loop W call_llm tools structured k step_num st)))
                     (world (snd (run_loop W call_llm tools structured k step_num st)))))
    /\ world st'
       = snd (call_llm
                (messages (snd (run_loop W call_llm tools structured k step_num st)))
                (world (snd (run_loop W call_llm tools structured k step_num st))))
    /\ messages st'
       = messages (snd (run_loop W call_llm tools structured k step_num st)).
Proof.
  revert step_num st. induction n as [|n IH]; intros step_num st H.
  - discriminate H.
  - cbn [run_loop] in H.
    destruct (step W call_llm tools structured step_num st)
      as [b st1|st1|e st1] eqn:Es.
    + inversion H; subst.
      destruct (step_return structured step_num st st' a Es)
        as (Hf & Ha & Hw & Hm).
      exists 0. cbn [run_loop fst snd messages world].
      split; [lia|]. now repeat split.
    + destruct (IH _ _ H) as (k & Hk & Hnone & Hrest).
      exists (S k). cbn [run_loop]. rewrite Es.
      split; [lia|]. split; [exact Hnone | exact Hrest].
    + discriminate H.
Qed.

End AnswerFacts.

(** X12. When [run] returns an answer, the answer has no white space at
    either end, and it is cut from the last reply of the model in that
    run: after some [k] steps that went on, fewer than [max_steps] (the
    run with the limit [k] gives up in the very state), the model was
    given the transcript of that state, its reply had [FINAL ANSWER:] and
    no [ACTION:], the answer is the text after the last [FINAL ANSWER:] of
    that reply, stripped, without [You: quit] and [Goodbye!] and stripped
    again, and the run ended there, with that transcript and in the world
    that this call of the model left. *)
Theorem run_answer_is_stripped
        {W : Type} (call_llm : list message -> W -> string * W)
        (tools : dict (list value -> dict value -> W -> outcome * W))
        (system_prompt question : string) (max_steps : nat)
        (structured : bool) (w : W) (a : string) :
  fst (run W call_llm tools system_prompt question max_steps structured w)
  = Ok (Some a) ->
  Py.strip a = a
  /\ exists k,
      k < max_steps
      /\ fst (run W call_llm tools system_prompt question k structured w)
         = Ok None
      /\ let before :=
           snd (run W call_llm tools system_prompt question k structured w) in
         let reply := fst (call_llm (messages before) (world before)) in
         let after :=
           snd (run W call_llm tools system_prompt question max_steps
                    structured w) in
         Py.contains FINAL_ANSWER reply = true
         /\ Py.contains ACTION reply = false
         /\ a = final_part_of reply
         /\ messages after = messages before
         /\ world after = snd (call_llm (messages before) (world before)).
Proof.
  unfold run. intros H.
  match type of H with
  | fst ?loop = _ => destruct loop as [r st'] eqn:E
  end.
  cbn [fst] in H. subst r.
  destruct (run_loop_answer call_llm tools structured max_steps 1 _ st' a E)
    as (k & Hk & Hnone & Hf & Ha & Hw & Hm).
  split.
  - rewrite Ha. unfold final_part_of. apply strip_idempotent.
  - exists k. split; [exact Hk|]. split; [exact Hnone|].
    cbn zeta. cbn [snd]. unfold is_final in Hf.
    apply andb_true_iff in Hf as [H1 H2]. apply negb_true_iff in H2.
    split; [exact H1|]. split; [exact H2|]. split; [exact Ha|].
    split; [exact Hm | exact Hw].
Qed.

(** X12 on a run of two steps: the model asks for the tables, then
    answers. *)
Lemma run_answer_is_stripped_witness :
  Py.strip "No suspicious activity." = "No suspicious activity."
  /\ exists k,
      k < DEFAULT_MAX_STEPS
      /\ fst (run Sample.log
                  (Sample.then_final
                     "ACTION: list_tables()"
                     ("Thought: done" ++ nl
                      ++ "FINAL ANSWER:   No suspicious activity. Goodbye!  "))
                  Sample.tools "You are an analyst." "Any suspicious users?"
                  k false [])
         = Ok None
      /\ let before :=
           snd (run Sample.log
                    (Sample.then_final
                       "ACTION: list_tables()"
                       ("Thought: done" ++ nl
                        ++ "FINAL ANSWER:   No suspicious activity. Goodbye!  "))
                    Sample.tools "You are an analyst." "Any suspicious users?"
                    k false []) in
         let reply :=
           fst (Sample.then_final
                  "ACTION: list_tables()"
                  ("Thought: done" ++ nl
                   ++ "FINAL ANSWER:   No suspicious activity. Goodbye!  ")
                  (messages before) (world before)) in
         let after :=
           snd (run Sample.log
                    (Sample.then_final
                       "ACTION: list_tables()"
                       ("Thought: done" ++ nl
                        ++ "FINAL ANSWER:   No suspicious activity. Goodbye!  "))
                    Sample.tools "You are an analyst." "Any suspicious users?"
                    DEFAULT_MAX_STEPS false []) in
         Py.contains FINAL_ANSWER reply = true
         /\ Py.contains ACTION reply = false
         /\ "No suspicious activity." = final_part_of reply
         /\ messages after = messages before
         /\ world after
            = snd (Sample.then_final
                     "ACTION: list_tables()"
                     ("Thought: done" ++ nl
                      ++ "FINAL ANSWER:   No suspicious activity. Goodbye!  ")
                     (messages before) (world before)).
Proof.
  apply (run_answer_is_stripped
           (Sample.then_final
              "ACTION: list_tables()"
              ("Thought: done" ++ nl
               ++ "FINAL ANSWER:   No suspicious activity. Goodbye!  "))
           Sample.tools "You are an analyst." "Any suspicious users?"
           DEFAULT_MAX_STEPS false []).
  vm_compute. reflexivity.
Defined.

(* ====================================================================== *)
(** ** The parser on calls that are not well formed *)
(* ====================================================================== *)

Lemma scan_inert_all (p : string) (i : Z) :
  Py.all_chars scan_inert p = true ->
  scan p 1 false false i = (1%Z, (i + Py.len p)%Z).
Proof.
  intros H. rewrite <- (append_nil_r p) at 1.
  now rewrite (scan_inert_app p EmptyString i H).
Qed.

Lemma find_from_none (c : ascii) (s : string) (i : Z) :
  Py.all_chars (fun d => negb (Ascii.eqb d c)) s = true ->
  Py.find_from (String c EmptyString) s i = (-1)%Z.
Proof.
  revert i. induction s as [|d s IH]; intros i H; [reflexivity|].
  cbn [Py.all_chars] in H. apply andb_true_iff in H as [Hd Hs].
  cbn [Py.find_from]. rewrite prefix_char.
  apply negb_true_iff in Hd. rewrite Hd. now apply IH.
Qed.

(** [s[0:-1]] of [s = x + c] *)
Lemma slice_drop_last (x : string) (c : ascii) :
  Py.slice (x ++ String c EmptyString) 0 (-1) = x.
Proof.
  unfold Py.slice, Py.clamp, Py.len. rewrite length_append. simpl String.length.
  change (0 <? 0)%Z with false. change (-1 <? 0)%Z with true. cbv iota.
  rewrite Z.min_l by lia. rewrite Z.max_l by lia.
  change (Z.to_nat 0) with 0.
  replace (Z.to_nat (-1 + Z.of_nat (String.length x + 1) - 0))
    with (String.length x) by lia.
  apply substring_prefix.
Qed.

(** [s[0:]] *)
Lemma slice_from_start (s : string) : Py.slice_from s 0 = s.
Proof.
  unfold Py.slice_from. rewrite <- (append_nil_r s) at 1.
  replace (Py.len (s ++ EmptyString)) with (Py.len s) by now rewrite append_nil_r.
  apply slice_head.
Qed.

(** X13. A call whose parenthesis never closes gives the null triple, whatever
    the plain name and whatever was read after the parenthesis, as long as
    it holds no quote, no parenthesis and no line break. *)
Theorem parse_action_unterminated_call (NAME args : string) :
  plain NAME = true ->
  Py.all_chars scan_inert args = true ->
  Py.all_chars (fun c => negb (Ascii.eqb c (ascii_of_N 10))) args = true ->
  args = EmptyString \/ not_space (Py.last_char args) = true ->
  parse_action ("ACTION: " ++ NAME ++ "(" ++ args) = Ok None.
Proof.
  intros HN Hargs Hnl Hlast.
  destruct (plain_parts NAME HN) as (HNall & HNf & HNl & HNne).
  assert (Hend : not_space (Py.last_char (NAME ++ String "(" args)) = true).
  { destruct Hlast as [->|Hl].
    - now rewrite last_char_snoc.
    - replace (NAME ++ String "(" args) with ((NAME ++ "(") ++ args)
        by now rewrite append_assoc.
      rewrite last_char_app; [exact Hl | now apply last_char_nonempty]. }
  rewrite parse_action_one_line.
  2:{ reflexivity. }
  2:{ change ("ACTION: " ++ NAME ++ "(" ++ args)
        with ("ACTION: " ++ (NAME ++ String "(" args)).
      rewrite last_char_app; [exact Hend | now destruct NAME]. }
  2:{ change ("ACTION: " ++ NAME ++ "(" ++ args)
        with ("ACTION: " ++ (NAME ++ String "(" args)).
      rewrite !all_chars_app. cbn [Py.all_chars].
      rewrite (plain_no_char NAME (ascii_of_N 10) eq_refl HNall), Hnl.
      reflexivity. }
  2:{ reflexivity. }
  unfold parse_line.
  change ("ACTION: " ++ NAME ++ "(" ++ args)
    with ("ACTION:" ++ String " " (NAME ++ String "(" args)).
  rewrite replace_action.
  set (body := NAME ++ String "(" args).
  assert (Hstrip : Py.strip (String " " body) = body).
  { apply strip_space; [|exact Hend].
    unfold body. now rewrite first_char_app. }
  rewrite Hstrip.
  assert (Hopen : Py.contains "(" body = true)
    by (apply (contains_middle "(" NAME args)).
  rewrite Hopen. cbn [negb andb].
  assert (Hfind : Py.find "(" body = Py.len NAME).
  { unfold Py.find, body. rewrite find_from_app; [lia|].
    now apply plain_no_char. }
  rewrite Hfind.
  assert (Htail : Py.slice_from body (Py.len NAME + 1) = args)
    by apply slice_from_tail.
  rewrite Htail, (scan_inert_all args _ Hargs).
  reflexivity.
Qed.

(** X13 on a sample. *)
Lemma parse_action_unterminated_call_witness :
  parse_action "ACTION: query_postgres(SELECT 1, 2" = Ok None.
Proof.
  apply (parse_action_unterminated_call "query_postgres" "SELECT 1, 2");
    [reflexivity | reflexivity | reflexivity | right; reflexivity].
Defined.

(** X14. A closing parenthesis without an opening one: the call is accepted,
    and the tool gets its own name as its single argument. *)
Theorem parse_action_stray_parenthesis (NAME : string) :
  plain NAME = true ->
  parse_action ("ACTION: " ++ NAME ++ ")")
  = (v <- coerce NAME ;; Ok (Some (NAME, [v], []))).
Proof.
  intros HN.
  destruct (plain_parts NAME HN) as (HNall & HNf & HNl & HNne).
  rewrite parse_action_one_line.
  2:{ reflexivity. }
  2:{ replace ("ACTION: " ++ NAME ++ ")") with (("ACTION: " ++ NAME) ++ ")")
        by (now rewrite !append_assoc).
      now rewrite last_char_snoc. }
  2:{ change ("ACTION: " ++ NAME ++ ")") with ("ACTION: " ++ (NAME ++ ")")).
      rewrite !all_chars_app.
      now rewrite (plain_no_char NAME (ascii_of_N 10) eq_refl HNall). }
  2:{ reflexivity. }
  unfold parse_line.
  change ("ACTION: " ++ NAME ++ ")") with ("ACTION:" ++ String " " (NAME ++ ")")).
  rewrite replace_action.
  set (body := NAME ++ ")").
  assert (Hstrip : Py.strip (String " " body) = body).
  { apply strip_space.
    - unfold body. now rewrite first_char_app.
    - unfold body. now rewrite last_char_snoc. }
  rewrite Hstrip.
  assert (Hno_open : Py.all_chars (fun d => negb (Ascii.eqb d "(")) body = true).
  { unfold body. rewrite all_chars_app.
    now rewrite (plain_no_char NAME "(" eq_refl HNall). }
  rewrite (contains_char_false "(" body Hno_open).
  assert (Hclose : Py.contains ")" body = true).
  { unfold body. apply contains_skip. reflexivity. }
  rewrite Hclose. cbn [negb andb].
  unfold Py.find. rewrite (find_from_none "(" body 0 Hno_open).
  change (-1 + 1)%Z with 0%Z.
  assert (Hname : Py.slice body 0 (-1) = NAME) by apply slice_drop_last.
  rewrite Hname, slice_from_start.
  unfold body at 1.
  rewrite (scan_inert_app NAME ")" 0
             (all_chars_impl _ _ NAME plain_scan_inert HNall)), scan_close.
  cbv beta iota zeta. change (negb (0 =? 0)%Z) with false. cbv iota.
  replace (0 + Py.len NAME + 1 - 1)%Z with (Py.len NAME) by lia.
  unfold body. rewrite slice_head, (strip_id NAME HNf HNl), HNne. cbn [negb].
  unfold Shlex.split.
  rewrite (tokens_word_end NAME Shlex.StSpace HNne
             (all_chars_impl _ _ NAME plain_lex_inert HNall)).
  cbn [bind collect]. rewrite (strip_id NAME HNf HNl).
  rewrite (contains_char_false "=" NAME) by (now apply plain_no_char).
  destruct (coerce NAME) as [v|e]; reflexivity.
Qed.

(** X14 on a sample. *)
Lemma parse_action_stray_parenthesis_witness :
  parse_action "ACTION: list_tables)"
  = Ok (Some ("list_tables", [VStr "list_tables"], [])).
Proof. exact (parse_action_stray_parenthesis "list_tables" eq_refl). Defined.
